(** * WebLookMaxing: orders, payments and provider webhooks

    A shallow embedding of the checkout back end: the mongoose models
    [Order], [Payment] and [Product], the order and payment controllers,
    the PayPal and Nequi webhook routes, the provider services' token
    cache, and [calculateTax].

    Conventions.
    - A mongoose collection is a [list] of documents in insertion order;
      [findOne] returns the first match and [findOneAndUpdate] rewrites the
      first match.  Unique indexes are checked by [save].
    - [Date] values are [Z] milliseconds since the epoch; a handler that
      reads the clock receives its reading [now].
    - Calls that leave the process (the providers' HTTP APIs) are inputs of
      the handlers: [Some r] is the value the awaited call returned, [None]
      means it threw.
    - Documents carry the fields the handlers read or write.  The
      [created_at]/[updated_at] pair, which the schema option [timestamps]
      rewrites on every [save] and every [findOneAndUpdate], is not part of
      them: two stores that are equal here may differ in those dates.  Of
      the string setters of the schemas only the [trim] of [Order.notes],
      which decides its length test, is represented.
    - A string is its sequence of code units, each below 256.
    - Numbers are IEEE doubles in the code.  Amounts are integers and are
      [Z] here, with exact sums and products, which is what doubles compute
      below 2^53; [subtotal * 0.19] is rounded to 53 significant bits as the
      double product is (module [Double]). *)

From Stdlib Require Import ZArith NArith List String Ascii Bool Lia QArith Qround.
From Stdlib Require Import DecimalString DecimalPos DecimalN.
Import ListNotations.

Local Open Scope string_scope.
Local Open Scope Z_scope.

(** ** JavaScript helpers *)

Module JS.

(** Truthiness of a [string | null] value: null and the empty string are
    falsy. *)
Definition truthy (s : option string) : bool :=
  match s with
  | Some s => negb (String.eqb s "")
  | None => false
  end.

(** [a || b] on strings. *)
Definition or_else (a : option string) (b : string) : string :=
  match a with
  | Some s => if String.eqb s "" then b else s
  | None => b
  end.

(** [a === b] where either side may be [undefined]. *)
Definition strict_eq (a b : option string) : bool :=
  match a, b with
  | Some x, Some y => String.eqb x y
  | None, None => true
  | _, _ => false
  end.

(** [Math.round]: the nearest integer, halves going up. *)
Definition Math_round (x : Q) : Z := Qfloor (x + (1 # 2)).

(** Template-literal rendering of a non-negative integer. *)
Definition number_toString (n : Z) : string :=
  NilZero.string_of_uint (N.to_uint (Z.to_N n)).

(** [WhiteSpace] and [LineTerminator] among the code units below 256: tab,
    line feed, vertical tab, form feed, carriage return, space and the
    no-break space. *)
Definition is_space (a : ascii) : bool :=
  match N_of_ascii a with
  | 9 | 10 | 11 | 12 | 13 | 32 | 160 => true
  | _ => false
  end%N.

Fixpoint trimStart (s : string) : string :=
  match s with
  | EmptyString => EmptyString
  | String a rest => if is_space a then trimStart rest else s
  end.

Fixpoint trimEnd (s : string) : string :=
  match s with
  | EmptyString => EmptyString
  | String a rest =>
      match trimEnd rest with
      | EmptyString => if is_space a then EmptyString else String a EmptyString
      | kept => String a kept
      end
  end.

(** [s.trim()] *)
Definition trim (s : string) : string := trimEnd (trimStart s).

End JS.

(** ** IEEE-754 doubles

    The product of two doubles is their exact product rounded to 53
    significant bits, to nearest, ties to the even significand.  The
    exponent range plays no part at the magnitudes of amounts and is left
    out. *)
Module Double.

(** A finite double: [mant * 2 ^ expo]. *)
Record t : Type := { mant : Z; expo : Z }.

(** By how many bits a non-negative integer exceeds 53 significant bits. *)
Definition excess (n : Z) : Z := Z.max 0 (Z.log2 n + 1 - 53).

(** A non-negative integer rounded to 53 significant bits. *)
Definition round53 (n : Z) : Z :=
  let sh := excess n in
  let q := n / 2 ^ sh in
  let r := n mod 2 ^ sh in
  if (2 ^ sh <? 2 * r) || ((2 ^ sh =? 2 * r) && Z.odd q)
  then (q + 1) * 2 ^ sh
  else q * 2 ^ sh.

Definition round (n : Z) : Z := Z.sgn n * round53 (Z.abs n).

(** The double that holds an integer. *)
Definition of_Z (n : Z) : t := {| mant := round n; expo := 0 |}.

(** [x * y] *)
Definition mul (x y : t) : t :=
  {| mant := round (mant x * mant y); expo := expo x + expo y |}.

(** The rational a double denotes. *)
Definition to_Q (x : t) : Q :=
  if 0 <=? expo x then inject_Z (mant x * 2 ^ expo x)
  else mant x # Z.to_pos (2 ^ (- expo x)).

(** The literal [0.19], whose double is 0x3FC851EB851EB852:
    6845471433603154 * 2^-55, a little above 19/100. *)
Definition lit_0_19 : t := {| mant := 6845471433603154; expo := -55 |}.

End Double.

(** ** Models *)

Inductive OrderStatus : Type :=
| pending | paid | cancelled | preparing | shipped | delivered | refunded.

Inductive PaymentStatus : Type :=
| pay_pending | pay_completed | pay_failed | pay_cancelled | pay_refunded.

Inductive Provider : Type := paypal | nequi | manual.

Inductive Currency : Type := COP | USD.

Inductive Role : Type := customer | admin.

Definition OrderStatus_eqb (a b : OrderStatus) : bool :=
  match a, b with
  | pending, pending | paid, paid | cancelled, cancelled
  | preparing, preparing | shipped, shipped | delivered, delivered
  | refunded, refunded => true
  | _, _ => false
  end.

Definition PaymentStatus_eqb (a b : PaymentStatus) : bool :=
  match a, b with
  | pay_pending, pay_pending | pay_completed, pay_completed
  | pay_failed, pay_failed | pay_cancelled, pay_cancelled
  | pay_refunded, pay_refunded => true
  | _, _ => false
  end.

(** The string forms accepted by the schemas' [enum] lists. *)
Definition OrderStatus_of_string (s : string) : option OrderStatus :=
  if String.eqb s "pending" then Some pending
  else if String.eqb s "paid" then Some paid
  else if String.eqb s "cancelled" then Some cancelled
  else if String.eqb s "preparing" then Some preparing
  else if String.eqb s "shipped" then Some shipped
  else if String.eqb s "delivered" then Some delivered
  else if String.eqb s "refunded" then Some refunded
  else None.

Definition Provider_of_string (s : string) : option Provider :=
  if String.eqb s "paypal" then Some paypal
  else if String.eqb s "nequi" then Some nequi
  else if String.eqb s "manual" then Some manual
  else None.

(** Payloads stored in [Payment.raw_response] (schema type [Mixed]). *)
Record PayPalResource : Type := {
  resource_id : string;
  resource_rest : string
}.

Record PayPalBody : Type := {
  event_type : string;
  resource : option PayPalResource
}.

Record NequiBody : Type := {
  eventType : string;
  paymentId : string;
  status : string;
  nequi_rest : string
}.

Record CaptureData : Type := {
  capture_status : string;
  capture_rest : string
}.

Inductive RawResponse : Type :=
| raw_default
| raw_paypal (r : PayPalResource)
| raw_nequi (webhookData : NequiBody)
| raw_capture (captureData : CaptureData)
| raw_refund (refundResult : string).

Module Product.
Record t : Type := {
  id : string;
  title : string;
  price_cop : Z;
  inventory : option Z;
  sku : string;
  active : bool
}.
End Product.

Module OrderItem.
Record t : Type := {
  product_id : string;
  title : string;
  price_cop : Z;
  quantity : Z;
  sku : string
}.
End OrderItem.

Module Order.
Record t : Type := {
  id : string;
  user_id : option string;
  user_email : option string;
  user_phone : option string;
  items : list OrderItem.t;
  subtotal_cop : Z;
  tax_cop : Z;
  total_cop : Z;
  currency : Currency;
  status : OrderStatus;
  payment_provider : Provider;
  payment_id : option string;
  payment_status : PaymentStatus;
  notes : option string;
  paid_at : option Z   (* declared by IOrder; not a path of OrderSchema *)
}.

Definition set_status (s : OrderStatus) (o : t) : t :=
  {| id := id o; user_id := user_id o; user_email := user_email o;
     user_phone := user_phone o; items := items o;
     subtotal_cop := subtotal_cop o; tax_cop := tax_cop o;
     total_cop := total_cop o; currency := currency o;
     status := s;
     payment_provider := payment_provider o; payment_id := payment_id o;
     payment_status := payment_status o; notes := notes o;
     paid_at := paid_at o |}.

Definition set_payment_status (s : PaymentStatus) (o : t) : t :=
  {| id := id o; user_id := user_id o; user_email := user_email o;
     user_phone := user_phone o; items := items o;
     subtotal_cop := subtotal_cop o; tax_cop := tax_cop o;
     total_cop := total_cop o; currency := currency o;
     status := status o;
     payment_provider := payment_provider o; payment_id := payment_id o;
     payment_status := s; notes := notes o;
     paid_at := paid_at o |}.

Definition set_payment_id (p : string) (o : t) : t :=
  {| id := id o; user_id := user_id o; user_email := user_email o;
     user_phone := user_phone o; items := items o;
     subtotal_cop := subtotal_cop o; tax_cop := tax_cop o;
     total_cop := total_cop o; currency := currency o;
     status := status o;
     payment_provider := payment_provider o; payment_id := Some p;
     payment_status := payment_status o; notes := notes o;
     paid_at := paid_at o |}.

(** The [notes] of [{ status, notes, updated_at: new Date() }] in
    [updateOrderStatus]: the schema's [trim] setter runs on the value, and
    mongoose drops an undefined key from the update, so an absent [notes]
    leaves the field alone. *)
Definition set_notes (n : option string) (o : t) : t :=
  {| id := id o; user_id := user_id o; user_email := user_email o;
     user_phone := user_phone o; items := items o;
     subtotal_cop := subtotal_cop o; tax_cop := tax_cop o;
     total_cop := total_cop o; currency := currency o;
     status := status o;
     payment_provider := payment_provider o; payment_id := payment_id o;
     payment_status := payment_status o;
     notes := match n with Some s => Some (JS.trim s) | None => notes o end;
     paid_at := paid_at o |}.
End Order.

Module Payment.
Record t : Type := {
  id : string;
  order_id : string;
  provider : Provider;
  provider_payment_id : option string;
  status : PaymentStatus;
  amount_cop : Z;
  currency : Currency;
  raw_response : RawResponse;
  confirmed_at : option Z   (* declared by IPayment; not a path of PaymentSchema *)
}.

Definition set_status (s : PaymentStatus) (p : t) : t :=
  {| id := id p; order_id := order_id p; provider := provider p;
     provider_payment_id := provider_payment_id p;
     status := s;
     amount_cop := amount_cop p; currency := currency p;
     raw_response := raw_response p; confirmed_at := confirmed_at p |}.

Definition set_raw_response (r : RawResponse) (p : t) : t :=
  {| id := id p; order_id := order_id p; provider := provider p;
     provider_payment_id := provider_payment_id p;
     status := status p;
     amount_cop := amount_cop p; currency := currency p;
     raw_response := r; confirmed_at := confirmed_at p |}.
End Payment.

(** The database: one collection per model. *)
Record Store : Type := {
  products : list Product.t;
  orders : list Order.t;
  payments : list Payment.t
}.

(** ** mongoose: queries, updates and [save] *)

Module Mongo.

(** [Model.findOne(q)]: the first document matching [q]. *)
Definition findOne {A : Type} (q : A -> bool) (c : list A) : option A :=
  find q c.

(** [Model.findOneAndUpdate(q, u)]: the first document matching [q] is
    replaced by its update; a collection without a match is unchanged. *)
Fixpoint findOneAndUpdate {A : Type} (q : A -> bool) (u : A -> A)
    (c : list A) : list A :=
  match c with
  | [] => []
  | d :: c' => if q d then u d :: c' else d :: findOneAndUpdate q u c'
  end.

Inductive SaveError : Type :=
| ValidationError (path : string)
| E11000 (index : string).

(** A [required] string path rejects the empty string. *)
Definition required (s : string) : bool := negb (String.eqb s "").

End Mongo.

(** Queries used by the handlers. *)
Definition order_by_id (i : string) (o : Order.t) : bool :=
  String.eqb (Order.id o) i.

Definition payment_by_id (i : string) (p : Payment.t) : bool :=
  String.eqb (Payment.id p) i.

Definition payment_by_order_id (i : string) (p : Payment.t) : bool :=
  String.eqb (Payment.order_id p) i.

Definition payment_by_provider_payment_id (r : string) (p : Payment.t) : bool :=
  JS.strict_eq (Payment.provider_payment_id p) (Some r).

Definition product_by_id (i : string) (p : Product.t) : bool :=
  String.eqb (Product.id p) i.

Definition active_product_by_id (i : string) (p : Product.t) : bool :=
  String.eqb (Product.id p) i && Product.active p.

(** [payment.save()] against [PaymentSchema]: the path validators, then the
    unique index on [id].

    The schema also asks for a unique index on [order_id], with
    [PaymentSchema.index({ order_id: 1 }, { unique: true })], but the path
    [order_id] is declared [index: true]: the plain index on that key is
    requested first, under the name the unique one would take, and MongoDB
    refuses to build a second index on the same key with other options.
    No uniqueness is in force on [order_id], and [save] checks none. *)
Definition Payment_save (p : Payment.t) (c : list Payment.t)
  : Mongo.SaveError + list Payment.t :=
  if negb (Mongo.required (Payment.id p)) then
    inl (Mongo.ValidationError "id")
  else if negb (Mongo.required (Payment.order_id p)) then
    inl (Mongo.ValidationError "order_id")
  else if Payment.amount_cop p <? 0 then
    inl (Mongo.ValidationError "amount_cop")
  else if existsb (payment_by_id (Payment.id p)) c then
    inl (Mongo.E11000 "id")
  else inr (c ++ [p])%list.

Definition with_orders (os : list Order.t) (db : Store) : Store :=
  {| products := products db; orders := os; payments := payments db |}.

Definition with_payments (ps : list Payment.t) (db : Store) : Store :=
  {| products := products db; orders := orders db; payments := ps |}.

Definition with_products (ps : list Product.t) (db : Store) : Store :=
  {| products := ps; orders := orders db; payments := payments db |}.

(** ** utils/helpers.ts *)

(** [calculateTax(subtotal, taxRate = 0.19)]:
    [Math.round(subtotal * taxRate)], the product being that of two
    doubles.  [Math.round] itself is exact. *)
Definition calculateTax (subtotal : Z) (taxRate : Double.t) : Z :=
  JS.Math_round (Double.to_Q (Double.mul (Double.of_Z subtotal) taxRate)).

Definition default_taxRate : Double.t := Double.lit_0_19.

(** ** HTTP responses *)

Inductive Body : Type :=
| errors_array
| error (msg : string)
| received
| paypal_payment_json (orderID : string) (approvalUrl : option string)
| nequi_payment_json (paymentId : string) (qrImage redirectUrl : option string)
| capture_json (captureData : CaptureData)
| refund_json (refundResult : string)
| order_created_json (orderId : string) (total_cop : Z) (currency : Currency)
    (status : OrderStatus)
| order_json (order : Order.t).

Record Response : Type := { code : Z; body : Body }.

Definition res (c : Z) (b : Body) : Response := {| code := c; body := b |}.

(** ** Authenticated user, as attached by the auth middleware *)

Record AuthUser : Type := { userId : string; role : Role }.

Definition is_admin (u : option AuthUser) : bool :=
  match u with
  | Some {| role := admin |} => true
  | _ => false
  end.

Definition user_userId (u : option AuthUser) : option string :=
  match u with
  | Some a => Some (userId a)
  | None => None
  end.

(** ** Provider services: the access-token cache *)

Record TokenResponse : Type := {
  access_token : string;
  expires_in : Z
}.

Record ServiceState : Type := {
  accessToken : option string;
  tokenExpiry : option Z
}.

Definition new_Service : ServiceState :=
  {| accessToken := None; tokenExpiry := None |}.

(** [this.accessToken && this.tokenExpiry && this.tokenExpiry > new Date()] *)
Definition cached_token_valid (now : Z) (this : ServiceState) : bool :=
  JS.truthy (accessToken this) &&
  match tokenExpiry this with
  | Some e => now <? e
  | None => false
  end.

Module PayPalService.

(** [getAccessToken]: [now] is the clock at the cache test; [http] is the
    outcome of the token request with the clock at its arrival. *)
Definition getAccessToken (now : Z) (http : option (TokenResponse * Z))
    (this : ServiceState) : (string + string) * ServiceState :=
  if cached_token_valid now this then
    (inr (match accessToken this with Some t => t | None => "" end), this)
  else
    match http with
    | Some (data, date_now) =>
        (inr (access_token data),
         {| accessToken := Some (access_token data);
            tokenExpiry := Some (date_now + (expires_in data - 1800) * 1000) |})
    | None => (inl "Failed to authenticate with PayPal", this)
    end.

(** [generateWebhookSignature]: a placeholder built from the clock. *)
Definition generateWebhookSignature (now : Z) (body : PayPalBody)
    (webhookId : option string) : string :=
  "placeholder-signature-" ++ JS.number_toString now.

Definition verifyWebhookSignature (now : Z) (body : PayPalBody)
    (signature : option string) (webhookId : option string) : bool :=
  JS.strict_eq signature (Some (generateWebhookSignature now body webhookId)).

End PayPalService.

Module NequiService.

Definition getAccessToken (now : Z) (http : option (TokenResponse * Z))
    (this : ServiceState) : (string + string) * ServiceState :=
  if cached_token_valid now this then
    (inr (match accessToken this with Some t => t | None => "" end), this)
  else
    match http with
    | Some (data, date_now) =>
        (inr (access_token data),
         {| accessToken := Some (access_token data);
            tokenExpiry := Some (date_now + (expires_in data - 1800) * 1000) |})
    | None => (inl "Failed to authenticate with Nequi", this)
    end.

Section Crypto.
(** [crypto.createHmac('sha256', secret).update(data).digest('hex')] and
    [JSON.stringify] belong to the runtime. *)
Variable hmac_sha256_hex : string -> string -> string.
Variable JSON_stringify : NequiBody -> string.

Definition generateWebhookSignature (NEQUI_WEBHOOK_SECRET : option string)
    (payload : NequiBody) (timestamp : option string) : string :=
  let secret := JS.or_else NEQUI_WEBHOOK_SECRET "fallback-secret" in
  let data := JSON_stringify payload ++
              match timestamp with Some t => t | None => "undefined" end in
  hmac_sha256_hex secret data.

Definition verifyWebhookSignature (NEQUI_WEBHOOK_SECRET : option string)
    (payload : NequiBody) (signature : option string)
    (timestamp : option string) : bool :=
  JS.strict_eq signature
    (Some (generateWebhookSignature NEQUI_WEBHOOK_SECRET payload timestamp)).
End Crypto.

End NequiService.

(** ** Library functions of the runtime

    express-validator's string checks, the e-mail pattern of [OrderSchema],
    and the HMAC and JSON primitives used by the Nequi signature. *)
Record Runtime : Type := {
  isURL : string -> bool;
  isEmail : string -> bool;
  isMobilePhone_esCO : string -> bool;
  user_email_match : string -> bool;
  hmac_sha256_hex : string -> string -> string;
  JSON_stringify : NequiBody -> string
}.

(** [process.env] *)
Record Env : Type := {
  NODE_ENV : option string;
  PAYPAL_WEBHOOK_ID_LIVE : option string;
  PAYPAL_WEBHOOK_ID_SANDBOX : option string;
  NEQUI_WEBHOOK_SECRET : option string
}.

(** [body(f).optional().check()] *)
Definition optional (check : string -> bool) (v : option string) : bool :=
  match v with
  | Some s => check s
  | None => true
  end.

Definition isLength_min1 (s : string) : bool := (1 <=? String.length s)%nat.

(** ** controllers/orderController.ts *)

Module CreateOrderReq.
Record item : Type := {
  product_id : string;
  quantity : Z;
  price_cop : option Z   (* sent by some clients; never read *)
}.
Record t : Type := {
  user : option AuthUser;
  items : list item;
  user_email : option string;
  user_phone : option string;
  payment_method : string;
  notes : option string
}.
End CreateOrderReq.

Module UpdateOrderStatusReq.
Record t : Type := {
  user : option AuthUser;
  id : string;           (* req.params.id *)
  status : string;
  notes : option string
}.
End UpdateOrderStatusReq.

Definition max_notes_length : nat := 500.

(** [maxlength: 500] on the stored [notes]. *)
Definition notes_maxlength (n : option string) : bool :=
  match n with
  | Some s => (String.length s <=? max_notes_length)%nat
  | None => true
  end.

(** The same on the [notes] of a request: the [trim] setter runs before
    the validator. *)
Definition notes_ok (n : option string) : bool :=
  notes_maxlength (option_map JS.trim n).

Definition OrderItem_valid (i : OrderItem.t) : bool :=
  Mongo.required (OrderItem.product_id i) &&
  Mongo.required (OrderItem.title i) &&
  (0 <=? OrderItem.price_cop i) &&
  (1 <=? OrderItem.quantity i) &&
  Mongo.required (OrderItem.sku i).

Section Controllers.

Variable rt : Runtime.

Definition validate_createOrder (req : CreateOrderReq.t) : bool :=
  negb (match CreateOrderReq.items req with [] => true | _ => false end) &&
  forallb (fun i => isLength_min1 (CreateOrderReq.product_id i))
          (CreateOrderReq.items req) &&
  forallb (fun i => 1 <=? CreateOrderReq.quantity i)
          (CreateOrderReq.items req) &&
  (match Provider_of_string (CreateOrderReq.payment_method req) with
   | Some _ => true | None => false end) &&
  optional (isEmail rt) (CreateOrderReq.user_email req) &&
  optional (isMobilePhone_esCO rt) (CreateOrderReq.user_phone req).

Definition validate_updateOrderStatus (req : UpdateOrderStatusReq.t) : bool :=
  match OrderStatus_of_string (UpdateOrderStatusReq.status req) with
  | Some _ => true
  | None => false
  end.

(** The loop over [items] of [createOrder]: the running subtotal and the
    validated items, or the message of the early 400 response. *)
Fixpoint validate_items (ps : list Product.t) (items : list CreateOrderReq.item)
    (subtotal_cop : Z) (validatedItems : list OrderItem.t)
  : string + (Z * list OrderItem.t) :=
  match items with
  | [] => inr (subtotal_cop, validatedItems)
  | item :: rest =>
      match Mongo.findOne (active_product_by_id (CreateOrderReq.product_id item)) ps with
      | None =>
          inl ("Product " ++ CreateOrderReq.product_id item ++ " not found or inactive")
      | Some product =>
          if match Product.inventory product with
             | Some inv => inv <? CreateOrderReq.quantity item
             | None => false
             end
          then inl ("Insufficient inventory for product " ++ Product.title product)
          else
            validate_items ps rest
              (subtotal_cop + Product.price_cop product * CreateOrderReq.quantity item)
              (validatedItems ++
               [ {| OrderItem.product_id := Product.id product;
                    OrderItem.title := Product.title product;
                    OrderItem.price_cop := Product.price_cop product;
                    OrderItem.quantity := CreateOrderReq.quantity item;
                    OrderItem.sku := Product.sku product |} ])%list
      end
  end.

(** [order.save()] against [OrderSchema]. *)
Definition Order_save (o : Order.t) (c : list Order.t)
  : Mongo.SaveError + list Order.t :=
  if negb (Mongo.required (Order.id o)) then inl (Mongo.ValidationError "id")
  else if negb (optional (user_email_match rt) (Order.user_email o)) then
    inl (Mongo.ValidationError "user_email")
  else if negb (forallb OrderItem_valid (Order.items o)) then
    inl (Mongo.ValidationError "items")
  else if Order.subtotal_cop o <? 0 then inl (Mongo.ValidationError "subtotal_cop")
  else if Order.tax_cop o <? 0 then inl (Mongo.ValidationError "tax_cop")
  else if Order.total_cop o <? 0 then inl (Mongo.ValidationError "total_cop")
  else if negb (notes_maxlength (Order.notes o)) then
    inl (Mongo.ValidationError "notes")
  else if existsb (order_by_id (Order.id o)) c then inl (Mongo.E11000 "id")
  else inr (c ++ [o])%list.

(** [{ $inc: { inventory: -quantity } }]; MongoDB refuses [$inc] on a
    field holding [null]. *)
Definition inc_inventory (q : Z) (p : Product.t) : Product.t :=
  {| Product.id := Product.id p; Product.title := Product.title p;
     Product.price_cop := Product.price_cop p;
     Product.inventory :=
       match Product.inventory p with
       | Some inv => Some (inv + - q)
       | None => None
       end;
     Product.sku := Product.sku p; Product.active := Product.active p |}.

(** The inventory loop; [false] when an update threw, with the updates
    made until then in place. *)
Fixpoint update_inventory (validatedItems : list OrderItem.t)
    (ps : list Product.t) : bool * list Product.t :=
  match validatedItems with
  | [] => (true, ps)
  | item :: rest =>
      if 0 <? OrderItem.quantity item then
        match Mongo.findOne (product_by_id (OrderItem.product_id item)) ps with
        | Some {| Product.inventory := None |} => (false, ps)
        | _ =>
            update_inventory rest
              (Mongo.findOneAndUpdate (product_by_id (OrderItem.product_id item))
                 (inc_inventory (OrderItem.quantity item)) ps)
        end
      else update_inventory rest ps
  end.

Definition createOrder (generateOrderId : string) (req : CreateOrderReq.t)
    (db : Store) : Response * Store :=
  if negb (validate_createOrder req) then (res 400 errors_array, db)
  else
    match CreateOrderReq.items req with
    | [] => (res 400 (error "Items array is required and cannot be empty"), db)
    | _ =>
        match validate_items (products db) (CreateOrderReq.items req) 0 [] with
        | inl msg => (res 400 (error msg), db)
        | inr (subtotal_cop, validatedItems) =>
            let tax_cop := calculateTax subtotal_cop default_taxRate in
            let total_cop := subtotal_cop + tax_cop in
            match Provider_of_string (CreateOrderReq.payment_method req) with
            | None => (res 500 (error "Failed to create order"), db)
            | Some payment_method =>
                let order :=
                  {| Order.id := generateOrderId;
                     Order.user_id := user_userId (CreateOrderReq.user req);
                     Order.user_email := CreateOrderReq.user_email req;
                     Order.user_phone := CreateOrderReq.user_phone req;
                     Order.items := validatedItems;
                     Order.subtotal_cop := subtotal_cop;
                     Order.tax_cop := tax_cop;
                     Order.total_cop := total_cop;
                     Order.currency := COP;
                     Order.status := pending;
                     Order.payment_provider := payment_method;
                     Order.payment_id := None;
                     Order.payment_status := pay_pending;
                     Order.notes := option_map JS.trim (CreateOrderReq.notes req);
                     Order.paid_at := None |} in
                match Order_save order (orders db) with
                | inl _ => (res 500 (error "Failed to create order"), db)
                | inr os =>
                    let db1 := with_orders os db in
                    match update_inventory validatedItems (products db1) with
                    | (false, ps) =>
                        (res 500 (error "Failed to create order"),
                         with_products ps db1)
                    | (true, ps) =>
                        (res 201 (order_created_json (Order.id order) total_cop
                                    (Order.currency order) (Order.status order)),
                         with_products ps db1)
                    end
                end
            end
        end
    end.

(** [now] is the [new Date()] the handler passes as [updated_at], a date
    the documents here do not carry. *)
Definition updateOrderStatus (now : Z) (req : UpdateOrderStatusReq.t)
    (db : Store) : Response * Store :=
  if negb (validate_updateOrderStatus req) then (res 400 errors_array, db)
  else if negb (is_admin (UpdateOrderStatusReq.user req)) then
    (res 403 (error "Access denied"), db)
  else
    match OrderStatus_of_string (UpdateOrderStatusReq.status req) with
    | None => (res 500 (error "Failed to update order status"), db)
    | Some status =>
        if negb (notes_ok (UpdateOrderStatusReq.notes req)) then
          (res 500 (error "Failed to update order status"), db)
        else
          let q := order_by_id (UpdateOrderStatusReq.id req) in
          let u := fun o =>
            Order.set_notes (UpdateOrderStatusReq.notes req)
              (Order.set_status status o) in
          match Mongo.findOne q (orders db) with
          | None => (res 404 (error "Order not found"), db)
          | Some old =>
              (res 200 (order_json (u old)),
               with_orders (Mongo.findOneAndUpdate q u (orders db)) db)
          end
    end.


(** ** controllers/paymentController.ts *)

Record PayPalPaymentReq : Type := {
  pp_user : option AuthUser;
  pp_order_id : string;
  pp_return_url : option string;
  pp_cancel_url : option string
}.

Record NequiPaymentReq : Type := {
  nq_user : option AuthUser;
  nq_order_id : string;
  nq_phone : string;
  nq_return_url : option string
}.

Record RefundReq : Type := {
  rf_user : option AuthUser;
  rf_payment_id : string;
  rf_amount : option Z
}.

(** What [paypalService.createOrder] and
    [nequiService.createPaymentRequest] resolve to. *)
Record PayPalOrderData : Type := {
  orderID : string;
  approvalUrl : option string
}.

Record NequiPaymentData : Type := {
  nq_paymentId : string;
  nq_qrImage : option string;
  nq_redirectUrl : option string
}.

Definition validate_createPayPalPayment (req : PayPalPaymentReq) : bool :=
  isLength_min1 (pp_order_id req) &&
  optional (isURL rt) (pp_return_url req) &&
  optional (isURL rt) (pp_cancel_url req).

Definition validate_createNequiPayment (req : NequiPaymentReq) : bool :=
  isLength_min1 (nq_order_id req) &&
  isMobilePhone_esCO rt (nq_phone req) &&
  optional (isURL rt) (nq_return_url req).

Definition validate_capturePayPalPayment (orderId : string) : bool :=
  isLength_min1 orderId.

Definition validate_refundPayment (req : RefundReq) : bool :=
  isLength_min1 (rf_payment_id req).

(** [req.user?.role !== 'admin' && order.user_id !== req.user?.userId] *)
Definition access_denied (user : option AuthUser) (order : Order.t) : bool :=
  negb (is_admin user) &&
  negb (JS.strict_eq (Order.user_id order) (user_userId user)).

Definition new_Payment (id : string) (order : Order.t) (provider : Provider)
    (provider_payment_id : string) : Payment.t :=
  {| Payment.id := id;
     Payment.order_id := Order.id order;
     Payment.provider := provider;
     Payment.provider_payment_id := Some provider_payment_id;
     Payment.status := pay_pending;
     Payment.amount_cop := Order.total_cop order;
     Payment.currency := Order.currency order;
     Payment.raw_response := raw_default;
     Payment.confirmed_at := None |}.

Definition createPayPalPayment (generatePaymentId : string)
    (paypal_createOrder : option PayPalOrderData)
    (req : PayPalPaymentReq) (db : Store) : Response * Store :=
  if negb (validate_createPayPalPayment req) then (res 400 errors_array, db)
  else
    match Mongo.findOne (order_by_id (pp_order_id req)) (orders db) with
    | None => (res 404 (error "Order not found"), db)
    | Some order =>
        if negb (OrderStatus_eqb (Order.status order) pending) then
          (res 400 (error "Order is not in pending status"), db)
        else if access_denied (pp_user req) order then
          (res 403 (error "Access denied"), db)
        else
          match paypal_createOrder with
          | None => (res 500 (error "Failed to create PayPal payment"), db)
          | Some paymentData =>
              let payment :=
                new_Payment generatePaymentId order paypal (orderID paymentData) in
              match Payment_save payment (payments db) with
              | inl _ => (res 500 (error "Failed to create PayPal payment"), db)
              | inr ps =>
                  let db1 := with_payments ps db in
                  let db2 :=
                    with_orders
                      (Mongo.findOneAndUpdate (order_by_id (pp_order_id req))
                         (Order.set_payment_id (Payment.id payment)) (orders db1))
                      db1 in
                  (res 200 (paypal_payment_json (orderID paymentData)
                              (approvalUrl paymentData)), db2)
              end
          end
    end.

Definition createNequiPayment (generatePaymentId : string)
    (nequi_createPaymentRequest : option NequiPaymentData)
    (req : NequiPaymentReq) (db : Store) : Response * Store :=
  if negb (validate_createNequiPayment req) then (res 400 errors_array, db)
  else
    match Mongo.findOne (order_by_id (nq_order_id req)) (orders db) with
    | None => (res 404 (error "Order not found"), db)
    | Some order =>
        if negb (OrderStatus_eqb (Order.status order) pending) then
          (res 400 (error "Order is not in pending status"), db)
        else if access_denied (nq_user req) order then
          (res 403 (error "Access denied"), db)
        else
          match nequi_createPaymentRequest with
          | None => (res 500 (error "Failed to create Nequi payment"), db)
          | Some paymentData =>
              let payment :=
                new_Payment generatePaymentId order nequi (nq_paymentId paymentData) in
              match Payment_save payment (payments db) with
              | inl _ => (res 500 (error "Failed to create Nequi payment"), db)
              | inr ps =>
                  let db1 := with_payments ps db in
                  let db2 :=
                    with_orders
                      (Mongo.findOneAndUpdate (order_by_id (nq_order_id req))
                         (Order.set_payment_id (Payment.id payment)) (orders db1))
                      db1 in
                  (res 200 (nequi_payment_json (nq_paymentId paymentData)
                              (nq_qrImage paymentData) (nq_redirectUrl paymentData)),
                   db2)
              end
          end
    end.

(** The two writes shared by the completion paths:
    [{ status: 'completed', raw_response, confirmed_at: new Date() }] on the
    payment and [{ status: 'paid', payment_status: 'completed',
    paid_at: new Date() }] on its order.  [confirmed_at] is not a path of
    [PaymentSchema] and [paid_at] is not one of [OrderSchema]: mongoose, in
    its default strict mode, drops both keys from the update, so the clock
    reading [now] is stored nowhere. *)
Definition mark_completed (now : Z) (raw : RawResponse) (payment : Payment.t)
    (db : Store) : Store :=
  let db1 :=
    with_payments
      (Mongo.findOneAndUpdate (payment_by_id (Payment.id payment))
         (fun p => Payment.set_raw_response raw
                     (Payment.set_status pay_completed p))
         (payments db)) db in
  with_orders
    (Mongo.findOneAndUpdate (order_by_id (Payment.order_id payment))
       (fun o => Order.set_payment_status pay_completed
                   (Order.set_status paid o))
       (orders db1)) db1.

(** [{ status: 'failed', raw_response }] on the payment and
    [{ status: 'cancelled', payment_status: 'failed' }] on its order. *)
Definition mark_failed (raw : RawResponse) (payment : Payment.t)
    (db : Store) : Store :=
  let db1 :=
    with_payments
      (Mongo.findOneAndUpdate (payment_by_id (Payment.id payment))
         (fun p => Payment.set_raw_response raw (Payment.set_status pay_failed p))
         (payments db)) db in
  with_orders
    (Mongo.findOneAndUpdate (order_by_id (Payment.order_id payment))
       (fun o => Order.set_payment_status pay_failed
                   (Order.set_status cancelled o))
       (orders db1)) db1.

(** [{ status: 'refunded', raw_response }] on the payment and
    [{ status: 'refunded' }] on its order. *)
Definition mark_refunded (payment_id : string) (raw : RawResponse)
    (payment : Payment.t) (db : Store) : Store :=
  let db1 :=
    with_payments
      (Mongo.findOneAndUpdate (payment_by_id payment_id)
         (fun p => Payment.set_raw_response raw (Payment.set_status pay_refunded p))
         (payments db)) db in
  with_orders
    (Mongo.findOneAndUpdate (order_by_id (Payment.order_id payment))
       (Order.set_status refunded) (orders db1)) db1.

Definition capturePayPalPayment (now : Z)
    (paypal_captureOrder : option CaptureData)
    (orderId : string) (db : Store) : Response * Store :=
  if negb (validate_capturePayPalPayment orderId) then (res 400 errors_array, db)
  else
    match paypal_captureOrder with
    | None => (res 500 (error "Failed to capture PayPal payment"), db)
    | Some captureData =>
        if String.eqb (capture_status captureData) "COMPLETED" then
          match Mongo.findOne (payment_by_provider_payment_id orderId) (payments db) with
          | Some payment =>
              (res 200 (capture_json captureData),
               mark_completed now (raw_capture captureData) payment db)
          | None => (res 200 (capture_json captureData), db)
          end
        else (res 200 (capture_json captureData), db)
    end.

(** [provider_refund] is the outcome of [paypalService.refundOrder] or of
    [nequiService.refundPayment], whichever the payment's provider
    selects. *)
Definition refundPayment (provider_refund : option string)
    (req : RefundReq) (db : Store) : Response * Store :=
  if negb (validate_refundPayment req) then (res 400 errors_array, db)
  else if negb (is_admin (rf_user req)) then (res 403 (error "Access denied"), db)
  else
    match Mongo.findOne (payment_by_id (rf_payment_id req)) (payments db) with
    | None => (res 404 (error "Payment not found"), db)
    | Some payment =>
        match Payment.provider payment with
        | manual =>
            (res 400 (error "Refund not supported for this payment provider"), db)
        | paypal | nequi =>
            match provider_refund with
            | None => (res 500 (error "Failed to refund payment"), db)
            | Some refundResult =>
                (res 200 (refund_json refundResult),
                 mark_refunded (rf_payment_id req) (raw_refund refundResult)
                   payment db)
            end
        end
    end.

End Controllers.

(** ** routes/webhooks.ts *)

Record PayPalWebhookReq : Type := {
  paypal_transmission_signature : option string;
  paypal_body : PayPalBody
}.

Record NequiWebhookReq : Type := {
  x_nequi_signature : option string;
  x_nequi_timestamp : option string;
  nequi_body : NequiBody
}.

(** [process.env.NODE_ENV === 'production'] *)
Definition production (env : Env) : bool :=
  JS.strict_eq (NODE_ENV env) (Some "production").

(** The handlers return [None] when they throw (reading [resource.id] off
    an absent [resource]); the route's [catch] answers 500. *)
Definition handlePayPalPaymentCompleted (now : Z) (resource : option PayPalResource)
    (db : Store) : option Store :=
  match resource with
  | None => None
  | Some resource =>
      let orderId := resource_id resource in
      match Mongo.findOne (payment_by_provider_payment_id orderId) (payments db) with
      | Some payment =>
          if PaymentStatus_eqb (Payment.status payment) pay_pending then
            Some (mark_completed now (raw_paypal resource) payment db)
          else Some db
      | None => Some db
      end
  end.

Definition handlePayPalPaymentFailed (resource : option PayPalResource)
    (db : Store) : option Store :=
  match resource with
  | None => None
  | Some resource =>
      let orderId := resource_id resource in
      match Mongo.findOne (payment_by_provider_payment_id orderId) (payments db) with
      | Some payment => Some (mark_failed (raw_paypal resource) payment db)
      | None => Some db
      end
  end.

Definition handleNequiPaymentCompleted (now : Z) (paymentId : string)
    (webhookData : NequiBody) (db : Store) : option Store :=
  match Mongo.findOne (payment_by_provider_payment_id paymentId) (payments db) with
  | Some payment =>
      if PaymentStatus_eqb (Payment.status payment) pay_pending then
        Some (mark_completed now (raw_nequi webhookData) payment db)
      else Some db
  | None => Some db
  end.

Definition handleNequiPaymentFailed (paymentId : string)
    (webhookData : NequiBody) (db : Store) : option Store :=
  match Mongo.findOne (payment_by_provider_payment_id paymentId) (payments db) with
  | Some payment => Some (mark_failed (raw_nequi webhookData) payment db)
  | None => Some db
  end.

(** The tail of both routes: 200 after the handler ran, 500 when it threw. *)
Definition webhook_done (r : option Store) (db : Store) : Response * Store :=
  match r with
  | Some db' => (res 200 received, db')
  | None => (res 500 (error "Webhook processing failed"), db)
  end.

Definition post_paypal (env : Env) (now : Z) (req : PayPalWebhookReq)
    (db : Store) : Response * Store :=
  let signature := paypal_transmission_signature req in
  let webhookId :=
    if production env then PAYPAL_WEBHOOK_ID_LIVE env
    else PAYPAL_WEBHOOK_ID_SANDBOX env in
  if negb (PayPalService.verifyWebhookSignature now (paypal_body req)
             signature webhookId)
  then (res 400 (error "Invalid signature"), db)
  else
    let event_type := event_type (paypal_body req) in
    let resource := resource (paypal_body req) in
    if String.eqb event_type "PAYMENT.CAPTURE.COMPLETED" then
      webhook_done (handlePayPalPaymentCompleted now resource db) db
    else if String.eqb event_type "PAYMENT.CAPTURE.DENIED" then
      webhook_done (handlePayPalPaymentFailed resource db) db
    else (res 200 received, db).

Definition post_nequi (rt : Runtime) (env : Env) (now : Z) (req : NequiWebhookReq)
    (db : Store) : Response * Store :=
  let signature := x_nequi_signature req in
  let timestamp := x_nequi_timestamp req in
  if negb (NequiService.verifyWebhookSignature (hmac_sha256_hex rt)
             (JSON_stringify rt) (NEQUI_WEBHOOK_SECRET env)
             (nequi_body req) signature timestamp)
  then (res 400 (error "Invalid signature"), db)
  else
    let eventType := eventType (nequi_body req) in
    let paymentId := paymentId (nequi_body req) in
    if String.eqb eventType "PAYMENT_COMPLETED" then
      webhook_done (handleNequiPaymentCompleted now paymentId (nequi_body req) db) db
    else if String.eqb eventType "PAYMENT_FAILED" then
      webhook_done (handleNequiPaymentFailed paymentId (nequi_body req) db) db
    else (res 200 received, db).

(** ** The server as a transition system

    One constructor per route, carrying the request and the inputs the
    handler draws from outside (clock, generated id, provider outcome). *)
Inductive Event : Type :=
| POST_orders (generateOrderId : string) (req : CreateOrderReq.t)
| PUT_orders_status (now : Z) (req : UpdateOrderStatusReq.t)
| POST_payments_paypal_create (generatePaymentId : string)
    (paypal_createOrder : option PayPalOrderData) (req : PayPalPaymentReq)
| POST_payments_nequi_create (generatePaymentId : string)
    (nequi_createPaymentRequest : option NequiPaymentData) (req : NequiPaymentReq)
| POST_payments_paypal_capture (now : Z)
    (paypal_captureOrder : option CaptureData) (orderId : string)
| POST_payments_refund (provider_refund : option string) (req : RefundReq)
| POST_webhooks_paypal (now : Z) (req : PayPalWebhookReq)
| POST_webhooks_nequi (now : Z) (req : NequiWebhookReq).

Definition handle (rt : Runtime) (env : Env) (ev : Event) (db : Store)
  : Response * Store :=
  match ev with
  | POST_orders i req => createOrder rt i req db
  | PUT_orders_status now req => updateOrderStatus now req db
  | POST_payments_paypal_create i out req => createPayPalPayment rt i out req db
  | POST_payments_nequi_create i out req => createNequiPayment rt i out req db
  | POST_payments_paypal_capture now out orderId =>
      capturePayPalPayment now out orderId db
  | POST_payments_refund out req => refundPayment out req db
  | POST_webhooks_paypal now req => post_paypal env now req db
  | POST_webhooks_nequi now req => post_nequi rt env now req db
  end.

(** The store after a sequence of requests served one after the other. *)
Fixpoint serve (rt : Runtime) (env : Env) (evs : list Event) (db : Store) : Store :=
  match evs with
  | [] => db
  | ev :: rest => serve rt env rest (snd (handle rt env ev db))
  end.

(** ** Payment creation as interleavable steps

    [createPayPalPayment] and [createNequiPayment] give up control at each
    [await]: the order lookup, the provider call, [payment.save()] and the
    order update.  A call in flight is a [Proc]; [step] runs it up to its
    next [await]. *)
Module Concurrent.

Inductive Call : Type :=
| PayPalCall (generatePaymentId : string)
    (paypal_createOrder : option PayPalOrderData) (req : PayPalPaymentReq)
| NequiCall (generatePaymentId : string)
    (nequi_createPaymentRequest : option NequiPaymentData) (req : NequiPaymentReq).

Inductive Proc : Type :=
| at_findOne
| at_provider (order : Order.t)
| at_save (payment : Payment.t) (ok : Body)
| at_findOneAndUpdate (payment : Payment.t) (ok : Body)
| responded (r : Response).

Definition call_order_id (c : Call) : string :=
  match c with
  | PayPalCall _ _ req => pp_order_id req
  | NequiCall _ _ req => nq_order_id req
  end.

Definition call_user (c : Call) : option AuthUser :=
  match c with
  | PayPalCall _ _ req => pp_user req
  | NequiCall _ _ req => nq_user req
  end.

Definition call_payment_id (c : Call) : string :=
  match c with
  | PayPalCall i _ _ => i
  | NequiCall i _ _ => i
  end.

Definition call_valid (rt : Runtime) (c : Call) : bool :=
  match c with
  | PayPalCall _ _ req => validate_createPayPalPayment rt req
  | NequiCall _ _ req => validate_createNequiPayment rt req
  end.

Definition call_failed (c : Call) : Response :=
  match c with
  | PayPalCall _ _ _ => res 500 (error "Failed to create PayPal payment")
  | NequiCall _ _ _ => res 500 (error "Failed to create Nequi payment")
  end.

(** The provider's answer: the payment document to save and the body of
    the 200 response. *)
Definition call_provider (c : Call) (order : Order.t) : option (Payment.t * Body) :=
  match c with
  | PayPalCall i (Some d) _ =>
      Some (new_Payment i order paypal (orderID d),
            paypal_payment_json (orderID d) (approvalUrl d))
  | NequiCall i (Some d) _ =>
      Some (new_Payment i order nequi (nq_paymentId d),
            nequi_payment_json (nq_paymentId d) (nq_qrImage d) (nq_redirectUrl d))
  | _ => None
  end.

Definition step (rt : Runtime) (c : Call) (p : Proc) (db : Store) : Proc * Store :=
  match p with
  | at_findOne =>
      if negb (call_valid rt c) then (responded (res 400 errors_array), db)
      else
        match Mongo.findOne (order_by_id (call_order_id c)) (orders db) with
        | None => (responded (res 404 (error "Order not found")), db)
        | Some order =>
            if negb (OrderStatus_eqb (Order.status order) pending) then
              (responded (res 400 (error "Order is not in pending status")), db)
            else if access_denied (call_user c) order then
              (responded (res 403 (error "Access denied")), db)
            else (at_provider order, db)
        end
  | at_provider order =>
      match call_provider c order with
      | None => (responded (call_failed c), db)
      | Some (payment, ok) => (at_save payment ok, db)
      end
  | at_save payment ok =>
      match Payment_save payment (payments db) with
      | inl _ => (responded (call_failed c), db)
      | inr ps => (at_findOneAndUpdate payment ok, with_payments ps db)
      end
  | at_findOneAndUpdate payment ok =>
      (responded (res 200 ok),
       with_orders
         (Mongo.findOneAndUpdate (order_by_id (call_order_id c))
            (Order.set_payment_id (Payment.id payment)) (orders db)) db)
  | responded r => (responded r, db)
  end.

(** A call running with nothing in between. *)
Fixpoint steps (rt : Runtime) (n : nat) (c : Call) (p : Proc) (db : Store)
  : Proc * Store :=
  match n with
  | O => (p, db)
  | S n' => let '(p', db') := step rt c p db in steps rt n' c p' db'
  end.

(** Two calls under a schedule: [true] lets the first call take its next
    step, [false] the second. *)
Fixpoint interleave (rt : Runtime) (sched : list bool) (cA cB : Call)
    (pA pB : Proc) (db : Store) : Proc * Proc * Store :=
  match sched with
  | [] => (pA, pB, db)
  | true :: rest =>
      let '(pA', db') := step rt cA pA db in interleave rt rest cA cB pA' pB db'
  | false :: rest =>
      let '(pB', db') := step rt cB pB db in interleave rt rest cA cB pA pB' db'
  end.

(** The request a call serves. *)
Definition event_of (c : Call) : Event :=
  match c with
  | PayPalCall i out req => POST_payments_paypal_create i out req
  | NequiCall i out req => POST_payments_nequi_create i out req
  end.

Definition succeeded (p : Proc) : bool :=
  match p with
  | responded r => code r =? 200
  | _ => false
  end.

Definition failed (p : Proc) : bool :=
  match p with
  | responded r => code r =? 500
  | _ => false
  end.

Definition is_responded (p : Proc) : bool :=
  match p with
  | responded _ => true
  | _ => false
  end.

End Concurrent.

(** ** Properties of stores *)

(** The unique indexes in force: [Order.id] and [Payment.id]. *)
Definition indexes_hold (db : Store) : Prop :=
  NoDup (map Order.id (orders db)) /\
  NoDup (map Payment.id (payments db)).

(** Two stores with the same keys, row by row. *)
Definition same_keys (db db' : Store) : Prop :=
  map Order.id (orders db') = map Order.id (orders db) /\
  map Payment.id (payments db') = map Payment.id (payments db) /\
  map Payment.order_id (payments db') = map Payment.order_id (payments db).

(** The payment rows of an order whose status satisfies [P]. *)
Definition payments_of (order_id : string) (P : PaymentStatus -> bool)
    (db : Store) : list Payment.t :=
  filter (fun p => payment_by_order_id order_id p && P (Payment.status p))
         (payments db).

(** Statuses from which a payment attempt is still in flight. *)
Definition non_terminal (s : PaymentStatus) : bool :=
  match s with
  | pay_pending => true
  | _ => false
  end.

(** The edges of the payment life cycle as the specification draws it. *)
Definition legal_payment_edge (a b : PaymentStatus) : bool :=
  match a, b with
  | pay_pending, pay_completed
  | pay_pending, pay_failed
  | pay_completed, pay_refunded => true
  | _, _ => false
  end.

(** The edges of the order life cycle as the specification draws it. *)
Definition legal_order_edge (a b : OrderStatus) : bool :=
  match a, b with
  | pending, paid
  | pending, cancelled
  | paid, refunded => true
  | _, _ => false
  end.

Definition payment_status_of (id : string) (db : Store) : option PaymentStatus :=
  option_map Payment.status (Mongo.findOne (payment_by_id id) (payments db)).

Definition order_status_of (id : string) (db : Store) : option OrderStatus :=
  option_map Order.status (Mongo.findOne (order_by_id id) (orders db)).

Definition order_payment_id_of (id : string) (db : Store) : option string :=
  match Mongo.findOne (order_by_id id) (orders db) with
  | Some o => Order.payment_id o
  | None => None
  end.

(** A provider notification, and its delivery at a given clock reading. *)
Inductive Webhook : Type :=
| PayPalHook (req : PayPalWebhookReq)
| NequiHook (req : NequiWebhookReq).

Definition deliver (rt : Runtime) (env : Env) (w : Webhook) (now : Z)
    (db : Store) : Response * Store :=
  match w with
  | PayPalHook req => handle rt env (POST_webhooks_paypal now req) db
  | NequiHook req => handle rt env (POST_webhooks_nequi now req) db
  end.

(** The same notification delivered once per clock reading of [ts]. *)
Fixpoint deliver_at (rt : Runtime) (env : Env) (w : Webhook) (ts : list Z)
    (db : Store) : Store :=
  match ts with
  | [] => db
  | t :: rest => deliver_at rt env w rest (snd (deliver rt env w t db))
  end.

Definition verifies (rt : Runtime) (env : Env) (w : Webhook) (now : Z) : bool :=
  match w with
  | PayPalHook req =>
      PayPalService.verifyWebhookSignature now (paypal_body req)
        (paypal_transmission_signature req)
        (if production env then PAYPAL_WEBHOOK_ID_LIVE env
         else PAYPAL_WEBHOOK_ID_SANDBOX env)
  | NequiHook req =>
      NequiService.verifyWebhookSignature (hmac_sha256_hex rt) (JSON_stringify rt)
        (NEQUI_WEBHOOK_SECRET env) (nequi_body req)
        (x_nequi_signature req) (x_nequi_timestamp req)
  end.

(** The sum of [price_cop * quantity] over the items of an order. *)
Definition items_total (items : list OrderItem.t) : Z :=
  fold_right (fun i acc => OrderItem.price_cop i * OrderItem.quantity i + acc) 0 items.

(** An order item is priced from the catalogue: the active product that
    the requested [product_id] selects. *)
Definition priced_from (ps : list Product.t) (r : CreateOrderReq.item)
    (i : OrderItem.t) : Prop :=
  exists product,
    Mongo.findOne (active_product_by_id (CreateOrderReq.product_id r)) ps = Some product /\
    OrderItem.product_id i = Product.id product /\
    OrderItem.price_cop i = Product.price_cop product /\
    OrderItem.quantity i = CreateOrderReq.quantity r.

(** What a notification asks for once its signature is accepted: the
    [switch] of the two routes, read off the request. *)
Inductive Notice : Type :=
| reports_completed (provider_payment_id : string) (raw : RawResponse)
| reports_failed (provider_payment_id : string) (raw : RawResponse)
| unhandled
| malformed.

Definition notice (w : Webhook) : Notice :=
  match w with
  | PayPalHook req =>
      if String.eqb (event_type (paypal_body req)) "PAYMENT.CAPTURE.COMPLETED" then
        match resource (paypal_body req) with
        | Some r => reports_completed (resource_id r) (raw_paypal r)
        | None => malformed
        end
      else if String.eqb (event_type (paypal_body req)) "PAYMENT.CAPTURE.DENIED" then
        match resource (paypal_body req) with
        | Some r => reports_failed (resource_id r) (raw_paypal r)
        | None => malformed
        end
      else unhandled
  | NequiHook req =>
      if String.eqb (eventType (nequi_body req)) "PAYMENT_COMPLETED" then
        reports_completed (paymentId (nequi_body req)) (raw_nequi (nequi_body req))
      else if String.eqb (eventType (nequi_body req)) "PAYMENT_FAILED" then
        reports_failed (paymentId (nequi_body req)) (raw_nequi (nequi_body req))
      else unhandled
  end.

(** The four handlers of routes/webhooks.ts seen through [Notice]. *)
Definition apply_notice (now : Z) (n : Notice) (db : Store) : option Store :=
  match n with
  | reports_completed ref raw =>
      match Mongo.findOne (payment_by_provider_payment_id ref) (payments db) with
      | Some payment =>
          if PaymentStatus_eqb (Payment.status payment) pay_pending then
            Some (mark_completed now raw payment db)
          else Some db
      | None => Some db
      end
  | reports_failed ref raw =>
      match Mongo.findOne (payment_by_provider_payment_id ref) (payments db) with
      | Some payment => Some (mark_failed raw payment db)
      | None => Some db
      end
  | unhandled => Some db
  | malformed => None
  end.

(** A payment-creation request the provider answered: the order it is
    for, the generated payment id and the provider's correlation id. *)
Definition creation (ev : Event) : option (string * string * string) :=
  match ev with
  | POST_payments_paypal_create i (Some d) req =>
      Some (pp_order_id req, i, orderID d)
  | POST_payments_nequi_create i (Some d) req =>
      Some (nq_order_id req, i, nq_paymentId d)
  | _ => None
  end.

(** Any payment-creation request, and the order it is for. *)
Definition creation_order_id (ev : Event) : option string :=
  match ev with
  | POST_payments_paypal_create _ _ req => Some (pp_order_id req)
  | POST_payments_nequi_create _ _ req => Some (nq_order_id req)
  | _ => None
  end.

(** How one request may leave the orders collection: untouched, with one
    order appended, or with one order rewritten by an update that keeps the
    status or sets one allowed by [P]. *)
Inductive orders_step (P : OrderStatus -> Prop) (os : list Order.t)
  : list Order.t -> Prop :=
| orders_same : orders_step P os os
| orders_insert (o : Order.t) : orders_step P os (os ++ [o])%list
| orders_update (q : Order.t -> bool) (u : Order.t -> Order.t) :
    (forall d, Order.id (u d) = Order.id d) ->
    (forall d, Order.status (u d) = Order.status d \/ P (Order.status (u d))) ->
    orders_step P os (Mongo.findOneAndUpdate q u os).

(** The statuses that the payment flows write on an order. *)
Definition payment_flow_target (s : OrderStatus) : Prop :=
  s = paid \/ s = cancelled \/ s = refunded.

(** *** Two creation calls racing for one order

    The predicates below describe the states of a race between two calls
    for the order [oid], whose owner is [uid], started on the store [db0]. *)
Definition good_order (oid : string) (uid : option string) (o : Order.t) : Prop :=
  Order.id o = oid /\ Order.status o = pending /\
  Order.user_id o = uid /\ 0 <= Order.total_cop o.

Definition good_payment (oid : string) (c : Concurrent.Call) (pay : Payment.t) : Prop :=
  Payment.id pay = Concurrent.call_payment_id c /\
  Payment.order_id pay = oid /\ 0 <= Payment.amount_cop pay /\
  Payment.status pay = pay_pending.

(** The call's [payment.save()] went through. *)
Definition saved (p : Concurrent.Proc) : bool :=
  match p with
  | Concurrent.at_findOneAndUpdate _ _ | Concurrent.responded _ => true
  | _ => false
  end.

(** What holds of a call in flight that nothing has refused. *)
Definition on_track (oid : string) (uid : option string)
    (c : Concurrent.Call) (p : Concurrent.Proc) : Prop :=
  match p with
  | Concurrent.at_findOne => True
  | Concurrent.at_provider o => good_order oid uid o
  | Concurrent.at_save pay _ => good_payment oid c pay
  | Concurrent.at_findOneAndUpdate _ _ => True
  | Concurrent.responded r => code r = 200
  end.

(** What makes a call one that is answered 200 when it runs alone. *)
Definition ready (rt : Runtime) (db0 : Store) (oid : string)
    (uid : option string) (c : Concurrent.Call) : Prop :=
  Concurrent.call_order_id c = oid /\
  Concurrent.call_valid rt c = true /\
  negb (is_admin (Concurrent.call_user c)) &&
    negb (JS.strict_eq uid (user_userId (Concurrent.call_user c))) = false /\
  (forall o, Concurrent.call_provider c o <> None) /\
  Mongo.required (Concurrent.call_payment_id c) = true /\
  existsb (payment_by_id (Concurrent.call_payment_id c)) (payments db0) = false.

Definition order_inv (oid : string) (uid : option string) (db : Store) : Prop :=
  exists o, Mongo.findOne (order_by_id oid) (orders db) = Some o /\
            good_order oid uid o.

(** Both calls are on track, and the payments collection is that of [db0]
    followed by one pending row of the order per call that has saved. *)
Definition race_inv (db0 : Store) (oid : string) (uid : option string)
    (cA cB : Concurrent.Call) (pA pB : Concurrent.Proc) (db : Store) : Prop :=
  order_inv oid uid db /\
  on_track oid uid cA pA /\ on_track oid uid cB pB /\
  exists rows,
    payments db = (payments db0 ++ rows)%list /\
    List.length rows
    = ((if saved pA then 1 else 0) + (if saved pB then 1 else 0))%nat /\
    (forall pay, In pay rows ->
       Payment.order_id pay = oid /\ Payment.status pay = pay_pending) /\
    (saved pA = false ->
     ~ In (Concurrent.call_payment_id cA) (map Payment.id rows)) /\
    (saved pB = false ->
     ~ In (Concurrent.call_payment_id cB) (map Payment.id rows)).

(** ** Sample data *)

Module Sample.

Definition rt : Runtime :=
  {| isURL := fun _ => true;
     isEmail := fun _ => true;
     isMobilePhone_esCO := fun _ => true;
     user_email_match := fun _ => true;
     hmac_sha256_hex := fun secret data => "hmac(" ++ secret ++ "," ++ data ++ ")";
     JSON_stringify := fun b =>
       "{" ++ eventType b ++ "," ++ paymentId b ++ "," ++ status b ++ "}" |}.

Definition env : Env :=
  {| NODE_ENV := None;
     PAYPAL_WEBHOOK_ID_LIVE := None;
     PAYPAL_WEBHOOK_ID_SANDBOX := Some "WH-SANDBOX";
     NEQUI_WEBHOOK_SECRET := None |}.

Definition an_admin : AuthUser := {| userId := "u-admin"; role := admin |}.

Definition serum : Product.t :=
  {| Product.id := "prod-1"; Product.title := "Serum";
     Product.price_cop := 50000; Product.inventory := Some 10;
     Product.sku := "SKU-1"; Product.active := true |}.

Definition guide : Product.t :=
  {| Product.id := "prod-2"; Product.title := "Guide";
     Product.price_cop := 12350; Product.inventory := Some 3;
     Product.sku := "SKU-2"; Product.active := true |}.

Definition order_req : CreateOrderReq.t :=
  {| CreateOrderReq.user := None;
     CreateOrderReq.items :=
       [ {| CreateOrderReq.product_id := "prod-1"; CreateOrderReq.quantity := 2;
            CreateOrderReq.price_cop := Some 1 |};
         {| CreateOrderReq.product_id := "prod-2"; CreateOrderReq.quantity := 1;
            CreateOrderReq.price_cop := None |} ];
     CreateOrderReq.user_email := None;
     CreateOrderReq.user_phone := None;
     CreateOrderReq.payment_method := "paypal";
     CreateOrderReq.notes := None |}.

Definition catalogue : Store :=
  {| products := [serum; guide]; orders := []; payments := [] |}.

(** An order of 100000 + 19000 COP in a given state. *)
Definition order_in (s : OrderStatus) (ps : PaymentStatus)
    (payment_id : option string) : Order.t :=
  {| Order.id := "ORD_1"; Order.user_id := None; Order.user_email := None;
     Order.user_phone := None; Order.items := [];
     Order.subtotal_cop := 100000; Order.tax_cop := 19000;
     Order.total_cop := 119000; Order.currency := COP;
     Order.status := s; Order.payment_provider := paypal;
     Order.payment_id := payment_id; Order.payment_status := ps;
     Order.notes := None; Order.paid_at := None |}.

Definition payment_in (s : PaymentStatus) : Payment.t :=
  {| Payment.id := "PAY_1"; Payment.order_id := "ORD_1";
     Payment.provider := paypal;
     Payment.provider_payment_id := Some "PP-ORDER-7";
     Payment.status := s; Payment.amount_cop := 119000;
     Payment.currency := COP; Payment.raw_response := raw_default;
     Payment.confirmed_at := None |}.

(** A pending order for which no payment was opened yet. *)
Definition db_fresh : Store :=
  {| products := []; orders := [order_in pending pay_pending None];
     payments := [] |}.

(** The order with its payment attempt still pending. *)
Definition db_pending : Store :=
  {| products := [];
     orders := [order_in pending pay_pending (Some "PAY_1")];
     payments := [payment_in pay_pending] |}.

(** The order paid, its payment completed. *)
Definition db_paid : Store :=
  {| products := [];
     orders := [order_in paid pay_completed (Some "PAY_1")];
     payments := [payment_in pay_completed] |}.

(** The order refunded. *)
Definition db_refunded : Store :=
  {| products := [];
     orders := [order_in refunded pay_completed (Some "PAY_1")];
     payments := [payment_in pay_refunded] |}.

Definition t0 : Z := 1700000000000.

Definition capture_resource : PayPalResource :=
  {| resource_id := "PP-ORDER-7"; resource_rest := "{}" |}.

Definition paypal_hook (event : string) (sig : option string) : PayPalWebhookReq :=
  {| paypal_transmission_signature := sig;
     paypal_body := {| event_type := event; resource := Some capture_resource |} |}.

Definition good_sig : option string := Some "placeholder-signature-1700000000000".

Definition completed_hook : PayPalWebhookReq :=
  paypal_hook "PAYMENT.CAPTURE.COMPLETED" good_sig.

Definition forged_hook : PayPalWebhookReq :=
  paypal_hook "PAYMENT.CAPTURE.COMPLETED" (Some "forged").

Definition paypal_req : PayPalPaymentReq :=
  {| pp_user := None; pp_order_id := "ORD_1";
     pp_return_url := None; pp_cancel_url := None |}.

Definition nequi_req : NequiPaymentReq :=
  {| nq_user := None; nq_order_id := "ORD_1";
     nq_phone := "3001234567"; nq_return_url := None |}.

Definition paypal_data : PayPalOrderData :=
  {| orderID := "PP-ORDER-7"; approvalUrl := Some "https://paypal.test/approve" |}.

Definition nequi_data : NequiPaymentData :=
  {| nq_paymentId := "NQ-9"; nq_qrImage := None; nq_redirectUrl := None |}.

Definition refund_req : RefundReq :=
  {| rf_user := Some an_admin; rf_payment_id := "PAY_1"; rf_amount := None |}.

Definition status_req (s : string) : UpdateOrderStatusReq.t :=
  {| UpdateOrderStatusReq.user := Some an_admin;
     UpdateOrderStatusReq.id := "ORD_1";
     UpdateOrderStatusReq.status := s;
     UpdateOrderStatusReq.notes := None |}.

Definition token : TokenResponse :=
  {| access_token := "A21AAF"; expires_in := 32400 |}.

(** A Nequi failure notification for payment request NQ-9, signed as
    [generateWebhookSignature] signs. *)
Definition nequi_failed_body : NequiBody :=
  {| eventType := "PAYMENT_FAILED"; paymentId := "NQ-9";
     status := "FAILED"; nequi_rest := "{}" |}.

Definition nequi_failed_hook : NequiWebhookReq :=
  {| x_nequi_signature :=
       Some (NequiService.generateWebhookSignature (hmac_sha256_hex rt)
               (JSON_stringify rt) (NEQUI_WEBHOOK_SECRET env)
               nequi_failed_body (Some "1700000000"));
     x_nequi_timestamp := Some "1700000000";
     nequi_body := nequi_failed_body |}.

Definition nequi_payment_in (s : PaymentStatus) : Payment.t :=
  {| Payment.id := "PAY_1"; Payment.order_id := "ORD_1";
     Payment.provider := nequi;
     Payment.provider_payment_id := Some "NQ-9";
     Payment.status := s; Payment.amount_cop := 119000;
     Payment.currency := COP; Payment.raw_response := raw_default;
     Payment.confirmed_at := None |}.

(** ORD_1 paid through the Nequi payment PAY_1. *)
Definition db_nequi_paid : Store :=
  {| products := [];
     orders := [order_in paid pay_completed (Some "PAY_1")];
     payments := [nequi_payment_in pay_completed] |}.

(** ORD_1 after its Nequi payment PAY_1 was created and then reported
    failed. *)
Definition db_denied : Store :=
  snd (post_nequi rt env t0 nequi_failed_hook
         (snd (createNequiPayment rt "PAY_1" (Some nequi_data) nequi_req db_fresh))).

(** The same, a minute later, after an admin put the order back to
    [pending]. *)
Definition db_reopened : Store :=
  snd (updateOrderStatus (t0 + 60000) (status_req "pending") db_denied).

(** Two creation calls for ORD_1, and a schedule under which the second
    call saves first. *)
Definition call_A : Concurrent.Call :=
  Concurrent.PayPalCall "PAY_1" (Some paypal_data) paypal_req.

Definition call_B : Concurrent.Call :=
  Concurrent.NequiCall "PAY_2" (Some nequi_data) nequi_req.

Definition schedule : list bool :=
  [true; false; true; false; false; true; true; false].

Definition race : Concurrent.Proc * Concurrent.Proc * Store :=
  Concurrent.interleave rt schedule call_A call_B
    Concurrent.at_findOne Concurrent.at_findOne db_fresh.

End Sample.

(** ** Further properties of stores *)

(** How one request may leave a collection: untouched, with one document
    appended, or with one document rewritten by an update related to the
    original by [R]. *)
Inductive rows_step {A : Type} (R : A -> A -> Prop) (c : list A)
  : list A -> Prop :=
| rows_same : rows_step R c c
| rows_insert (d : A) : rows_step R c (c ++ [d])%list
| rows_update (q : A -> bool) (u : A -> A) :
    (forall d, R d (u d)) -> rows_step R c (Mongo.findOneAndUpdate q u c).

(** What is fixed about an order when it is created. *)
Definition frozen_order (o o' : Order.t) : Prop :=
  Order.id o' = Order.id o /\
  Order.user_id o' = Order.user_id o /\
  Order.user_email o' = Order.user_email o /\
  Order.user_phone o' = Order.user_phone o /\
  Order.items o' = Order.items o /\
  Order.subtotal_cop o' = Order.subtotal_cop o /\
  Order.tax_cop o' = Order.tax_cop o /\
  Order.total_cop o' = Order.total_cop o /\
  Order.currency o' = Order.currency o /\
  Order.payment_provider o' = Order.payment_provider o.

(** What is fixed about a payment when it is created. *)
Definition frozen_payment (p p' : Payment.t) : Prop :=
  Payment.id p' = Payment.id p /\
  Payment.order_id p' = Payment.order_id p /\
  Payment.provider p' = Payment.provider p /\
  Payment.provider_payment_id p' = Payment.provider_payment_id p /\
  Payment.amount_cop p' = Payment.amount_cop p /\
  Payment.currency p' = Payment.currency p.

(** The quantity of a product asked for by an order request, over all of
    its lines. *)
Definition requested_quantity (pid : string) (items : list CreateOrderReq.item) : Z :=
  fold_right
    (fun r acc =>
       if String.eqb (CreateOrderReq.product_id r) pid
       then CreateOrderReq.quantity r + acc else acc)
    0 items.

(** The same over the validated items, as the inventory loop reads them. *)
Definition ordered_quantity (pid : string) (items : list OrderItem.t) : Z :=
  fold_right
    (fun i acc =>
       if (0 <? OrderItem.quantity i) && String.eqb (OrderItem.product_id i) pid
       then OrderItem.quantity i + acc else acc)
    0 items.

(** A product document but for its stock. *)
Definition same_product (p p' : Product.t) : Prop :=
  Product.id p' = Product.id p /\
  Product.title p' = Product.title p /\
  Product.price_cop p' = Product.price_cop p /\
  Product.sku p' = Product.sku p /\
  Product.active p' = Product.active p.

(** ** More sample data *)

Module Fixture.

(** Two lines on the guide, of which three are in stock. *)
Definition two_lines : CreateOrderReq.t :=
  {| CreateOrderReq.user := None;
     CreateOrderReq.items :=
       [ {| CreateOrderReq.product_id := "prod-2"; CreateOrderReq.quantity := 2;
            CreateOrderReq.price_cop := None |};
         {| CreateOrderReq.product_id := "prod-2"; CreateOrderReq.quantity := 2;
            CreateOrderReq.price_cop := None |} ];
     CreateOrderReq.user_email := None;
     CreateOrderReq.user_phone := None;
     CreateOrderReq.payment_method := "nequi";
     CreateOrderReq.notes := None |}.

Definition a_customer : AuthUser := {| userId := "u-1"; role := customer |}.

(** An order request of a signed-in customer. *)
Definition customer_order : CreateOrderReq.t :=
  {| CreateOrderReq.user := Some a_customer;
     CreateOrderReq.items := CreateOrderReq.items Sample.order_req;
     CreateOrderReq.user_email := None;
     CreateOrderReq.user_phone := None;
     CreateOrderReq.payment_method := "paypal";
     CreateOrderReq.notes := None |}.

Definition customer_payment : PayPalPaymentReq :=
  {| pp_user := Some a_customer; pp_order_id := "ORD_77";
     pp_return_url := None; pp_cancel_url := None |}.

(** ORD_1 with its Nequi payment PAY_1 opened. *)
Definition db_nequi_opened : Store :=
  snd (createNequiPayment Sample.rt "PAY_1" (Some Sample.nequi_data)
         Sample.nequi_req Sample.db_fresh).

(** The retry: a PayPal payment PAY_2 for ORD_1. *)
Definition call_retry : Concurrent.Call :=
  Concurrent.PayPalCall "PAY_2" (Some Sample.paypal_data) Sample.paypal_req.

(** ORD_0 is waiting for its Nequi payment PAY_0, whose Nequi id reads
    like the PayPal order id that ORD_1 is about to get. *)
Definition db_reused : Store :=
  {| products := [];
     orders :=
       [ {| Order.id := "ORD_0"; Order.user_id := None; Order.user_email := None;
            Order.user_phone := None; Order.items := [];
            Order.subtotal_cop := 1000; Order.tax_cop := 190;
            Order.total_cop := 1190; Order.currency := COP;
            Order.status := pending; Order.payment_provider := nequi;
            Order.payment_id := Some "PAY_0"; Order.payment_status := pay_pending;
            Order.notes := None; Order.paid_at := None |};
         Sample.order_in pending pay_pending None ];
     payments :=
       [ {| Payment.id := "PAY_0"; Payment.order_id := "ORD_0";
            Payment.provider := nequi;
            Payment.provider_payment_id := Some "PP-ORDER-7";
            Payment.status := pay_pending; Payment.amount_cop := 1190;
            Payment.currency := COP; Payment.raw_response := raw_default;
            Payment.confirmed_at := None |} ] |}.

(** A run of [n] copies of a character. *)
Fixpoint run (a : ascii) (n : nat) : string :=
  match n with
  | O => EmptyString
  | S n' => String a (run a n')
  end.

(** An admin's update of ORD_1 with notes of 501 letters, and one with 500
    letters and a space on either side. *)
Definition long_notes_req : UpdateOrderStatusReq.t :=
  {| UpdateOrderStatusReq.user := Some Sample.an_admin;
     UpdateOrderStatusReq.id := "ORD_1";
     UpdateOrderStatusReq.status := "shipped";
     UpdateOrderStatusReq.notes := Some (run "n" 501) |}.

Definition padded_notes_req : UpdateOrderStatusReq.t :=
  {| UpdateOrderStatusReq.user := Some Sample.an_admin;
     UpdateOrderStatusReq.id := "ORD_1";
     UpdateOrderStatusReq.status := "shipped";
     UpdateOrderStatusReq.notes := Some (" " ++ run "n" 500 ++ " ") |}.

(** A product whose price lies beyond the reach of exact tax. *)
Definition bullion : Product.t :=
  {| Product.id := "prod-9"; Product.title := "Bullion";
     Product.price_cop := 800000000000071; Product.inventory := Some 5;
     Product.sku := "SKU-9"; Product.active := true |}.

Definition db_bullion : Store :=
  {| products := [bullion]; orders := []; payments := [] |}.

Definition bullion_req : CreateOrderReq.t :=
  {| CreateOrderReq.user := None;
     CreateOrderReq.items :=
       [ {| CreateOrderReq.product_id := "prod-9"; CreateOrderReq.quantity := 1;
            CreateOrderReq.price_cop := None |} ];
     CreateOrderReq.user_email := None;
     CreateOrderReq.user_phone := None;
     CreateOrderReq.payment_method := "manual";
     CreateOrderReq.notes := None |}.

End Fixture.

(** ** utils/helpers.ts: [sanitizeHtml]

    The text is a sequence of code units; the six characters replaced are
    single units. *)

(** [text.replace(/c/g, by)] for a pattern of one literal character. *)
Fixpoint replace_all (c : ascii) (replacement : string) (text : string) : string :=
  match text with
  | EmptyString => EmptyString
  | String a rest =>
      if Ascii.eqb a c then replacement ++ replace_all c replacement rest
      else String a (replace_all c replacement rest)
  end.

Definition quot : ascii := "034"%char.
Definition apos : ascii := "039"%char.

Definition sanitizeHtml (text : string) : string :=
  replace_all "/"%char "&#x2F;"
    (replace_all apos "&#x27;"
       (replace_all quot "&quot;"
          (replace_all ">"%char "&gt;"
             (replace_all "<"%char "&lt;"
                (replace_all "&"%char "&amp;" text))))).

(** The entity one character of the input ends up as. *)
Definition escape (a : ascii) : string :=
  if Ascii.eqb a "&" then "&amp;"
  else if Ascii.eqb a "<" then "&lt;"
  else if Ascii.eqb a ">" then "&gt;"
  else if Ascii.eqb a quot then "&quot;"
  else if Ascii.eqb a apos then "&#x27;"
  else if Ascii.eqb a "/" then "&#x2F;"
  else String a EmptyString.

Fixpoint escape_each (text : string) : string :=
  match text with
  | EmptyString => EmptyString
  | String a rest => escape a ++ escape_each rest
  end.

Fixpoint occurs (c : ascii) (text : string) : bool :=
  match text with
  | EmptyString => false
  | String a rest => Ascii.eqb a c || occurs c rest
  end.

(** No character of the text is one of the six that are replaced. *)
Definition plain (text : string) : bool :=
  negb (occurs "&" text) && negb (occurs "<" text) && negb (occurs ">" text) &&
  negb (occurs quot text) && negb (occurs apos text) && negb (occurs "/" text).

(** ** middleware/auth.ts *)

(** [s.split(' ')] *)
Fixpoint split_space (s : string) : list string :=
  match s with
  | EmptyString => [EmptyString]
  | String a rest =>
      if Ascii.eqb a " " then EmptyString :: split_space rest
      else
        match split_space rest with
        | field :: fields => String a field :: fields
        | [] => [String a EmptyString]
        end
  end.

Section Auth.

(** [verifyToken] of services/auth.ts, which is [jwt.verify] under the
    configured secret, issuer and audience; [None] when it throws. *)
Variable verifyToken : string -> option AuthUser.

(** [authHeader && authHeader.split(' ')[1]] *)
Definition bearer_token (authorization : option string) : option string :=
  match authorization with
  | None => None
  | Some authHeader =>
      if String.eqb authHeader "" then Some authHeader
      else nth_error (split_space authHeader) 1
  end.

(** [inl]: the response sent; [inr]: [req.user] as [next()] finds it. *)
Definition authenticateToken (authorization : option string)
  : Response + AuthUser :=
  match bearer_token authorization with
  | Some token =>
      if negb (JS.truthy (Some token)) then
        inl (res 401 (error "Access token required"))
      else
        match verifyToken token with
        | Some decoded => inr decoded
        | None => inl (res 403 (error "Invalid or expired token"))
        end
  | None => inl (res 401 (error "Access token required"))
  end.

(** [requireRole(['admin'])]; [None] is [next()]. *)
Definition requireRole_admin (user : option AuthUser) : option Response :=
  match user with
  | None => Some (res 401 (error "Authentication required"))
  | Some u =>
      match role u with
      | admin => None
      | customer => Some (res 403 (error "Insufficient permissions"))
      end
  end.

(** [router.post('/refund', authenticateToken, requireRole(['admin']),
    validate('refundPayment'), refundPayment)] *)
Definition POST_refund (authorization : option string)
    (provider_refund : option string) (payment_id : string)
    (amount : option Z) (db : Store) : Response * Store :=
  match authenticateToken authorization with
  | inl r => (r, db)
  | inr user =>
      match requireRole_admin (Some user) with
      | Some r => (r, db)
      | None =>
          refundPayment provider_refund
            {| rf_user := Some user; rf_payment_id := payment_id;
               rf_amount := amount |} db
      end
  end.

(** [router.put('/:id/status', authenticateToken, requireRole(['admin']),
    validate('updateOrderStatus'), updateOrderStatus)] *)
Definition PUT_status (authorization : option string) (now : Z)
    (id status : string) (notes : option string) (db : Store)
  : Response * Store :=
  match authenticateToken authorization with
  | inl r => (r, db)
  | inr user =>
      match requireRole_admin (Some user) with
      | Some r => (r, db)
      | None =>
          updateOrderStatus now
            {| UpdateOrderStatusReq.user := Some user;
               UpdateOrderStatusReq.id := id;
               UpdateOrderStatusReq.status := status;
               UpdateOrderStatusReq.notes := notes |} db
      end
  end.

(** [getOrderById]; its route mounts no validation chain, so
    [validationResult(req)] is empty. *)
Definition getOrderById (user : option AuthUser) (id : string) (db : Store)
  : Response :=
  match Mongo.findOne (order_by_id id) (orders db) with
  | None => res 404 (error "Order not found")
  | Some order =>
      if access_denied user order then res 403 (error "Access denied")
      else res 200 (order_json order)
  end.

(** [router.get('/:id', authenticateToken, getOrderById)] *)
Definition GET_order (authorization : option string) (id : string)
    (db : Store) : Response :=
  match authenticateToken authorization with
  | inl r => r
  | inr user => getOrderById (Some user) id db
  end.

End Auth.

(** ** controllers/productController.ts *)

Module ProductController.

Inductive Reply : Type :=
| errors_json (status : Z)
| error_json (status : Z) (error : string)
| message_json (status : Z) (message : string)
| product_json (status : Z) (product : Product.t).

Definition status_of (r : Reply) : Z :=
  match r with
  | errors_json s | error_json s _ | message_json s _ | product_json s _ => s
  end.

(** [{ active: false }] *)
Definition deactivate (p : Product.t) : Product.t :=
  {| Product.id := Product.id p; Product.title := Product.title p;
     Product.price_cop := Product.price_cop p;
     Product.inventory := Product.inventory p;
     Product.sku := Product.sku p; Product.active := false |}.

Definition getProductById (id : string) (db : Store) : Reply :=
  if negb (isLength_min1 id) then errors_json 400
  else
    match Mongo.findOne (active_product_by_id id) (products db) with
    | None => error_json 404 "Product not found"
    | Some product => product_json 200 product
    end.

(** [deleteProduct]; its route mounts no validation chain. *)
Definition deleteProduct (id : string) (db : Store) : Reply * Store :=
  match Mongo.findOne (product_by_id id) (products db) with
  | None => (error_json 404 "Product not found", db)
  | Some _ =>
      (message_json 200 "Product deleted successfully",
       with_products
         (Mongo.findOneAndUpdate (product_by_id id) deactivate (products db)) db)
  end.

End ProductController.

(** The unique index on [id] of [ProductSchema]. *)
Definition product_ids_unique (db : Store) : Prop :=
  NoDup (map Product.id (products db)).

Module Session.

Definition verifyToken (token : string) : option AuthUser :=
  if String.eqb token "admin-jwt" then Some Sample.an_admin
  else if String.eqb token "customer-jwt" then Some Fixture.a_customer
  else None.

(** An order owned by the customer of [Fixture], and one without owner. *)
Definition db_owned : Store :=
  with_orders
    [ Sample.order_in pending pay_pending None;
      {| Order.id := "ORD_77"; Order.user_id := Some "u-1";
         Order.user_email := None; Order.user_phone := None;
         Order.items := []; Order.subtotal_cop := 0; Order.tax_cop := 0;
         Order.total_cop := 0; Order.currency := COP; Order.status := pending;
         Order.payment_provider := paypal; Order.payment_id := None;
         Order.payment_status := pay_pending; Order.notes := None;
         Order.paid_at := None |} ]
    Sample.catalogue.

End Session.

(** * Verification *)

(** ** Queries and updates on collections *)

Lemma findOne_matches {A : Type} (q : A -> bool) (c : list A) (d : A) :
  Mongo.findOne q c = Some d -> q d = true /\ In d c.
Proof.
  unfold Mongo.findOne. intros H. apply find_some in H. tauto.
Qed.

Section MongoFacts.

Context {A : Type}.
Variables (q : A -> bool) (u : A -> A).

(** A projection that the update leaves alone reads the same list. *)
Lemma map_findOneAndUpdate {B : Type} (f : A -> B) (c : list A) :
  (forall d, f (u d) = f d) ->
  map f (Mongo.findOneAndUpdate q u c) = map f c.
Proof.
  intros Hf. induction c as [|d c IH]; simpl; [reflexivity|].
  destruct (q d); simpl; [now rewrite Hf | now rewrite IH].
Qed.

(** Looking up again with the query of the update returns the updated
    document. *)
Lemma findOne_after_update (c : list A) (d : A) :
  Mongo.findOne q c = Some d -> q (u d) = true ->
  Mongo.findOne q (Mongo.findOneAndUpdate q u c) = Some (u d).
Proof.
  induction c as [|x c IH]; simpl; [discriminate|].
  destruct (q x) eqn:Hx; intros Hd Hu.
  - injection Hd as ->. simpl. now rewrite Hu.
  - simpl. rewrite Hx. now apply IH.
Qed.

(** A second query [q'] whose first match is the document the update
    rewrites sees the rewritten document. *)
Lemma findOne_other_after_update (q' : A -> bool) (c : list A) (d : A) :
  Mongo.findOne q' c = Some d -> Mongo.findOne q c = Some d ->
  q' (u d) = true ->
  Mongo.findOne q' (Mongo.findOneAndUpdate q u c) = Some (u d).
Proof.
  induction c as [|x c IH]; simpl; [discriminate|].
  intros H' H Hu.
  destruct (q' x) eqn:Hx'.
  - injection H' as ->.
    destruct (q d) eqn:Hd.
    + simpl. now rewrite Hu.
    + apply find_some in H. destruct H as [_ H]. congruence.
  - destruct (q x) eqn:Hx.
    + injection H as ->. apply find_some in H'. destruct H' as [_ H']. congruence.
    + simpl. rewrite Hx'. now apply IH.
Qed.

(** Running the same idempotent update twice changes nothing more. *)
Lemma findOneAndUpdate_twice (c : list A) :
  (forall d, q (u d) = q d) -> (forall d, u (u d) = u d) ->
  Mongo.findOneAndUpdate q u (Mongo.findOneAndUpdate q u c) =
  Mongo.findOneAndUpdate q u c.
Proof.
  intros Hq Hu. induction c as [|x c IH]; simpl; [reflexivity|].
  destruct (q x) eqn:Hx; simpl.
  - now rewrite Hq, Hx, Hu.
  - now rewrite Hx, IH.
Qed.

(** A query that the update does not disturb finds a document in the
    same place: the old one, or its update. *)
Lemma findOne_update_cases (q' : A -> bool) (c : list A) :
  (forall d, q' (u d) = q' d) ->
  match Mongo.findOne q' c, Mongo.findOne q' (Mongo.findOneAndUpdate q u c) with
  | Some d, Some d' => d' = d \/ (d' = u d /\ Mongo.findOne q c = Some d)
  | None, None => True
  | _, _ => False
  end.
Proof.
  intros Hq'. unfold Mongo.findOne.
  induction c as [|x c IH]; simpl; [exact I|].
  destruct (q x) eqn:Hx; simpl.
  - rewrite Hq'. destruct (q' x).
    + right. split; reflexivity.
    + destruct (find q' c); [left; reflexivity | exact I].
  - destruct (q' x); [left; reflexivity|].
    destruct (find q' c), (find q' (Mongo.findOneAndUpdate q u c)); tauto.
Qed.

End MongoFacts.

(** ** Signature verification gates the webhook routes *)

(** C3. A webhook whose signature fails verification is answered 400
    (not a 2xx) and the store is returned as it was: no Payment and no
    Order is written, so a payment that was pending is still pending and
    its order did not move. *)
Theorem bad_signature_rejected (rt : Runtime) (env : Env) (w : Webhook)
    (now : Z) (db : Store) :
  verifies rt env w now = false ->
  fst (deliver rt env w now db) = res 400 (error "Invalid signature") /\
  ~ (200 <= code (fst (deliver rt env w now db)) <= 299) /\
  snd (deliver rt env w now db) = db /\
  (forall id, payment_status_of id (snd (deliver rt env w now db)) =
              payment_status_of id db) /\
  (forall id, order_status_of id (snd (deliver rt env w now db)) =
              order_status_of id db).
Proof.
  intros Hv.
  assert (E : deliver rt env w now db = (res 400 (error "Invalid signature"), db)).
  { destruct w as [req|req]; simpl in *.
    - unfold post_paypal. now rewrite Hv.
    - unfold post_nequi. now rewrite Hv. }
  rewrite E. simpl. repeat split; try reflexivity. lia.
Qed.

Lemma bad_signature_rejected_witness :
  payment_status_of "PAY_1" Sample.db_pending = Some pay_pending /\
  fst (deliver Sample.rt Sample.env (PayPalHook Sample.forged_hook) Sample.t0
         Sample.db_pending) = res 400 (error "Invalid signature") /\
  payment_status_of "PAY_1"
    (snd (deliver Sample.rt Sample.env (PayPalHook Sample.forged_hook) Sample.t0
            Sample.db_pending)) = Some pay_pending /\
  order_status_of "ORD_1"
    (snd (deliver Sample.rt Sample.env (PayPalHook Sample.forged_hook) Sample.t0
            Sample.db_pending)) = Some pending.
Proof.
  destruct (bad_signature_rejected Sample.rt Sample.env
              (PayPalHook Sample.forged_hook) Sample.t0 Sample.db_pending)
    as (Hr & _ & _ & Hp & Ho); [reflexivity|].
  split; [reflexivity|]. split; [exact Hr|].
  split; [rewrite Hp | rewrite Ho]; reflexivity.
Defined.

(** ** The access-token cache *)

Lemma refresh_records_expiry (get : Z -> option (TokenResponse * Z) ->
                                    ServiceState -> (string + string) * ServiceState)
    (now t : Z) (data : TokenResponse) (this : ServiceState) :
  In get [PayPalService.getAccessToken; NequiService.getAccessToken] ->
  cached_token_valid now this = false ->
  get now (Some (data, t)) this =
  (inr (access_token data),
   {| accessToken := Some (access_token data);
      tokenExpiry := Some (t + (expires_in data - 1800) * 1000) |}).
Proof.
  intros [<-|[<-|[]]] Hc;
    unfold PayPalService.getAccessToken, NequiService.getAccessToken;
    now rewrite Hc.
Qed.

Lemma cache_hit_returns_cached (get : Z -> option (TokenResponse * Z) ->
                                      ServiceState -> (string + string) * ServiceState)
    (now : Z) (http : option (TokenResponse * Z)) (tok : string) (e : option Z) :
  In get [PayPalService.getAccessToken; NequiService.getAccessToken] ->
  cached_token_valid now {| accessToken := Some tok; tokenExpiry := e |} = true ->
  get now http {| accessToken := Some tok; tokenExpiry := e |} =
  (inr tok, {| accessToken := Some tok; tokenExpiry := e |}).
Proof.
  intros [<-|[<-|[]]] Hc;
    unfold PayPalService.getAccessToken, NequiService.getAccessToken;
    now rewrite Hc.
Qed.

(** C9. For both provider clients: once a (non-empty) token was obtained
    at time [t] with the provider's [expires_in], its recorded expiry is
    [t + (expires_in - 1800) * 1000] ms; a later call at [now] returns the
    cached token, whatever the provider would answer, exactly when more
    than 30 minutes remain before the provider-reported expiry
    [t + expires_in * 1000]; otherwise it takes the provider's fresh token
    and records that token's expiry the same way. *)
Theorem token_cache_safety_margin
    (get : Z -> option (TokenResponse * Z) -> ServiceState ->
           (string + string) * ServiceState)
    (now0 t : Z) (data : TokenResponse) (this0 : ServiceState) :
  In get [PayPalService.getAccessToken; NequiService.getAccessToken] ->
  cached_token_valid now0 this0 = false ->
  access_token data <> "" ->
  let this1 := snd (get now0 (Some (data, t)) this0) in
  let provider_expiry := t + expires_in data * 1000 in
  tokenExpiry this1 = Some (t + (expires_in data - 1800) * 1000) /\
  forall now : Z,
    (cached_token_valid now this1 = true <-> provider_expiry - now > 1800 * 1000) /\
    (provider_expiry - now > 1800 * 1000 ->
     forall http, get now http this1 = (inr (access_token data), this1)) /\
    (provider_expiry - now <= 1800 * 1000 ->
     forall data' t',
       get now (Some (data', t')) this1 =
       (inr (access_token data'),
        {| accessToken := Some (access_token data');
           tokenExpiry := Some (t' + (expires_in data' - 1800) * 1000) |})).
Proof.
  intros Hget Hmiss Htok this1 provider_expiry.
  subst this1. rewrite (refresh_records_expiry get now0 t data this0 Hget Hmiss).
  simpl. split; [reflexivity|]. intros now.
  assert (Hiff : cached_token_valid now
                   {| accessToken := Some (access_token data);
                      tokenExpiry := Some (t + (expires_in data - 1800) * 1000) |}
                 = true <-> provider_expiry - now > 1800 * 1000).
  { unfold cached_token_valid, provider_expiry. simpl.
    destruct (String.eqb_spec (access_token data) ""); [contradiction|]. simpl.
    rewrite Z.ltb_lt. lia. }
  split; [exact Hiff|]. split.
  - intros Hgt http. apply cache_hit_returns_cached; [exact Hget|].
    now apply Hiff.
  - intros Hle data' t'. apply refresh_records_expiry; [exact Hget|].
    apply not_true_is_false. intros E. apply Hiff in E. lia.
Qed.

Lemma token_cache_safety_margin_witness :
  (* issued at 1 000 000 ms for 32400 s: recorded expiry 31 600 000 ms *)
  tokenExpiry (snd (PayPalService.getAccessToken 1000000
                      (Some (Sample.token, 1000000)) new_Service))
  = Some 31600000 /\
  (* 31 599 999 ms: one millisecond more than the margin remains *)
  PayPalService.getAccessToken 31599999 None
    (snd (PayPalService.getAccessToken 1000000
            (Some (Sample.token, 1000000)) new_Service))
  = (inr "A21AAF",
     snd (PayPalService.getAccessToken 1000000
            (Some (Sample.token, 1000000)) new_Service)).
Proof.
  destruct (token_cache_safety_margin PayPalService.getAccessToken
              1000000 1000000 Sample.token new_Service)
    as [He Hn]; [left; reflexivity | reflexivity | discriminate |].
  split; [exact He|].
  destruct (Hn 31599999) as (_ & Hhit & _).
  apply Hhit. simpl. lia.
Defined.

(** ** Order amounts *)

(** *** The double product [subtotal * 0.19] *)

Lemma excess_spec (n : Z) :
  0 <= Double.excess n /\
  (0 < Double.excess n -> 2 ^ (52 + Double.excess n) <= n).
Proof.
  unfold Double.excess. split; [lia|]. intros H.
  assert (Hn : 0 < n).
  { destruct (Z.le_gt_cases n 0) as [Hle|]; [|assumption].
    rewrite (Z.log2_nonpos n Hle) in H. lia. }
  replace (52 + Z.max 0 (Z.log2 n + 1 - 53)) with (Z.log2 n) by lia.
  now apply Z.log2_spec.
Qed.

Lemma excess_bound (n k : Z) :
  0 <= k -> n < 2 ^ (53 + k) -> Double.excess n <= k.
Proof.
  intros Hk Hn. unfold Double.excess.
  destruct (Z.le_gt_cases n 0) as [Hle|Hpos].
  - rewrite (Z.log2_nonpos n Hle). lia.
  - assert (Z.log2 n < 53 + k) by (apply Z.log2_lt_pow2; lia). lia.
Qed.

(** Rounding moves an integer to a multiple of [2 ^ excess], by half of it
    at most. *)
Lemma round53_near (n : Z) :
  0 <= n ->
  exists a,
    Double.round53 n = a * 2 ^ Double.excess n /\
    - 2 ^ Double.excess n <= 2 * (Double.round53 n - n) <= 2 ^ Double.excess n.
Proof.
  intros Hn. unfold Double.round53. cbv zeta.
  set (P := 2 ^ Double.excess n).
  assert (HP : 0 < P) by (apply Z.pow_pos_nonneg; [lia | apply excess_spec]).
  pose proof (Z.div_mod n P ltac:(lia)) as Hdm.
  pose proof (Z.mod_pos_bound n P HP) as Hr.
  destruct ((P <? 2 * (n mod P)) || ((P =? 2 * (n mod P)) && Z.odd (n / P))) eqn:E.
  - exists (n / P + 1). split; [reflexivity|].
    assert (P <= 2 * (n mod P)).
    { apply orb_true_iff in E. destruct E as [E|E].
      - apply Z.ltb_lt in E. lia.
      - apply andb_true_iff in E. destruct E as [E _]. apply Z.eqb_eq in E. lia. }
    nia.
  - exists (n / P). split; [reflexivity|].
    apply orb_false_iff in E. destruct E as [E _]. apply Z.ltb_ge in E. nia.
Qed.

Lemma round53_exact (n : Z) : 0 <= n < 2 ^ 53 -> Double.round53 n = n.
Proof.
  intros [H0 H1].
  assert (E : Double.excess n = 0).
  { pose proof (excess_bound n 0 ltac:(lia) H1). pose proof (excess_spec n). lia. }
  destruct (round53_near n H0) as (a & Ha & Hb). rewrite E in Ha, Hb.
  change (2 ^ 0) with 1 in Ha, Hb. lia.
Qed.

Lemma round_nonneg (n : Z) : 0 <= n -> Double.round n = Double.round53 n.
Proof.
  intros Hn. unfold Double.round. rewrite (Z.abs_eq n Hn).
  destruct (Z.eq_dec n 0) as [->|Hne]; [reflexivity|].
  rewrite Z.sgn_pos by lia. apply Z.mul_1_l.
Qed.

Lemma Math_round_dyadic (N : Z) (d : positive) :
  JS.Math_round (N # d) = (2 * N + Z.pos d) / (2 * Z.pos d).
Proof.
  unfold JS.Math_round, Qfloor, Qplus. cbn [Qnum Qden].
  rewrite Pos2Z.inj_mul. f_equal; lia.
Qed.

(** Below 2^48 the tax is that of exact arithmetic:
    [Math.round(subtotal * 0.19)] is 19% of the subtotal rounded to the
    nearest integer, halves going up. *)
Lemma calculateTax_default (subtotal : Z) :
  0 <= subtotal < 2 ^ 48 ->
  calculateTax subtotal default_taxRate = (19 * subtotal + 50) / 100.
Proof.
  intros [H0 H1]. unfold calculateTax, default_taxRate, Double.mul, Double.of_Z.
  cbn [Double.mant Double.expo Double.lit_0_19].
  rewrite (round_nonneg subtotal H0), (round53_exact subtotal) by (split; lia).
  set (m := 6845471433603154).
  assert (Hn : 0 <= subtotal * m) by (unfold m; lia).
  rewrite (round_nonneg _ Hn).
  unfold Double.to_Q. cbn [Double.mant Double.expo].
  change (0 <=? 0 + -55) with false. cbv iota.
  change (Z.to_pos (2 ^ (- (0 + -55)))) with 36028797018963968%positive.
  rewrite Math_round_dyadic.
  destruct (round53_near (subtotal * m) Hn) as (a & Ha & Hnear).
  destruct (excess_spec (subtotal * m)) as [Hsh0 Hshp].
  assert (Hsh : Double.excess (subtotal * m) <= 48).
  { apply excess_bound; [lia|]. change (2 ^ (53 + 48)) with (2 ^ 48 * 2 ^ 53).
    unfold m. nia. }
  set (sh := Double.excess (subtotal * m)) in *.
  set (N := Double.round53 (subtotal * m)) in *.
  set (P := 2 ^ sh) in *.
  assert (HP : 0 < P) by (apply Z.pow_pos_nonneg; lia).
  (* the step of the grid is at most about twice the subtotal *)
  assert (HPs : P <= 2 * subtotal + 1).
  { destruct (Z.eq_dec sh 0) as [E|E].
    - unfold P. rewrite E. change (2 ^ 0) with 1. lia.
    - specialize (Hshp ltac:(lia)). rewrite Z.pow_add_r in Hshp by lia.
      fold P in Hshp. change (2 ^ 52) with 4503599627370496 in Hshp.
      unfold m in Hshp. nia. }
  (* 2^54 is on the grid *)
  assert (HK : exists K, 18014398509481984 = P * K /\ 0 < K).
  { exists (2 ^ (54 - sh)). split.
    - unfold P. rewrite <- Z.pow_add_r by lia.
      replace (sh + (54 - sh)) with 54 by lia. reflexivity.
    - apply Z.pow_pos_nonneg; lia. }
  destruct HK as (K & HK & HK0).
  pose proof (Z.div_mod (19 * subtotal + 50) 100 ltac:(lia)) as HT.
  pose proof (Z.mod_pos_bound (19 * subtotal + 50) 100 ltac:(lia)) as HTr.
  set (T := (19 * subtotal + 50) / 100) in *.
  assert (Hlow : 36028797018963968 * T - 18014398509481984 <= N).
  { assert (Hab : K * (2 * T - 1) <= a).
    { assert (P * (2 * (K * (2 * T - 1)) - 1) <= P * (2 * a)); [|nia].
      unfold m in *. nia. }
    rewrite Ha. nia. }
  assert (Hup : N < 36028797018963968 * T + 18014398509481984).
  { unfold m in *. lia. }
  symmetry.
  apply (Z.div_unique _ _ T (2 * N + 36028797018963968 - 2 * 36028797018963968 * T)); lia.
Qed.

(** The loop of [createOrder] extends the validated items by one item per
    requested item, priced from the catalogue, and adds their amounts to
    the running subtotal. *)
Lemma validate_items_spec (rt : Runtime) (ps : list Product.t)
    (items : list CreateOrderReq.item) :
  forall subtotal validated subtotal' validated',
    validate_items ps items subtotal validated = inr (subtotal', validated') ->
    exists added,
      validated' = (validated ++ added)%list /\
      subtotal' = subtotal + items_total added /\
      Forall2 (priced_from ps) items added.
Proof.
  induction items as [|item rest IH]; intros s v s' v' H; simpl in H.
  - injection H as <- <-. exists []. rewrite app_nil_r. simpl.
    repeat split; [lia | constructor].
  - destruct (Mongo.findOne _ ps) as [product|] eqn:Hp; [|discriminate].
    destruct (match Product.inventory product with
              | Some inv => inv <? CreateOrderReq.quantity item
              | None => false end); [discriminate|].
    apply IH in H. destruct H as (added & -> & -> & Hall).
    eexists (_ :: added). rewrite <- app_assoc. simpl.
    split; [reflexivity|]. split.
    + unfold items_total. simpl. fold (items_total added). lia.
    + constructor; [|exact Hall].
      exists product. simpl. repeat split. exact Hp.
Qed.

(** C10 (as the code has it).  For every order that [createOrder] answers
    201 for, the stored order is priced from the catalogue: each item
    carries the stored price of the active product its [product_id]
    selects, not anything sent by the client.  Its [tax_cop] is
    [Math.round(subtotal_cop * 0.19)] as doubles compute it; when the
    subtotal is below 2^48 that is [round(0.19 * subtotal_cop)], halves
    going up, [total_cop] is [subtotal_cop + tax_cop], and [subtotal_cop]
    is the sum of [price_cop * quantity] over the items. *)
Theorem created_order_amounts (rt : Runtime) (generateOrderId : string)
    (req : CreateOrderReq.t) (db : Store) :
  code (fst (createOrder rt generateOrderId req db)) = 201 ->
  exists o,
    orders (snd (createOrder rt generateOrderId req db)) = (orders db ++ [o])%list /\
    Order.id o = generateOrderId /\
    Forall2 (priced_from (products db)) (CreateOrderReq.items req) (Order.items o) /\
    Order.tax_cop o = calculateTax (Order.subtotal_cop o) default_taxRate /\
    (Order.subtotal_cop o < 2 ^ 48 ->
     Order.tax_cop o = (19 * Order.subtotal_cop o + 50) / 100 /\
     100 * Order.tax_cop o - 50 <= 19 * Order.subtotal_cop o
                                < 100 * Order.tax_cop o + 50 /\
     Order.total_cop o = Order.subtotal_cop o + Order.tax_cop o /\
     Order.subtotal_cop o = items_total (Order.items o)).
Proof.
  unfold createOrder.
  destruct (validate_createOrder rt req); cbn [negb fst snd code res]; [|discriminate].
  destruct (CreateOrderReq.items req) as [|i0 rest] eqn:Hitems; [discriminate|].
  rewrite <- Hitems.
  destruct (validate_items (products db) (CreateOrderReq.items req) 0 [])
    as [msg|[subtotal validated]] eqn:Hv; [discriminate|].
  destruct (Provider_of_string _) as [pm|]; [|discriminate].
  destruct (Order_save rt _ (orders db)) as [e|os] eqn:Hs; [discriminate|].
  destruct (update_inventory _ _) as [[|] ps]; cbn [negb fst snd code res orders with_products with_orders];
    [intros _|discriminate].
  apply (validate_items_spec rt) in Hv. destruct Hv as (added & -> & -> & Hall).
  unfold Order_save in Hs.
  cbn [Order.id Order.user_email Order.items Order.subtotal_cop Order.tax_cop
       Order.total_cop Order.notes] in Hs.
  destruct (negb (Mongo.required generateOrderId)); [discriminate|].
  destruct (negb (optional _ _)); [discriminate|].
  destruct (negb (forallb _ _)); [discriminate|].
  destruct (Z.ltb_spec (0 + items_total added) 0) as [|Hsub]; [discriminate|].
  repeat match type of Hs with
         | (if ?b then _ else _) = _ => destruct b; [discriminate|]
         end.
  injection Hs as <-.
  eexists. split; [reflexivity|].
  cbn [Order.id Order.tax_cop Order.subtotal_cop Order.total_cop Order.items app].
  split; [reflexivity|]. split; [exact Hall|]. split; [reflexivity|].
  intros Hbound.
  assert (Htax : calculateTax (items_total added) default_taxRate
                 = (19 * items_total added + 50) / 100)
    by (apply calculateTax_default; lia).
  rewrite Htax. split; [reflexivity|]. split; [|split; reflexivity].
  pose proof (Z.div_mod (19 * items_total added + 50) 100 ltac:(lia)).
  pose proof (Z.mod_pos_bound (19 * items_total added + 50) 100 ltac:(lia)).
  lia.
Qed.

Lemma created_order_amounts_witness :
  exists o,
    orders (snd (createOrder Sample.rt "ORD_LX1" Sample.order_req Sample.catalogue))
    = [o] /\
    Order.subtotal_cop o = 112350 /\ Order.tax_cop o = 21347 /\
    Order.total_cop o = 133697.
Proof.
  destruct (created_order_amounts Sample.rt "ORD_LX1" Sample.order_req
              Sample.catalogue) as (o & Ho & _ & _ & _ & Hamounts);
    [reflexivity|].
  exists o. split; [exact Ho|].
  vm_compute in Ho. injection Ho as <-.
  destruct Hamounts as (Htax & _ & Htot & _); [reflexivity|].
  split; [reflexivity|]. split; [exact Htax | exact Htot].
Defined.

(** C10, counterexample.  One unit of a product priced 800000000000071 COP
    is ordered.  The order is created with that subtotal; the double
    product [subtotal * 0.19] is 152000000000013.5 (the exact product is
    152000000000013.49), and the stored tax is 152000000000014 where 19% of
    the subtotal rounds to 152000000000013. *)
Lemma created_order_tax_counterexample :
  code (fst (createOrder Sample.rt "ORD_B1" Fixture.bullion_req Fixture.db_bullion))
  = 201 /\
  map Order.subtotal_cop
    (orders (snd (createOrder Sample.rt "ORD_B1" Fixture.bullion_req
                    Fixture.db_bullion)))
  = [800000000000071] /\
  map Order.tax_cop
    (orders (snd (createOrder Sample.rt "ORD_B1" Fixture.bullion_req
                    Fixture.db_bullion)))
  = [152000000000014] /\
  (19 * 800000000000071 + 50) / 100 = 152000000000013 /\
  100 * 152000000000013 - 50 <= 19 * 800000000000071
                             < 100 * 152000000000013 + 50.
Proof.
  split; [vm_compute; reflexivity|]. split; [vm_compute; reflexivity|].
  split; [vm_compute; reflexivity|]. split; [reflexivity | lia].
Qed.

(** ** The unique indexes are an invariant of the server *)

Lemma same_keys_indexes (db db' : Store) :
  same_keys db db' -> indexes_hold db -> indexes_hold db'.
Proof.
  intros (Ho & Hp & _) (No & Np). unfold indexes_hold.
  now rewrite Ho, Hp.
Qed.

Lemma same_keys_mark_completed (now : Z) (raw : RawResponse) (p : Payment.t)
    (db : Store) : same_keys db (mark_completed now raw p db).
Proof.
  unfold same_keys, mark_completed; simpl.
  repeat split; apply map_findOneAndUpdate; reflexivity.
Qed.

Lemma same_keys_mark_failed (raw : RawResponse) (p : Payment.t) (db : Store) :
  same_keys db (mark_failed raw p db).
Proof.
  unfold same_keys, mark_failed; simpl.
  repeat split; apply map_findOneAndUpdate; reflexivity.
Qed.

Lemma same_keys_mark_refunded (i : string) (raw : RawResponse) (p : Payment.t)
    (db : Store) : same_keys db (mark_refunded i raw p db).
Proof.
  unfold same_keys, mark_refunded; simpl.
  repeat split; apply map_findOneAndUpdate; reflexivity.
Qed.

Lemma existsb_false_not_in {A : Type} (key : A -> string) (k : string)
    (c : list A) :
  existsb (fun d => String.eqb (key d) k) c = false -> ~ In k (map key c).
Proof.
  induction c as [|d c IH]; simpl; [tauto|].
  intros H. apply orb_false_elim in H. destruct H as [Hd Hc].
  intros [E|E]; [|now apply IH].
  rewrite E, String.eqb_refl in Hd. discriminate.
Qed.

Lemma NoDup_map_snoc {A : Type} (key : A -> string) (c : list A) (d : A) :
  NoDup (map key c) -> ~ In (key d) (map key c) ->
  NoDup (map key (c ++ [d])%list).
Proof.
  intros Hn Hd. rewrite map_app. simpl.
  apply NoDup_rev in Hn.
  rewrite <- (rev_involutive (map key c ++ [key d])%list).
  apply NoDup_rev. rewrite rev_app_distr. simpl.
  constructor; [|exact Hn]. now rewrite <- in_rev.
Qed.

(** What a successful [payment.save()] checked and did. *)
Lemma Payment_save_ok (p : Payment.t) (c c' : list Payment.t) :
  Payment_save p c = inr c' ->
  c' = (c ++ [p])%list /\
  existsb (payment_by_id (Payment.id p)) c = false /\
  0 <= Payment.amount_cop p.
Proof.
  unfold Payment_save.
  destruct (negb (Mongo.required (Payment.id p))); [discriminate|].
  destruct (negb (Mongo.required (Payment.order_id p))); [discriminate|].
  destruct (Z.ltb_spec (Payment.amount_cop p) 0) as [|Hamount]; [discriminate|].
  destruct (existsb (payment_by_id _) c); [discriminate|].
  intros H. injection H as <-. repeat split. exact Hamount.
Qed.

Lemma Payment_save_indexes (p : Payment.t) (db : Store) (c' : list Payment.t) :
  Payment_save p (payments db) = inr c' ->
  indexes_hold db -> indexes_hold (with_payments c' db).
Proof.
  intros Hs (No & Np).
  apply Payment_save_ok in Hs. destruct Hs as (-> & Hid & _).
  unfold indexes_hold; simpl. split; [exact No|].
  apply NoDup_map_snoc; [exact Np|].
  now apply (existsb_false_not_in Payment.id).
Qed.

Lemma set_payment_id_indexes (q : Order.t -> bool) (i : string) (db : Store) :
  indexes_hold db ->
  indexes_hold
    (with_orders (Mongo.findOneAndUpdate q (Order.set_payment_id i) (orders db)) db).
Proof.
  apply same_keys_indexes. unfold same_keys; simpl.
  repeat split. apply map_findOneAndUpdate. reflexivity.
Qed.

Lemma createOrder_indexes (rt : Runtime) (i : string) (req : CreateOrderReq.t)
    (db : Store) :
  indexes_hold db -> indexes_hold (snd (createOrder rt i req db)).
Proof.
  intros Hi. unfold createOrder.
  destruct (validate_createOrder rt req); simpl; [|exact Hi].
  destruct (CreateOrderReq.items req) as [|i0 rest]; [exact Hi|].
  destruct (validate_items _ _ _ _) as [msg|[subtotal validated]]; [exact Hi|].
  destruct (Provider_of_string _) as [pm|]; [|exact Hi].
  destruct (Order_save rt _ (orders db)) as [e|os] eqn:Hs; [exact Hi|].
  assert (Hi' : forall ps, indexes_hold (with_products ps (with_orders os db))).
  { intros ps. destruct Hi as (No & Np). unfold indexes_hold; simpl.
    split; [|exact Np].
    unfold Order_save in Hs.
    repeat match type of Hs with
           | (if negb ?b then _ else _) = _ => destruct b; simpl in Hs; try discriminate
           | (if (_ <? _) then _ else _) = _ =>
               destruct (_ <? _) in Hs; [discriminate|]
           end.
    destruct (existsb _ (orders db)) eqn:Hex; [discriminate|].
    injection Hs as <-.
    apply NoDup_map_snoc; [exact No|].
    now apply (existsb_false_not_in Order.id). }
  destruct (update_inventory _ _) as [[|] ps]; simpl; apply Hi'.
Qed.

Lemma handle_preserves_indexes (rt : Runtime) (env : Env) (ev : Event)
    (db : Store) :
  indexes_hold db -> indexes_hold (snd (handle rt env ev db)).
Proof.
  intros Hi. destruct ev; simpl.
  - now apply createOrder_indexes.
  - unfold updateOrderStatus.
    destruct (negb (validate_updateOrderStatus req)); [exact Hi|].
    destruct (negb (is_admin _)); [exact Hi|].
    destruct (OrderStatus_of_string _); [|exact Hi].
    destruct (negb (notes_ok _)); [exact Hi|].
    destruct (Mongo.findOne _ _); [|exact Hi]. simpl.
    revert Hi. apply same_keys_indexes. unfold same_keys; simpl.
    repeat split. apply map_findOneAndUpdate. reflexivity.
  - unfold createPayPalPayment.
    destruct (negb (validate_createPayPalPayment rt req)); [exact Hi|].
    destruct (Mongo.findOne _ _) as [o|]; [|exact Hi].
    destruct (negb (OrderStatus_eqb _ _)); [exact Hi|].
    destruct (access_denied _ _); [exact Hi|].
    destruct paypal_createOrder as [d|]; [|exact Hi].
    destruct (Payment_save _ _) as [e|ps] eqn:Hs; [exact Hi|]. simpl.
    apply (set_payment_id_indexes _ _ (with_payments ps db)).
    now apply Payment_save_indexes with (p := new_Payment generatePaymentId o paypal (orderID d)).
  - unfold createNequiPayment.
    destruct (negb (validate_createNequiPayment rt req)); [exact Hi|].
    destruct (Mongo.findOne _ _) as [o|]; [|exact Hi].
    destruct (negb (OrderStatus_eqb _ _)); [exact Hi|].
    destruct (access_denied _ _); [exact Hi|].
    destruct nequi_createPaymentRequest as [d|]; [|exact Hi].
    destruct (Payment_save _ _) as [e|ps] eqn:Hs; [exact Hi|]. simpl.
    apply (set_payment_id_indexes _ _ (with_payments ps db)).
    now apply Payment_save_indexes with (p := new_Payment generatePaymentId o nequi (nq_paymentId d)).
  - unfold capturePayPalPayment.
    destruct (negb (validate_capturePayPalPayment orderId)); [exact Hi|].
    destruct paypal_captureOrder as [c|]; [|exact Hi].
    destruct (String.eqb _ _); [|exact Hi].
    destruct (Mongo.findOne _ _) as [p|]; [|exact Hi]. simpl.
    revert Hi. apply same_keys_indexes, same_keys_mark_completed.
  - unfold refundPayment.
    destruct (negb (validate_refundPayment req)); [exact Hi|].
    destruct (negb (is_admin _)); [exact Hi|].
    destruct (Mongo.findOne _ _) as [p|]; [|exact Hi].
    destruct (Payment.provider p); try exact Hi;
      (destruct provider_refund; [|exact Hi]); simpl;
      revert Hi; apply same_keys_indexes, same_keys_mark_refunded.
  - unfold post_paypal.
    destruct (negb (PayPalService.verifyWebhookSignature _ _ _ _)); [exact Hi|].
    destruct (String.eqb _ "PAYMENT.CAPTURE.COMPLETED").
    + unfold handlePayPalPaymentCompleted.
      destruct (resource _) as [r|]; [|exact Hi].
      destruct (Mongo.findOne _ _) as [p|]; [|exact Hi].
      destruct (PaymentStatus_eqb _ _); [|exact Hi]. simpl.
      revert Hi. apply same_keys_indexes, same_keys_mark_completed.
    + destruct (String.eqb _ "PAYMENT.CAPTURE.DENIED"); [|exact Hi].
      unfold handlePayPalPaymentFailed.
      destruct (resource _) as [r|]; [|exact Hi].
      destruct (Mongo.findOne _ _) as [p|]; [|exact Hi]. simpl.
      revert Hi. apply same_keys_indexes, same_keys_mark_failed.
  - unfold post_nequi.
    destruct (negb (NequiService.verifyWebhookSignature _ _ _ _ _ _)); [exact Hi|].
    destruct (String.eqb _ "PAYMENT_COMPLETED").
    + unfold handleNequiPaymentCompleted.
      destruct (Mongo.findOne _ _) as [p|]; [|exact Hi].
      destruct (PaymentStatus_eqb _ _); [|exact Hi]. simpl.
      revert Hi. apply same_keys_indexes, same_keys_mark_completed.
    + destruct (String.eqb _ "PAYMENT_FAILED"); [|exact Hi].
      unfold handleNequiPaymentFailed.
      destruct (Mongo.findOne _ _) as [p|]; [|exact Hi]. simpl.
      revert Hi. apply same_keys_indexes, same_keys_mark_failed.
Qed.

Lemma serve_preserves_indexes (rt : Runtime) (env : Env) (evs : list Event) :
  forall db, indexes_hold db -> indexes_hold (serve rt env evs db).
Proof.
  induction evs as [|ev evs IH]; intros db Hi; simpl; [exact Hi|].
  now apply IH, handle_preserves_indexes.
Qed.

(** ** Webhook deliveries *)

(** An accepted notification is served by the handler its [notice] names. *)
Lemma deliver_verified (rt : Runtime) (env : Env) (w : Webhook) (now : Z)
    (db : Store) :
  verifies rt env w now = true ->
  deliver rt env w now db = webhook_done (apply_notice now (notice w) db) db.
Proof.
  intros Hv. destruct w as [req|req]; simpl in *.
  - unfold post_paypal. rewrite Hv. simpl.
    destruct (String.eqb _ "PAYMENT.CAPTURE.COMPLETED").
    + unfold handlePayPalPaymentCompleted.
      destruct (resource _); reflexivity.
    + destruct (String.eqb _ "PAYMENT.CAPTURE.DENIED"); [|reflexivity].
      unfold handlePayPalPaymentFailed.
      destruct (resource _); reflexivity.
  - unfold post_nequi. rewrite Hv. simpl.
    destruct (String.eqb _ "PAYMENT_COMPLETED"); [reflexivity|].
    destruct (String.eqb _ "PAYMENT_FAILED"); reflexivity.
Qed.

Lemma deliver_unverified (rt : Runtime) (env : Env) (w : Webhook) (now : Z)
    (db : Store) :
  verifies rt env w now = false ->
  deliver rt env w now db = (res 400 (error "Invalid signature"), db).
Proof.
  intros Hv. destruct w as [req|req]; simpl in *.
  - unfold post_paypal. now rewrite Hv.
  - unfold post_nequi. now rewrite Hv.
Qed.

(** With [Payment.id] unique, a row is the first row carrying its id. *)
Lemma findOne_by_key {A : Type} (key : A -> string) (c : list A) (d : A) :
  NoDup (map key c) -> In d c ->
  Mongo.findOne (fun x => String.eqb (key x) (key d)) c = Some d.
Proof.
  induction c as [|x c IH]; simpl; [tauto|].
  intros Hn Hin. inversion Hn as [|k ks Hk Hn']; subst.
  destruct (String.eqb_spec (key x) (key d)) as [E|E].
  - destruct Hin as [->|Hin]; [reflexivity|].
    exfalso. apply Hk. rewrite E. now apply in_map.
  - destruct Hin as [->|Hin]; [congruence|]. now apply IH.
Qed.

Lemma payment_found_by_id (db : Store) (ref : string) (p : Payment.t) :
  indexes_hold db ->
  Mongo.findOne (payment_by_provider_payment_id ref) (payments db) = Some p ->
  Mongo.findOne (payment_by_id (Payment.id p)) (payments db) = Some p.
Proof.
  intros (_ & Np) Hf.
  destruct (findOne_matches _ _ _ Hf) as [_ Hin].
  exact (findOne_by_key Payment.id (payments db) p Np Hin).
Qed.

(** After a completion or failure was written for the payment that [ref]
    selects, [ref] selects the rewritten payment. *)
Lemma found_after_rewrite (db : Store) (ref : string) (p : Payment.t)
    (u : Payment.t -> Payment.t) :
  indexes_hold db ->
  (forall d, Payment.provider_payment_id (u d) = Payment.provider_payment_id d) ->
  Mongo.findOne (payment_by_provider_payment_id ref) (payments db) = Some p ->
  Mongo.findOne (payment_by_provider_payment_id ref)
    (Mongo.findOneAndUpdate (payment_by_id (Payment.id p)) u (payments db))
  = Some (u p).
Proof.
  intros Hi Hu Hf.
  apply findOne_other_after_update.
  - exact Hf.
  - now apply payment_found_by_id with (ref := ref).
  - destruct (findOne_matches _ _ _ Hf) as [Hq _].
    unfold payment_by_provider_payment_id in *. now rewrite Hu.
Qed.

Lemma mark_failed_twice (raw : RawResponse) (p p' : Payment.t) (db : Store) :
  Payment.id p' = Payment.id p -> Payment.order_id p' = Payment.order_id p ->
  mark_failed raw p' (mark_failed raw p db) = mark_failed raw p db.
Proof.
  intros Hid Hoid. unfold mark_failed. simpl. rewrite Hid, Hoid.
  rewrite !findOneAndUpdate_twice; reflexivity.
Qed.

(** A notification applied once: applying it again, at any later clock
    reading, returns the store it left. *)
Lemma apply_notice_again (n : Notice) (t t' : Z) (db db1 : Store) :
  indexes_hold db ->
  apply_notice t n db = Some db1 -> apply_notice t' n db1 = Some db1.
Proof.
  intros Hi. destruct n as [ref raw|ref raw| |]; simpl; try congruence.
  - destruct (Mongo.findOne _ (payments db)) as [p|] eqn:Hf.
    + destruct (PaymentStatus_eqb (Payment.status p) pay_pending) eqn:Hs.
      * intros H. injection H as <-. simpl.
        match goal with
        | |- context [Mongo.findOneAndUpdate (payment_by_id (Payment.id p)) ?u _] =>
            rewrite (found_after_rewrite db ref p u Hi (fun _ => eq_refl) Hf)
        end.
        reflexivity.
      * intros H. injection H as <-. now rewrite Hf, Hs.
    + intros H. injection H as <-. now rewrite Hf.
  - destruct (Mongo.findOne _ (payments db)) as [p|] eqn:Hf.
    + intros H. injection H as <-. simpl.
      match goal with
      | |- context [Mongo.findOneAndUpdate (payment_by_id (Payment.id p)) ?u _] =>
          rewrite (found_after_rewrite db ref p u Hi (fun _ => eq_refl) Hf)
      end.
      f_equal. now apply (mark_failed_twice raw p).
    + intros H. injection H as <-. now rewrite Hf.
Qed.

Lemma deliver_again (rt : Runtime) (env : Env) (w : Webhook) (t t' : Z)
    (db : Store) :
  indexes_hold db -> verifies rt env w t = true ->
  snd (deliver rt env w t' (snd (deliver rt env w t db))) =
  snd (deliver rt env w t db).
Proof.
  intros Hi Hv. rewrite (deliver_verified rt env w t db Hv).
  destruct (apply_notice t (notice w) db) as [db1|] eqn:Ha; simpl.
  - destruct (verifies rt env w t') eqn:Hv'.
    + rewrite (deliver_verified rt env w t' db1 Hv').
      now rewrite (apply_notice_again _ t t' db db1 Hi Ha).
    + now rewrite (deliver_unverified rt env w t' db1 Hv').
  - destruct (verifies rt env w t') eqn:Hv'.
    + rewrite (deliver_verified rt env w t' db Hv').
      destruct (apply_notice t' (notice w) db) as [db2|] eqn:Ha'; [|reflexivity].
      destruct (notice w); simpl in Ha;
        repeat match type of Ha with
               | context [match ?x with _ => _ end] => destruct x
               end; discriminate.
    + now rewrite (deliver_unverified rt env w t' db Hv').
Qed.

(** Back-to-back redelivery.  A webhook that was delivered and accepted at
    time [t] and is then delivered again at the times [ts], with nothing
    else served in between, leaves the store exactly as the single delivery
    at [t] does: each duplicate returns the store it received, and when its
    signature is accepted it is answered like the first delivery, with 200
    whenever the first was.  For completion notifications this is the
    status test: the duplicate writes nothing.  For failure notifications
    the duplicate runs both updates again and writes the same values, so
    the equality is one of the fields the documents here carry: the
    [updated_at] of the payment and of its order, which every update
    refreshes, moves to the time of the duplicate. *)
Lemma webhook_redelivery_idempotent (rt : Runtime) (env : Env) (w : Webhook)
    (t : Z) (ts : list Z) (db : Store) :
  indexes_hold db ->
  verifies rt env w t = true ->
  deliver_at rt env w (t :: ts) db = deliver_at rt env w [t] db /\
  (forall t', snd (deliver rt env w t' (snd (deliver rt env w t db))) =
              snd (deliver rt env w t db)) /\
  (forall t', verifies rt env w t' = true ->
              fst (deliver rt env w t' (snd (deliver rt env w t db))) =
              fst (deliver rt env w t db)) /\
  (notice w <> malformed -> fst (deliver rt env w t db) = res 200 received).
Proof.
  intros Hi Hv. split; [|split; [|split]].
  - simpl. induction ts as [|t' ts IH]; [reflexivity|].
    simpl. now rewrite deliver_again.
  - intros t'. now apply deliver_again.
  - intros t' Hv'.
    rewrite (deliver_verified rt env w t db Hv).
    destruct (apply_notice t (notice w) db) as [db1|] eqn:Ha; simpl.
    + rewrite (deliver_verified rt env w t' db1 Hv').
      now rewrite (apply_notice_again _ t t' db db1 Hi Ha).
    + rewrite (deliver_verified rt env w t' db Hv').
      destruct (notice w); simpl in Ha |- *;
        repeat match type of Ha with
               | context [match ?x with _ => _ end] => destruct x
               end; try discriminate; reflexivity.
  - intros Hn. rewrite (deliver_verified rt env w t db Hv).
    destruct (notice w); simpl; try congruence;
      repeat match goal with
             | |- context [match ?x with _ => _ end] => destruct x
             end; reflexivity.
Qed.

Ltac solve_indexes :=
  unfold indexes_hold; simpl;
  repeat split;
  repeat (constructor; [simpl; intuition discriminate|]); constructor.

Example webhook_redelivery_example :
  deliver_at Sample.rt Sample.env (PayPalHook Sample.completed_hook)
    [Sample.t0; Sample.t0; Sample.t0 + 5] Sample.db_pending
  = deliver_at Sample.rt Sample.env (PayPalHook Sample.completed_hook)
      [Sample.t0] Sample.db_pending /\
  payment_status_of "PAY_1"
    (deliver_at Sample.rt Sample.env (PayPalHook Sample.completed_hook)
       [Sample.t0] Sample.db_pending) = Some pay_completed /\
  order_status_of "ORD_1"
    (deliver_at Sample.rt Sample.env (PayPalHook Sample.completed_hook)
       [Sample.t0] Sample.db_pending) = Some paid.
Proof.
  destruct (webhook_redelivery_idempotent Sample.rt Sample.env
              (PayPalHook Sample.completed_hook) Sample.t0
              [Sample.t0; Sample.t0 + 5] Sample.db_pending)
    as (H & _); [solve_indexes | reflexivity |].
  split; [exact H|]. split; reflexivity.
Qed.

(** ** Payment status under webhooks and capture *)

Lemma status_after_rewrite (db : Store) (p : Payment.t)
    (u : Payment.t -> Payment.t) (ps : list Payment.t) :
  Mongo.findOne (payment_by_id (Payment.id p)) (payments db) = Some p ->
  (forall d, Payment.id (u d) = Payment.id d) ->
  ps = Mongo.findOneAndUpdate (payment_by_id (Payment.id p)) u (payments db) ->
  option_map Payment.status (Mongo.findOne (payment_by_id (Payment.id p)) ps)
  = Some (Payment.status (u p)).
Proof.
  intros Hf Hu ->.
  rewrite (findOne_after_update _ u _ p Hf).
  - reflexivity.
  - unfold payment_by_id. rewrite Hu. apply String.eqb_refl.
Qed.

Ltac rewrite_status Hid :=
  match goal with
  | |- context [Mongo.findOneAndUpdate (payment_by_id (Payment.id ?p)) ?u
                  (payments ?db)] =>
      rewrite (status_after_rewrite db p u _ Hid (fun _ => eq_refl) eq_refl)
  end.

(** C1 (as the code has it). A failure notification is applied to the
    payment it names whatever that payment's status: a Payment that is
    [completed] is moved to [failed], an edge the life cycle
    pending->{completed, failed}, completed->refunded does not have, and
    its Order is set to [cancelled]. *)
Theorem failure_notice_overrides_completed (rt : Runtime) (env : Env)
    (w : Webhook) (now : Z) (ref : string) (raw : RawResponse)
    (p : Payment.t) (db : Store) :
  indexes_hold db ->
  verifies rt env w now = true ->
  notice w = reports_failed ref raw ->
  Mongo.findOne (payment_by_provider_payment_id ref) (payments db) = Some p ->
  Payment.status p = pay_completed ->
  payment_status_of (Payment.id p) db = Some pay_completed /\
  payment_status_of (Payment.id p) (snd (deliver rt env w now db)) = Some pay_failed /\
  legal_payment_edge pay_completed pay_failed = false /\
  (forall o, Mongo.findOne (order_by_id (Payment.order_id p)) (orders db) = Some o ->
             order_status_of (Payment.order_id p) (snd (deliver rt env w now db))
             = Some cancelled).
Proof.
  intros Hi Hv Hn Hf Hs.
  pose proof (payment_found_by_id db ref p Hi Hf) as Hid.
  rewrite (deliver_verified rt env w now db Hv), Hn. simpl. rewrite Hf. simpl.
  unfold payment_status_of, order_status_of. simpl.
  split; [now rewrite Hid; simpl; rewrite Hs|].
  split; [|split; [reflexivity|]].
  - now rewrite_status Hid.
  - intros o Ho.
    rewrite (findOne_after_update _ _ _ o Ho); [reflexivity|].
    exact (proj1 (findOne_matches _ _ _ Ho)).
Qed.

Lemma failure_notice_overrides_completed_witness :
  payment_status_of "PAY_1" Sample.db_nequi_paid = Some pay_completed /\
  order_status_of "ORD_1" Sample.db_nequi_paid = Some paid /\
  payment_status_of "PAY_1"
    (snd (post_nequi Sample.rt Sample.env Sample.t0 Sample.nequi_failed_hook
            Sample.db_nequi_paid))
  = Some pay_failed /\
  order_status_of "ORD_1"
    (snd (post_nequi Sample.rt Sample.env Sample.t0 Sample.nequi_failed_hook
            Sample.db_nequi_paid))
  = Some cancelled.
Proof.
  destruct (failure_notice_overrides_completed Sample.rt Sample.env
              (NequiHook Sample.nequi_failed_hook) Sample.t0 "NQ-9"
              (raw_nequi Sample.nequi_failed_body)
              (Sample.nequi_payment_in pay_completed) Sample.db_nequi_paid)
    as (H0 & H1 & _ & H2);
    [solve_indexes | reflexivity | reflexivity | reflexivity | reflexivity |].
  split; [exact H0|]. split; [reflexivity|]. split; [exact H1|].
  exact (H2 _ eq_refl).
Defined.

(** The synchronous capture path has no status test either: a capture
    answered COMPLETED completes a payment that had [failed]. *)
Lemma capture_completes_failed_payment (now : Z) (captureData : CaptureData)
    (orderId : string) (p : Payment.t) (db : Store) :
  indexes_hold db ->
  validate_capturePayPalPayment orderId = true ->
  capture_status captureData = "COMPLETED" ->
  Mongo.findOne (payment_by_provider_payment_id orderId) (payments db) = Some p ->
  Payment.status p = pay_failed ->
  payment_status_of (Payment.id p)
    (snd (capturePayPalPayment now (Some captureData) orderId db))
  = Some pay_completed /\
  legal_payment_edge pay_failed pay_completed = false.
Proof.
  intros Hi Hval Hc Hf Hs.
  pose proof (payment_found_by_id db orderId p Hi Hf) as Hid.
  unfold capturePayPalPayment. rewrite Hval, Hc, Hf. simpl.
  split; [|reflexivity]. unfold payment_status_of. simpl.
  now rewrite_status Hid.
Qed.

(** The completion handlers do test the status: under a completion
    notification a payment changes status only from [pending], and only to
    [completed]. *)
Lemma completion_notice_only_from_pending (rt : Runtime) (env : Env)
    (w : Webhook) (now : Z) (ref : string) (raw : RawResponse) (db : Store)
    (id : string) (a b : PaymentStatus) :
  indexes_hold db ->
  notice w = reports_completed ref raw ->
  payment_status_of id db = Some a ->
  payment_status_of id (snd (deliver rt env w now db)) = Some b ->
  a <> b -> a = pay_pending /\ b = pay_completed.
Proof.
  intros Hi Hn Ha Hb Hab.
  destruct (verifies rt env w now) eqn:Hv.
  2:{ rewrite (deliver_unverified rt env w now db Hv) in Hb. simpl in Hb. congruence. }
  rewrite (deliver_verified rt env w now db Hv), Hn in Hb. simpl in Hb.
  destruct (Mongo.findOne _ (payments db)) as [p|] eqn:Hf;
    [|simpl in Hb; congruence].
  destruct (PaymentStatus_eqb (Payment.status p) pay_pending) eqn:Hs;
    [|simpl in Hb; congruence].
  pose proof (payment_found_by_id db ref p Hi Hf) as Hid.
  unfold payment_status_of in *. simpl in Hb.
  match type of Hb with
  | context [Mongo.findOneAndUpdate ?q ?u ?c] =>
      pose proof (findOne_update_cases q u (payment_by_id id) c (fun _ => eq_refl)) as Hc
  end.
  destruct (Mongo.findOne (payment_by_id id) (payments db)) as [d|]; [|discriminate].
  destruct (Mongo.findOne (payment_by_id id) (Mongo.findOneAndUpdate _ _ _))
    as [d'|]; [|discriminate].
  simpl in Ha, Hb. injection Ha as <-. injection Hb as <-.
  destruct Hc as [->|[-> Hd]]; [congruence|].
  rewrite Hid in Hd. injection Hd as <-. simpl.
  split; [|reflexivity].
  destruct (Payment.status p); simpl in Hs; congruence.
Qed.

(** ** Payment creation *)

Lemma order_by_id_eq (i : string) (o : Order.t) :
  order_by_id i o = true -> Order.id o = i.
Proof. unfold order_by_id. now intros H%String.eqb_eq. Qed.

(** What a successful [payment.save()] needed. *)
Lemma Payment_save_required (p : Payment.t) (c c' : list Payment.t) :
  Payment_save p c = inr c' ->
  Mongo.required (Payment.id p) = true /\
  Mongo.required (Payment.order_id p) = true.
Proof.
  unfold Payment_save.
  destruct (Mongo.required (Payment.id p)); [|discriminate].
  destruct (Mongo.required (Payment.order_id p)); [|discriminate].
  now split.
Qed.

(** A row with its required paths, a non-negative amount and an unused id
    is saved, whatever rows its order already has. *)
Lemma Payment_save_succeeds (p : Payment.t) (c : list Payment.t) :
  Mongo.required (Payment.id p) = true ->
  Mongo.required (Payment.order_id p) = true ->
  0 <= Payment.amount_cop p ->
  existsb (payment_by_id (Payment.id p)) c = false ->
  Payment_save p c = inr (c ++ [p])%list.
Proof.
  intros H1 H2 H3 H4. unfold Payment_save.
  rewrite H1, H2, H4. simpl.
  destruct (Z.ltb_spec (Payment.amount_cop p) 0); [lia | reflexivity].
Qed.

Lemma call_failed_code (c : Concurrent.Call) :
  code (Concurrent.call_failed c) = 500.
Proof. destruct c; reflexivity. Qed.

Lemma call_provider_payment (c : Concurrent.Call) (o : Order.t)
    (pay : Payment.t) (ok : Body) :
  Concurrent.call_provider c o = Some (pay, ok) ->
  Payment.id pay = Concurrent.call_payment_id c /\
  Payment.order_id pay = Order.id o /\
  Payment.amount_cop pay = Order.total_cop o /\
  Payment.status pay = pay_pending.
Proof.
  destruct c as [i [d|] req|i [d|] req]; simpl; try discriminate;
    intros H; injection H as <- _; repeat split.
Qed.

(** What a payment creation answered 200 found and wrote. *)
Lemma creation_inv (rt : Runtime) (env : Env) (ev : Event) (db : Store)
    (oid gen ref : string) :
  creation ev = Some (oid, gen, ref) ->
  code (fst (handle rt env ev db)) = 200 ->
  exists order prov,
    Mongo.findOne (order_by_id oid) (orders db) = Some order /\
    Order.status order = pending /\
    existsb (payment_by_id gen) (payments db) = false /\
    snd (handle rt env ev db) =
    with_orders
      (Mongo.findOneAndUpdate (order_by_id oid) (Order.set_payment_id gen) (orders db))
      (with_payments (payments db ++ [new_Payment gen order prov ref])%list db).
Proof.
  destruct ev as [| |i [d|] req|i [d|] req| | | |]; try discriminate; simpl;
    intros H; injection H as <- <- <-;
    [unfold createPayPalPayment | unfold createNequiPayment];
    (destruct (negb _); [discriminate|]);
    (destruct (Mongo.findOne _ (orders db)) as [o|] eqn:Ho; [|discriminate]);
    (destruct (OrderStatus_eqb (Order.status o) pending) eqn:Hst;
       simpl; [|discriminate]);
    (destruct (access_denied _ o); [discriminate|]);
    (destruct (Payment_save _ (payments db)) as [e|ps] eqn:Hs; [discriminate|]);
    intros _; apply Payment_save_ok in Hs;
    destruct Hs as (-> & Hid & _); simpl in Hid;
    eexists o, _; (split; [reflexivity|]);
    (split; [destruct (Order.status o); (discriminate || reflexivity)|]);
    (split; [exact Hid|]); reflexivity.
Qed.

Lemma find_snoc {A : Type} (q : A -> bool) (c : list A) (d : A) :
  (forall x, In x c -> q x = false) -> q d = true ->
  Mongo.findOne q (c ++ [d])%list = Some d.
Proof.
  intros Hc Hd. induction c as [|x c IH]; simpl.
  - now rewrite Hd.
  - rewrite (Hc x (or_introl eq_refl)). apply IH.
    intros y Hy. apply Hc. now right.
Qed.

Lemma existsb_false_all {A : Type} (q : A -> bool) (c : list A) :
  existsb q c = false -> forall x, In x c -> q x = false.
Proof.
  intros H x Hx. destruct (q x) eqn:E; [|reflexivity].
  assert (existsb q c = true) by (apply existsb_exists; eauto). congruence.
Qed.

(** C7 (as the code has it).  Round trip.  A payment creation (PayPal or
    Nequi) answered 200 for an order found that order pending, recorded a
    pending Payment carrying the provider's correlation id and set the
    order's [payment_id] to it; when the provider then reports completion
    for that correlation id in a webhook whose signature is accepted, the
    Order is [paid], its [payment_id] is the id of the Payment, and that
    Payment is [completed] -- provided no Payment row stored before the
    creation carries the correlation id: the handlers look the payment up
    by [provider_payment_id] alone and take the first row that has it. *)
Theorem create_then_completed_roundtrip (rt : Runtime) (env : Env)
    (ev : Event) (w : Webhook) (now : Z) (db : Store)
    (oid gen ref : string) (raw : RawResponse) :
  creation ev = Some (oid, gen, ref) ->
  code (fst (handle rt env ev db)) = 200 ->
  (forall p, In p (payments db) -> Payment.provider_payment_id p <> Some ref) ->
  verifies rt env w now = true ->
  notice w = reports_completed ref raw ->
  let db1 := snd (handle rt env ev db) in
  let db2 := snd (deliver rt env w now db1) in
  order_status_of oid db = Some pending /\
  (exists p, Mongo.findOne (payment_by_id gen) (payments db1) = Some p /\
             Payment.order_id p = oid /\
             Payment.status p = pay_pending /\
             Payment.provider_payment_id p = Some ref) /\
  order_payment_id_of oid db1 = Some gen /\
  fst (deliver rt env w now db1) = res 200 received /\
  order_status_of oid db2 = Some paid /\
  order_payment_id_of oid db2 = Some gen /\
  payment_status_of gen db2 = Some pay_completed.
Proof.
  intros Hcr Hcode Hfresh Hv Hn db1 db2.
  destruct (creation_inv rt env ev db oid gen ref Hcr Hcode)
    as (o & prov & Ho & Hst & Hid & Hdb1).
  pose proof (order_by_id_eq _ _ (proj1 (findOne_matches _ _ _ Ho))) as Hoi.
  set (P := new_Payment gen o prov ref) in *.
  assert (HfindP : Mongo.findOne (payment_by_id gen) (payments db ++ [P])%list = Some P).
  { apply find_snoc; [now apply existsb_false_all|].
    unfold payment_by_id, P. simpl. apply String.eqb_refl. }
  assert (HrefP : Mongo.findOne (payment_by_provider_payment_id ref)
                    (payments db ++ [P])%list = Some P).
  { apply find_snoc.
    - intros x Hx. unfold payment_by_provider_payment_id.
      specialize (Hfresh x Hx).
      destruct (Payment.provider_payment_id x) as [r|]; simpl; [|reflexivity].
      destruct (String.eqb_spec r ref); [congruence | reflexivity].
    - unfold payment_by_provider_payment_id, P. simpl. apply String.eqb_refl. }
  assert (Ho1 : Mongo.findOne (order_by_id oid) (orders db1)
                = Some (Order.set_payment_id gen o)).
  { subst db1. rewrite Hdb1. simpl.
    apply findOne_after_update; [exact Ho|].
    unfold order_by_id. simpl. rewrite Hoi. apply String.eqb_refl. }
  assert (Hdb2 : db2 = mark_completed now raw P db1).
  { subst db2. rewrite (deliver_verified rt env w now db1 Hv), Hn. simpl.
    subst db1. rewrite Hdb1. simpl. rewrite HrefP. reflexivity. }
  split; [unfold order_status_of; now rewrite Ho; simpl; rewrite Hst|].
  split.
  { exists P. subst db1. rewrite Hdb1. simpl. rewrite HfindP.
    repeat split. exact Hoi. }
  split; [unfold order_payment_id_of; now rewrite Ho1|].
  split.
  { rewrite (deliver_verified rt env w now db1 Hv), Hn. simpl.
    subst db1. rewrite Hdb1. simpl. rewrite HrefP. reflexivity. }
  assert (Ho2 : Mongo.findOne (order_by_id oid) (orders db2)
                = Some (Order.set_payment_status pay_completed
                          (Order.set_status paid (Order.set_payment_id gen o)))).
  { rewrite Hdb2. unfold mark_completed. simpl.
    replace (Order.id o) with oid.
    match goal with
    | |- Mongo.findOne ?q (Mongo.findOneAndUpdate ?q ?u ?c) = _ =>
        apply (findOne_after_update q u c _ Ho1)
    end.
    unfold order_by_id. simpl. rewrite Hoi. apply String.eqb_refl. }
  split; [unfold order_status_of; now rewrite Ho2|].
  split; [unfold order_payment_id_of; now rewrite Ho2|].
  unfold payment_status_of. rewrite Hdb2. unfold mark_completed. simpl.
  subst db1. rewrite Hdb1. simpl.
  match goal with
  | |- context [Mongo.findOne ?q (Mongo.findOneAndUpdate ?q ?u ?c)] =>
      rewrite (findOne_after_update q u c P HfindP)
  end; [reflexivity|].
  unfold payment_by_id. simpl. apply String.eqb_refl.
Qed.

Lemma create_then_completed_roundtrip_witness :
  order_status_of "ORD_1"
    (snd (post_paypal Sample.env Sample.t0 Sample.completed_hook
            (snd (createPayPalPayment Sample.rt "PAY_1" (Some Sample.paypal_data)
                    Sample.paypal_req Sample.db_fresh)))) = Some paid /\
  order_payment_id_of "ORD_1"
    (snd (post_paypal Sample.env Sample.t0 Sample.completed_hook
            (snd (createPayPalPayment Sample.rt "PAY_1" (Some Sample.paypal_data)
                    Sample.paypal_req Sample.db_fresh)))) = Some "PAY_1" /\
  payment_status_of "PAY_1"
    (snd (post_paypal Sample.env Sample.t0 Sample.completed_hook
            (snd (createPayPalPayment Sample.rt "PAY_1" (Some Sample.paypal_data)
                    Sample.paypal_req Sample.db_fresh)))) = Some pay_completed.
Proof.
  destruct (create_then_completed_roundtrip Sample.rt Sample.env
              (POST_payments_paypal_create "PAY_1" (Some Sample.paypal_data)
                 Sample.paypal_req)
              (PayPalHook Sample.completed_hook) Sample.t0 Sample.db_fresh
              "ORD_1" "PAY_1" "PP-ORDER-7" (raw_paypal Sample.capture_resource))
    as (_ & _ & _ & _ & H1 & H2 & H3);
    [reflexivity | reflexivity | intros p [] | reflexivity | reflexivity |].
  split; [exact H1|]. split; [exact H2 | exact H3].
Defined.

(** C7, counterexample.  The completion handlers take the first Payment
    row that carries the correlation id.
    - ORD_1 is pending and PAY_1 was opened for it with the PayPal order
      PP-ORDER-7.  The customer asks again: PayPal, called with the same
      [PayPal-Request-Id], answers with the same order, and PAY_2 is
      recorded with it as the order's [payment_id].  The accepted
      completion webhook completes PAY_1: the order is [paid], and the
      payment it refers to, PAY_2, is still pending.
    - With the id carried by the payment PAY_0 of another order, ORD_0, the
      creation for ORD_1 is answered 200 and the accepted completion
      webhook pays ORD_0; ORD_1 stays pending, its payment PAY_1 too. *)
Lemma roundtrip_with_reused_correlation_id_counterexample :
  (code (fst (createPayPalPayment Sample.rt "PAY_2" (Some Sample.paypal_data)
                Sample.paypal_req Sample.db_pending)) = 200 /\
   fst (post_paypal Sample.env Sample.t0 Sample.completed_hook
          (snd (createPayPalPayment Sample.rt "PAY_2" (Some Sample.paypal_data)
                  Sample.paypal_req Sample.db_pending)))
   = res 200 received /\
   order_status_of "ORD_1"
     (snd (post_paypal Sample.env Sample.t0 Sample.completed_hook
             (snd (createPayPalPayment Sample.rt "PAY_2" (Some Sample.paypal_data)
                     Sample.paypal_req Sample.db_pending)))) = Some paid /\
   order_payment_id_of "ORD_1"
     (snd (post_paypal Sample.env Sample.t0 Sample.completed_hook
             (snd (createPayPalPayment Sample.rt "PAY_2" (Some Sample.paypal_data)
                     Sample.paypal_req Sample.db_pending)))) = Some "PAY_2" /\
   payment_status_of "PAY_2"
     (snd (post_paypal Sample.env Sample.t0 Sample.completed_hook
             (snd (createPayPalPayment Sample.rt "PAY_2" (Some Sample.paypal_data)
                     Sample.paypal_req Sample.db_pending)))) = Some pay_pending /\
   payment_status_of "PAY_1"
     (snd (post_paypal Sample.env Sample.t0 Sample.completed_hook
             (snd (createPayPalPayment Sample.rt "PAY_2" (Some Sample.paypal_data)
                     Sample.paypal_req Sample.db_pending)))) = Some pay_completed) /\
  (code (fst (createPayPalPayment Sample.rt "PAY_1" (Some Sample.paypal_data)
                Sample.paypal_req Fixture.db_reused)) = 200 /\
   fst (post_paypal Sample.env Sample.t0 Sample.completed_hook
          (snd (createPayPalPayment Sample.rt "PAY_1" (Some Sample.paypal_data)
                  Sample.paypal_req Fixture.db_reused)))
   = res 200 received /\
   order_status_of "ORD_1"
     (snd (post_paypal Sample.env Sample.t0 Sample.completed_hook
             (snd (createPayPalPayment Sample.rt "PAY_1" (Some Sample.paypal_data)
                     Sample.paypal_req Fixture.db_reused)))) = Some pending /\
   payment_status_of "PAY_1"
     (snd (post_paypal Sample.env Sample.t0 Sample.completed_hook
             (snd (createPayPalPayment Sample.rt "PAY_1" (Some Sample.paypal_data)
                     Sample.paypal_req Fixture.db_reused)))) = Some pay_pending /\
   order_status_of "ORD_0"
     (snd (post_paypal Sample.env Sample.t0 Sample.completed_hook
             (snd (createPayPalPayment Sample.rt "PAY_1" (Some Sample.paypal_data)
                     Sample.paypal_req Fixture.db_reused)))) = Some paid).
Proof. vm_compute. repeat split. Qed.

(** *** A second attempt *)

Lemma existsb_findOneAndUpdate {A : Type} (key : A -> string) (k : string)
    (q : A -> bool) (u : A -> A) (c : list A) :
  (forall d, key (u d) = key d) ->
  existsb (fun d => String.eqb (key d) k) (Mongo.findOneAndUpdate q u c)
  = existsb (fun d => String.eqb (key d) k) c.
Proof.
  intros Hu. induction c as [|x c IH]; simpl; [reflexivity|].
  destruct (q x); simpl; [now rewrite Hu | now rewrite IH].
Qed.

Lemma filter_length_In {A : Type} (f : A -> bool) (c : list A) (d : A) :
  In d c -> f d = true -> (1 <= List.length (filter f c))%nat.
Proof.
  intros Hin Hf.
  assert (H : In d (filter f c)) by (apply filter_In; now split).
  destruct (filter f c); [contradiction | simpl; lia].
Qed.

(** A call that is [ready] for a pending order is answered 200 and
    appends its row, whatever rows the order already has. *)
Lemma ready_call_alone (rt : Runtime) (env : Env) (c : Concurrent.Call)
    (db : Store) (oid : string) (uid : option string) :
  order_inv oid uid db -> ready rt db oid uid c -> Mongo.required oid = true ->
  exists pay ok,
    good_payment oid c pay /\
    handle rt env (Concurrent.event_of c) db
    = (res 200 ok,
       with_orders
         (Mongo.findOneAndUpdate (order_by_id oid)
            (Order.set_payment_id (Payment.id pay)) (orders db))
         (with_payments (payments db ++ [pay])%list db)).
Proof.
  intros (o & Ho & Hid & Hst & Hu & Hamt) (Hc & Hval & Hacc & Hprov & Rid & Fid) Hreq.
  destruct (Concurrent.call_provider c o) as [[pay ok]|] eqn:Hp;
    [|now elim (Hprov o)].
  destruct (call_provider_payment c o pay ok Hp) as (Hpi & Hpo & Hpa & Hps).
  exists pay, ok. split; [repeat split; congruence|].
  assert (Hsave : Payment_save pay (payments db) = inr (payments db ++ [pay])%list).
  { apply Payment_save_succeeds; congruence. }
  destruct c as [i [d|] req|i [d|] req]; simpl in *; try discriminate;
    injection Hp as <- <-;
    [unfold createPayPalPayment | unfold createNequiPayment];
    rewrite Hval, Hc, Ho, Hst; simpl;
    unfold access_denied; rewrite Hu, Hacc, Hsave; reflexivity.
Qed.

(** C8 (as the code has it).  A failure notification cancels the order
    along with failing the payment, and the creation handlers serve
    pending orders only: a payment-creation request for that order is
    answered 400 and records nothing.  Once the order is pending again,
    which an admin's status update does, a creation request that would
    pass on a pending order is answered 200 and records a second Payment
    row for the order, beside the failed one. *)
Theorem retry_after_failed_payment (rt : Runtime) (env : Env) (w : Webhook)
    (now : Z) (ref : string) (raw : RawResponse) (p : Payment.t) (o : Order.t)
    (db : Store) :
  indexes_hold db ->
  verifies rt env w now = true ->
  notice w = reports_failed ref raw ->
  Mongo.findOne (payment_by_provider_payment_id ref) (payments db) = Some p ->
  Mongo.findOne (order_by_id (Payment.order_id p)) (orders db) = Some o ->
  payment_status_of (Payment.id p) (snd (deliver rt env w now db)) = Some pay_failed /\
  order_status_of (Payment.order_id p) (snd (deliver rt env w now db))
  = Some cancelled /\
  (forall ev,
     creation_order_id ev = Some (Payment.order_id p) ->
     code (fst (handle rt env ev (snd (deliver rt env w now db)))) = 400 /\
     snd (handle rt env ev (snd (deliver rt env w now db)))
     = snd (deliver rt env w now db)) /\
  (forall now' req c,
     is_admin (UpdateOrderStatusReq.user req) = true ->
     UpdateOrderStatusReq.id req = Payment.order_id p ->
     UpdateOrderStatusReq.status req = "pending" ->
     notes_ok (UpdateOrderStatusReq.notes req) = true ->
     ready rt db (Payment.order_id p) (Order.user_id o) c ->
     Mongo.required (Payment.order_id p) = true ->
     0 <= Order.total_cop o ->
     code (fst (handle rt env (Concurrent.event_of c)
                  (snd (updateOrderStatus now' req
                          (snd (deliver rt env w now db)))))) = 200 /\
     (exists row,
        payments (snd (handle rt env (Concurrent.event_of c)
                         (snd (updateOrderStatus now' req
                                 (snd (deliver rt env w now db))))))
        = (payments (snd (deliver rt env w now db)) ++ [row])%list /\
        Payment.id row = Concurrent.call_payment_id c /\
        Payment.order_id row = Payment.order_id p /\
        Payment.status row = pay_pending) /\
     (2 <= List.length
             (payments_of (Payment.order_id p) (fun _ => true)
                (snd (handle rt env (Concurrent.event_of c)
                        (snd (updateOrderStatus now' req
                                (snd (deliver rt env w now db))))))))%nat).
Proof.
  intros Hi Hv Hn Hf Ho.
  pose proof (payment_found_by_id db ref p Hi Hf) as Hpid.
  pose proof (order_by_id_eq _ _ (proj1 (findOne_matches _ _ _ Ho))) as Hoid.
  rewrite (deliver_verified rt env w now db Hv), Hn. simpl. rewrite Hf. simpl.
  set (db1 := mark_failed raw p db).
  set (uo := fun o => Order.set_payment_status pay_failed
                        (Order.set_status cancelled o)).
  set (up := fun d => Payment.set_raw_response raw (Payment.set_status pay_failed d)).
  assert (Ho1 : Mongo.findOne (order_by_id (Payment.order_id p)) (orders db1)
                = Some (uo o)).
  { unfold db1, mark_failed. simpl.
    apply (findOne_after_update _ _ _ o Ho).
    exact (proj1 (findOne_matches _ _ _ Ho)). }
  assert (Hp1 : Mongo.findOne (payment_by_id (Payment.id p)) (payments db1)
                = Some (up p)).
  { unfold db1, mark_failed. simpl.
    apply (findOne_after_update _ _ _ p Hpid).
    exact (proj1 (findOne_matches _ _ _ Hpid)). }
  split; [unfold payment_status_of; now rewrite Hp1|].
  split; [unfold order_status_of; now rewrite Ho1|].
  split.
  - intros ev Hev.
    destruct ev as [| |i out req|i out req| | | |]; try discriminate;
      simpl in Hev; injection Hev as Hev; simpl;
      [unfold createPayPalPayment | unfold createNequiPayment];
      (destruct (negb _); [split; reflexivity|]);
      rewrite Hev, Ho1; split; reflexivity.
  - intros now' req c Hadm Hrid Hrst Hnotes Hready Hreq Hamt.
    set (ur := fun o => Order.set_notes (UpdateOrderStatusReq.notes req)
                          (Order.set_status pending o)).
    set (db2 := with_orders
                  (Mongo.findOneAndUpdate (order_by_id (Payment.order_id p)) ur
                     (orders db1)) db1).
    assert (Hupd : updateOrderStatus now' req db1
                   = (res 200 (order_json (ur (uo o))), db2)).
    { unfold updateOrderStatus, validate_updateOrderStatus.
      rewrite Hrst, Hadm, Hnotes, Hrid, Ho1. reflexivity. }
    rewrite Hupd. cbn [snd].
    assert (Ho2 : order_inv (Payment.order_id p) (Order.user_id o) db2).
    { exists (ur (uo o)). split.
      - unfold db2. simpl. apply (findOne_after_update _ _ _ _ Ho1).
        unfold order_by_id. simpl. rewrite Hoid. apply String.eqb_refl.
      - repeat split; simpl; assumption. }
    assert (Hready2 : ready rt db2 (Payment.order_id p) (Order.user_id o) c).
    { destruct Hready as (H1 & H2 & H3 & H4 & H5 & H6).
      repeat split; try assumption.
      unfold db2, db1, mark_failed. simpl.
      unfold payment_by_id.
      rewrite (existsb_findOneAndUpdate Payment.id); [exact H6 | reflexivity]. }
    destruct (ready_call_alone rt env c db2 _ _ Ho2 Hready2 Hreq)
      as (pay & ok & (Gid & Goid & _ & Gst) & ->).
    simpl. split; [reflexivity|]. split.
    + exists pay. repeat split; assumption.
    + unfold payments_of. simpl. rewrite filter_app, length_app. simpl.
      unfold payment_by_order_id at 2. rewrite Goid, String.eqb_refl. simpl.
      match goal with
      | |- (2 <= List.length ?l + 1)%nat =>
          assert (1 <= List.length l)%nat; [|lia]
      end.
      apply (filter_length_In _ _ (up p)).
      * exact (proj2 (findOne_matches _ _ _ Hp1)).
      * unfold payment_by_order_id. simpl. now rewrite String.eqb_refl.
Qed.

(** C8, counterexample.  ORD_1 is pending; a Nequi payment PAY_1 is
    created, the provider reports it failed and the webhook marks it
    failed.  The retry, through PayPal or through Nequi, is answered 400:
    the failure has cancelled the order.  No second row is stored. *)
Lemma retry_after_failed_payment_counterexample :
  payment_status_of "PAY_1" Sample.db_denied = Some pay_failed /\
  order_status_of "ORD_1" Sample.db_denied = Some cancelled /\
  createPayPalPayment Sample.rt "PAY_2" (Some Sample.paypal_data)
    Sample.paypal_req Sample.db_denied
  = (res 400 (error "Order is not in pending status"), Sample.db_denied) /\
  createNequiPayment Sample.rt "PAY_2" (Some Sample.nequi_data)
    Sample.nequi_req Sample.db_denied
  = (res 400 (error "Order is not in pending status"), Sample.db_denied) /\
  List.length (payments Sample.db_denied) = 1%nat.
Proof. vm_compute. repeat split. Qed.

Lemma retry_after_failed_payment_witness :
  code (fst (createPayPalPayment Sample.rt "PAY_2" (Some Sample.paypal_data)
               Sample.paypal_req Sample.db_denied)) = 400 /\
  code (fst (createPayPalPayment Sample.rt "PAY_2" (Some Sample.paypal_data)
               Sample.paypal_req Sample.db_reopened)) = 200 /\
  (2 <= List.length
          (payments_of "ORD_1" (fun _ => true)
             (snd (createPayPalPayment Sample.rt "PAY_2" (Some Sample.paypal_data)
                     Sample.paypal_req Sample.db_reopened))))%nat.
Proof.
  destruct (retry_after_failed_payment Sample.rt Sample.env
              (NequiHook Sample.nequi_failed_hook) Sample.t0 "NQ-9"
              (raw_nequi Sample.nequi_failed_body)
              (Sample.nequi_payment_in pay_pending)
              (Order.set_payment_id "PAY_1" (Sample.order_in pending pay_pending None))
              Fixture.db_nequi_opened)
    as (_ & _ & Hrefused & Hretry);
    [solve_indexes | reflexivity | reflexivity | reflexivity | reflexivity |].
  destruct (Hrefused (POST_payments_paypal_create "PAY_2" (Some Sample.paypal_data)
                        Sample.paypal_req) eq_refl) as [H400 _].
  destruct (Hretry (Sample.t0 + 60000) (Sample.status_req "pending")
              Fixture.call_retry)
    as (H200 & _ & Hrows); try reflexivity.
  - repeat split; try reflexivity. intros o'. discriminate.
  - simpl. lia.
  - split; [exact H400|]. split; [exact H200 | exact Hrows].
Defined.

(** ** Refunds *)

(** C6 (as the code has it).  A refund request names a payment and tests
    no status.  For an existing PayPal or Nequi payment, whatever the
    status of its order (pending or paid alike), an admin's refund request
    moves the Payment and its Order to [refunded] when the provider's
    refund call returns, and only then: when that call fails the answer is
    500 and the store is left as it was. *)
Theorem refund_follows_provider (req : RefundReq) (db : Store)
    (payment : Payment.t) :
  validate_refundPayment req = true ->
  is_admin (rf_user req) = true ->
  Mongo.findOne (payment_by_id (rf_payment_id req)) (payments db) = Some payment ->
  Payment.provider payment <> manual ->
  refundPayment None req db = (res 500 (error "Failed to refund payment"), db) /\
  forall refundResult,
    fst (refundPayment (Some refundResult) req db) = res 200 (refund_json refundResult) /\
    payment_status_of (rf_payment_id req)
      (snd (refundPayment (Some refundResult) req db)) = Some pay_refunded /\
    (forall o,
       Mongo.findOne (order_by_id (Payment.order_id payment)) (orders db) = Some o ->
       order_status_of (Payment.order_id payment)
         (snd (refundPayment (Some refundResult) req db)) = Some refunded).
Proof.
  intros Hval Hadm Hf Hprov. unfold refundPayment.
  rewrite Hval, Hadm, Hf. simpl.
  destruct (Payment.provider payment) eqn:Hp; try congruence;
    (split; [reflexivity|]); intros r; (split; [reflexivity|]);
    unfold payment_status_of, order_status_of, mark_refunded; simpl; split.
  all: try (intros o Ho;
            match goal with
            | |- context [Mongo.findOne ?q (Mongo.findOneAndUpdate ?q ?u ?c)] =>
                rewrite (findOne_after_update q u c o Ho);
                [reflexivity | exact (proj1 (findOne_matches _ _ _ Ho))]
            end).
  all: match goal with
       | |- context [Mongo.findOne ?q (Mongo.findOneAndUpdate ?q ?u ?c)] =>
           rewrite (findOne_after_update q u c payment Hf);
           [reflexivity | exact (proj1 (findOne_matches _ _ _ Hf))]
       end.
Qed.

(** C6, counterexample.  ORD_1 is pending and unpaid, its payment PAY_1
    pending; the admin's refund request is passed to the provider, and when
    the provider answers, payment and order are written [refunded]. *)
Lemma refund_of_unpaid_order_counterexample :
  order_status_of "ORD_1" Sample.db_pending = Some pending /\
  payment_status_of "PAY_1" Sample.db_pending = Some pay_pending /\
  fst (refundPayment (Some "refund-ok") Sample.refund_req Sample.db_pending)
  = res 200 (refund_json "refund-ok") /\
  order_status_of "ORD_1"
    (snd (refundPayment (Some "refund-ok") Sample.refund_req Sample.db_pending))
  = Some refunded /\
  payment_status_of "PAY_1"
    (snd (refundPayment (Some "refund-ok") Sample.refund_req Sample.db_pending))
  = Some pay_refunded /\
  legal_order_edge pending refunded = false.
Proof. vm_compute. repeat split. Qed.

Lemma refund_follows_provider_witness :
  refundPayment None Sample.refund_req Sample.db_paid
  = (res 500 (error "Failed to refund payment"), Sample.db_paid) /\
  order_status_of "ORD_1"
    (snd (refundPayment (Some "refund-ok") Sample.refund_req Sample.db_paid))
  = Some refunded.
Proof.
  destruct (refund_follows_provider Sample.refund_req Sample.db_paid
              (Sample.payment_in pay_completed))
    as [Hnone Hsome]; [reflexivity | reflexivity | reflexivity | discriminate |].
  split; [exact Hnone|].
  destruct (Hsome "refund-ok") as (_ & _ & Ho). exact (Ho _ eq_refl).
Defined.

(** ** Order status *)

Lemma findOne_app_some {A : Type} (q : A -> bool) (c c' : list A) (d : A) :
  Mongo.findOne q c = Some d -> Mongo.findOne q (c ++ c')%list = Some d.
Proof.
  induction c as [|x c IH]; simpl; [discriminate|].
  destruct (q x); [tauto | exact IH].
Qed.

(** Across one such step an existing order keeps its status or takes one
    allowed by [P]. *)
Lemma orders_step_status (P : OrderStatus -> Prop) (os os' : list Order.t)
    (oid : string) (a b : OrderStatus) :
  orders_step P os os' ->
  option_map Order.status (Mongo.findOne (order_by_id oid) os) = Some a ->
  option_map Order.status (Mongo.findOne (order_by_id oid) os') = Some b ->
  a = b \/ P b.
Proof.
  intros [|o|q u Hid Hst] Ha Hb.
  - left. congruence.
  - destruct (Mongo.findOne (order_by_id oid) os) as [d|] eqn:Hd; [|discriminate].
    rewrite (findOne_app_some _ _ _ _ Hd) in Hb. left. congruence.
  - pose proof (findOne_update_cases q u (order_by_id oid) os) as Hc.
    destruct (Mongo.findOne (order_by_id oid) os) as [d|];
      [|discriminate].
    destruct (Mongo.findOne (order_by_id oid) (Mongo.findOneAndUpdate q u os))
      as [d'|]; [|discriminate].
    simpl in Ha, Hb. injection Ha as <-. injection Hb as <-.
    destruct Hc as [->|[-> _]].
    + intros d0. unfold order_by_id. now rewrite Hid.
    + now left.
    + destruct (Hst d) as [E|E]; [left; now rewrite E | now right].
Qed.

Lemma orders_step_mark_completed (now : Z) (raw : RawResponse) (p : Payment.t)
    (db : Store) :
  orders_step payment_flow_target (orders db) (orders (mark_completed now raw p db)).
Proof.
  unfold mark_completed; simpl. apply orders_update; intros d; simpl;
    [reflexivity | right; left; reflexivity].
Qed.

Lemma orders_step_mark_failed (raw : RawResponse) (p : Payment.t) (db : Store) :
  orders_step payment_flow_target (orders db) (orders (mark_failed raw p db)).
Proof.
  unfold mark_failed; simpl. apply orders_update; intros d; simpl;
    [reflexivity | right; right; left; reflexivity].
Qed.

Lemma orders_step_mark_refunded (i : string) (raw : RawResponse) (p : Payment.t)
    (db : Store) :
  orders_step payment_flow_target (orders db) (orders (mark_refunded i raw p db)).
Proof.
  unfold mark_refunded; simpl. apply orders_update; intros d; simpl;
    [reflexivity | right; right; right; reflexivity].
Qed.

Lemma orders_step_createOrder (rt : Runtime) (i : string)
    (req : CreateOrderReq.t) (db : Store) :
  orders_step payment_flow_target (orders db) (orders (snd (createOrder rt i req db))).
Proof.
  unfold createOrder.
  destruct (validate_createOrder rt req); simpl; [|constructor].
  destruct (CreateOrderReq.items req) as [|i0 rest]; [constructor|].
  destruct (validate_items _ _ _ _) as [msg|[subtotal validated]]; [constructor|].
  destruct (Provider_of_string _) as [pm|]; [|constructor].
  destruct (Order_save rt _ (orders db)) as [e|os] eqn:Hs; [constructor|].
  assert (exists o, os = (orders db ++ [o])%list) as [o ->].
  { unfold Order_save in Hs.
    repeat match type of Hs with
           | (if ?b then _ else _) = _ => destruct b; [discriminate|]
           end.
    injection Hs as <-. eauto. }
  destruct (update_inventory _ _) as [[|] ps]; simpl; constructor.
Qed.

Lemma orders_step_deliver (rt : Runtime) (env : Env) (w : Webhook) (now : Z)
    (db : Store) :
  orders_step payment_flow_target (orders db)
    (orders (snd (deliver rt env w now db))).
Proof.
  destruct (verifies rt env w now) eqn:Hv.
  - rewrite (deliver_verified rt env w now db Hv).
    destruct (notice w) as [ref raw|ref raw| |]; simpl; try constructor.
    + destruct (Mongo.findOne _ _) as [p|]; [|constructor].
      destruct (PaymentStatus_eqb _ _); [|constructor].
      apply orders_step_mark_completed.
    + destruct (Mongo.findOne _ _) as [p|]; [|constructor].
      apply orders_step_mark_failed.
  - rewrite (deliver_unverified rt env w now db Hv). constructor.
Qed.

(** Every route but the admin's status update steps the orders collection
    within the payment-flow targets. *)
Lemma orders_step_handle (rt : Runtime) (env : Env) (ev : Event) (db : Store) :
  (forall now req, ev <> PUT_orders_status now req) ->
  orders_step payment_flow_target (orders db) (orders (snd (handle rt env ev db))).
Proof.
  intros Hev. destruct ev; simpl.
  - apply orders_step_createOrder.
  - now elim (Hev now req).
  - unfold createPayPalPayment.
    destruct (negb _); [constructor|].
    destruct (Mongo.findOne _ _) as [o|]; [|constructor].
    destruct (negb _); [constructor|].
    destruct (access_denied _ _); [constructor|].
    destruct paypal_createOrder as [d|]; [|constructor].
    destruct (Payment_save _ _); [constructor|]. simpl.
    apply orders_update; intros x; simpl; [reflexivity | now left].
  - unfold createNequiPayment.
    destruct (negb _); [constructor|].
    destruct (Mongo.findOne _ _) as [o|]; [|constructor].
    destruct (negb _); [constructor|].
    destruct (access_denied _ _); [constructor|].
    destruct nequi_createPaymentRequest as [d|]; [|constructor].
    destruct (Payment_save _ _); [constructor|]. simpl.
    apply orders_update; intros x; simpl; [reflexivity | now left].
  - unfold capturePayPalPayment.
    destruct (negb _); [constructor|].
    destruct paypal_captureOrder as [c|]; [|constructor].
    destruct (String.eqb _ _); [|constructor].
    destruct (Mongo.findOne _ _) as [p|]; [|constructor].
    apply orders_step_mark_completed.
  - unfold refundPayment.
    destruct (negb _); [constructor|].
    destruct (negb _); [constructor|].
    destruct (Mongo.findOne _ _) as [p|]; [|constructor].
    destruct (Payment.provider p); try constructor;
      (destruct provider_refund; [|constructor]);
      apply orders_step_mark_refunded.
  - apply (orders_step_deliver rt env (PayPalHook req)).
  - apply (orders_step_deliver rt env (NequiHook req)).
Qed.

(** C5 (as the code has it).  No request is refused for the transition it
    asks for.  An admin's status update of an existing order, asking for
    one of the seven statuses of the schema, looks at the notes of the
    request and at nothing else: with notes of at most 500 characters once
    trimmed (or none) it sets the order to the requested status, from
    whatever status the order has, and answers 200; with longer notes the
    update fails its validation, the answer is 500 and nothing is written.
    The other routes check no order status either; when one of them
    changes the status of an order, the status written is [paid],
    [cancelled] or [refunded]. *)
Theorem order_status_written (rt : Runtime) (env : Env) (db : Store) :
  (forall now req o s,
     is_admin (UpdateOrderStatusReq.user req) = true ->
     OrderStatus_of_string (UpdateOrderStatusReq.status req) = Some s ->
     Mongo.findOne (order_by_id (UpdateOrderStatusReq.id req)) (orders db) = Some o ->
     (notes_ok (UpdateOrderStatusReq.notes req) = true ->
      code (fst (updateOrderStatus now req db)) = 200 /\
      order_status_of (UpdateOrderStatusReq.id req)
        (snd (updateOrderStatus now req db)) = Some s) /\
     (notes_ok (UpdateOrderStatusReq.notes req) = false ->
      updateOrderStatus now req db
      = (res 500 (error "Failed to update order status"), db))) /\
  (forall ev oid a b,
     (forall now req, ev <> PUT_orders_status now req) ->
     order_status_of oid db = Some a ->
     order_status_of oid (snd (handle rt env ev db)) = Some b ->
     a <> b ->
     b = paid \/ b = cancelled \/ b = refunded).
Proof.
  split.
  - intros now req o s Hadm Hs Ho. unfold updateOrderStatus.
    unfold validate_updateOrderStatus. rewrite Hs, Hadm. simpl.
    split; intros Hn; rewrite Hn; simpl; [|reflexivity].
    rewrite Ho. simpl.
    split; [reflexivity|]. unfold order_status_of. simpl.
    match goal with
    | |- context [Mongo.findOne ?q (Mongo.findOneAndUpdate ?q ?u ?c)] =>
        rewrite (findOne_after_update q u c o Ho);
        [reflexivity | exact (proj1 (findOne_matches _ _ _ Ho))]
    end.
  - intros ev oid a b Hev Ha Hb Hab.
    destruct (orders_step_status _ _ _ oid a b
                (orders_step_handle rt env ev db Hev) Ha Hb) as [E|E];
      [contradiction | exact E].
Qed.

(** C5, counterexample.  ORD_1 is [refunded]; the admin's status update to
    "pending" is answered 200 and the order is [pending] again; on the
    paid ORD_1 the update to "shipped" is answered 200 as well. *)
Lemma order_status_update_counterexample :
  order_status_of "ORD_1" Sample.db_refunded = Some refunded /\
  code (fst (updateOrderStatus Sample.t0 (Sample.status_req "pending")
               Sample.db_refunded)) = 200 /\
  order_status_of "ORD_1"
    (snd (updateOrderStatus Sample.t0 (Sample.status_req "pending")
            Sample.db_refunded)) = Some pending /\
  legal_order_edge refunded pending = false /\
  order_status_of "ORD_1" Sample.db_paid = Some paid /\
  code (fst (updateOrderStatus Sample.t0 (Sample.status_req "shipped")
               Sample.db_paid)) = 200 /\
  order_status_of "ORD_1"
    (snd (updateOrderStatus Sample.t0 (Sample.status_req "shipped")
            Sample.db_paid)) = Some shipped /\
  legal_order_edge paid shipped = false.
Proof. vm_compute. repeat split. Qed.

Lemma order_status_written_witness :
  code (fst (updateOrderStatus Sample.t0 (Sample.status_req "delivered")
               Sample.db_paid)) = 200 /\
  order_status_of "ORD_1"
    (snd (updateOrderStatus Sample.t0 (Sample.status_req "delivered")
            Sample.db_paid)) = Some delivered /\
  updateOrderStatus Sample.t0 Fixture.long_notes_req Sample.db_pending
  = (res 500 (error "Failed to update order status"), Sample.db_pending) /\
  order_status_of "ORD_1"
    (snd (handle Sample.rt Sample.env
            (POST_webhooks_paypal Sample.t0 Sample.completed_hook)
            Sample.db_pending)) = Some paid /\
  (paid = paid \/ paid = cancelled \/ paid = refunded).
Proof.
  destruct (order_status_written Sample.rt Sample.env Sample.db_paid) as [Hadm _].
  destruct (order_status_written Sample.rt Sample.env Sample.db_pending)
    as [Hlong Hflow].
  destruct (Hadm Sample.t0 (Sample.status_req "delivered")
              (Sample.order_in paid pay_completed (Some "PAY_1")) delivered)
    as [Hok _]; try reflexivity.
  destruct (Hok eq_refl) as [Hc Hs].
  destruct (Hlong Sample.t0 Fixture.long_notes_req
              (Sample.order_in pending pay_pending (Some "PAY_1"))
              shipped)
    as [_ Hbad]; try reflexivity.
  split; [exact Hc|]. split; [exact Hs|]. split; [exact (Hbad eq_refl)|].
  split; [reflexivity|].
  apply (Hflow (POST_webhooks_paypal Sample.t0 Sample.completed_hook)
           "ORD_1" pending paid); [discriminate | reflexivity | reflexivity | discriminate].
Defined.

(** ** Concurrent payment creation *)

(** Run alone, the stepwise call is the handler. *)
Lemma steps_createPayPalPayment (rt : Runtime) (i : string)
    (out : option PayPalOrderData) (req : PayPalPaymentReq) (db : Store) :
  Concurrent.steps rt 4 (Concurrent.PayPalCall i out req) Concurrent.at_findOne db
  = (Concurrent.responded (fst (createPayPalPayment rt i out req db)),
     snd (createPayPalPayment rt i out req db)).
Proof.
  unfold createPayPalPayment. simpl.
  destruct (negb (validate_createPayPalPayment rt req)); [reflexivity|].
  destruct (Mongo.findOne _ _) as [o|]; [|reflexivity].
  destruct (negb (OrderStatus_eqb _ _)); [reflexivity|].
  destruct (access_denied _ _); [reflexivity|].
  destruct out as [d|]; [|reflexivity]. simpl.
  destruct (Payment_save _ _); reflexivity.
Qed.

Lemma steps_createNequiPayment (rt : Runtime) (i : string)
    (out : option NequiPaymentData) (req : NequiPaymentReq) (db : Store) :
  Concurrent.steps rt 4 (Concurrent.NequiCall i out req) Concurrent.at_findOne db
  = (Concurrent.responded (fst (createNequiPayment rt i out req db)),
     snd (createNequiPayment rt i out req db)).
Proof.
  unfold createNequiPayment. simpl.
  destruct (negb (validate_createNequiPayment rt req)); [reflexivity|].
  destruct (Mongo.findOne _ _) as [o|]; [|reflexivity].
  destruct (negb (OrderStatus_eqb _ _)); [reflexivity|].
  destruct (access_denied _ _); [reflexivity|].
  destruct out as [d|]; [|reflexivity]. simpl.
  destruct (Payment_save _ _); reflexivity.
Qed.

Lemma steps_alone (rt : Runtime) (env : Env) (c : Concurrent.Call) (db : Store) :
  Concurrent.steps rt 4 c Concurrent.at_findOne db
  = (Concurrent.responded (fst (handle rt env (Concurrent.event_of c) db)),
     snd (handle rt env (Concurrent.event_of c) db)).
Proof.
  destruct c as [i out req|i out req].
  - apply steps_createPayPalPayment.
  - apply steps_createNequiPayment.
Qed.

(** A call answered 200 when run alone is [ready], and found its order
    pending. *)
Lemma alone_ready (rt : Runtime) (c : Concurrent.Call) (db0 : Store) :
  Concurrent.succeeded (fst (Concurrent.steps rt 4 c Concurrent.at_findOne db0)) = true ->
  exists o,
    Mongo.findOne (order_by_id (Concurrent.call_order_id c)) (orders db0) = Some o /\
    good_order (Concurrent.call_order_id c) (Order.user_id o) o /\
    ready rt db0 (Concurrent.call_order_id c) (Order.user_id o) c /\
    Mongo.required (Concurrent.call_order_id c) = true.
Proof.
  simpl.
  destruct (Concurrent.call_valid rt c) eqn:Hval; simpl; [|discriminate].
  destruct (Mongo.findOne _ (orders db0)) as [o|] eqn:Ho; [|discriminate].
  destruct (OrderStatus_eqb (Order.status o) pending) eqn:Hst; simpl;
    [|discriminate].
  unfold access_denied.
  destruct (negb (is_admin _) && negb _) eqn:Hacc; [discriminate|]. simpl.
  destruct (Concurrent.call_provider c o) as [[pay ok]|] eqn:Hp; simpl.
  2:{ rewrite call_failed_code. discriminate. }
  destruct (Payment_save pay (payments db0)) as [e|ps] eqn:Hs; simpl.
  1:{ rewrite call_failed_code. discriminate. }
  intros _.
  pose proof (order_by_id_eq _ _ (proj1 (findOne_matches _ _ _ Ho))) as Hoid.
  destruct (call_provider_payment c o pay ok Hp) as (Hpi & Hpo & Hpa & _).
  destruct (Payment_save_required _ _ _ Hs) as [Rid Roid].
  destruct (Payment_save_ok _ _ _ Hs) as (_ & Fid & Hamt).
  rewrite Hpi in Rid, Fid. rewrite Hpo, Hoid in Roid. rewrite Hpa in Hamt.
  exists o. split; [reflexivity|]. split; [|split; [|exact Roid]].
  - repeat split; try assumption.
    destruct (Order.status o); (discriminate || reflexivity).
  - repeat split; try assumption.
    intros o'. destruct c as [i [d|] req|i [d|] req]; simpl in *; discriminate.
Qed.

(** Letting one call run, then the other, is one of the schedules. *)
Lemma interleave_first (rt : Runtime) (n : nat) (sched : list bool)
    (cA cB : Concurrent.Call) :
  forall pA pB db,
    Concurrent.interleave rt (repeat true n ++ sched) cA cB pA pB db
    = Concurrent.interleave rt sched cA cB
        (fst (Concurrent.steps rt n cA pA db)) pB
        (snd (Concurrent.steps rt n cA pA db)).
Proof.
  induction n as [|n IH]; intros pA pB db; simpl; [reflexivity|].
  destruct (Concurrent.step rt cA pA db) as [pA' db']. apply IH.
Qed.

Lemma interleave_second (rt : Runtime) (n : nat) (cA cB : Concurrent.Call) :
  forall pA pB db,
    Concurrent.interleave rt (repeat false n) cA cB pA pB db
    = (pA, fst (Concurrent.steps rt n cB pB db),
       snd (Concurrent.steps rt n cB pB db)).
Proof.
  induction n as [|n IH]; intros pA pB db; simpl; [reflexivity|].
  destruct (Concurrent.step rt cB pB db) as [pB' db']. apply IH.
Qed.

Lemma not_in_existsb_false {A : Type} (key : A -> string) (k : string)
    (c : list A) :
  ~ In k (map key c) -> existsb (fun d => String.eqb (key d) k) c = false.
Proof.
  induction c as [|d c IH]; simpl; [reflexivity|]. intros H.
  destruct (String.eqb_spec (key d) k) as [E|E]; [tauto|]. simpl.
  apply IH. tauto.
Qed.

Lemma filter_all_length {A : Type} (f : A -> bool) (c rows : list A) :
  (forall d, In d rows -> f d = true) ->
  (List.length rows <= List.length (filter f (c ++ rows)))%nat.
Proof.
  intros H. rewrite filter_app, length_app.
  assert (E : filter f rows = rows).
  { induction rows as [|d rows IH]; simpl; [reflexivity|].
    rewrite (H d (or_introl eq_refl)). f_equal. apply IH.
    intros x Hx. apply H. now right. }
  rewrite E. lia.
Qed.

Section Race.

Variables (rt : Runtime) (db0 : Store) (oid : string) (uid : option string).
Hypothesis oid_required : Mongo.required oid = true.

Lemma step_from_lookup (c : Concurrent.Call) (db : Store) :
  ready rt db0 oid uid c -> order_inv oid uid db ->
  exists o, good_order oid uid o /\
            Concurrent.step rt c Concurrent.at_findOne db = (Concurrent.at_provider o, db).
Proof using All.
  intros (Hc & Hval & Hacc & _) (o & Ho & Hg).
  exists o. split; [exact Hg|].
  destruct Hg as (_ & Hst & Hu & _).
  simpl. rewrite Hval, Hc, Ho, Hst. simpl.
  unfold access_denied. now rewrite Hu, Hacc.
Qed.

Lemma step_from_provider (c : Concurrent.Call) (o : Order.t) (db : Store) :
  ready rt db0 oid uid c -> good_order oid uid o ->
  exists pay ok, good_payment oid c pay /\
                 Concurrent.step rt c (Concurrent.at_provider o) db
                 = (Concurrent.at_save pay ok, db).
Proof using All.
  intros (_ & _ & _ & Hprov & _) (Hid & _ & _ & Hamt).
  simpl. destruct (Concurrent.call_provider c o) as [[pay ok]|] eqn:Hp;
    [|now elim (Hprov o)].
  exists pay, ok. split; [|reflexivity].
  destruct (call_provider_payment c o pay ok Hp) as (Hpi & Hpo & Hpa & Hps).
  repeat split; congruence.
Qed.

(** One step of a call that is on track: it stays on track, and either
    leaves the payments as they are or, at [payment.save()], appends its
    row -- the save is refused on no account of the rows already there. *)
Lemma step_on_track (c : Concurrent.Call) (p : Concurrent.Proc) (db : Store)
    (rows : list Payment.t) :
  ready rt db0 oid uid c -> order_inv oid uid db -> on_track oid uid c p ->
  payments db = (payments db0 ++ rows)%list ->
  (saved p = false -> ~ In (Concurrent.call_payment_id c) (map Payment.id rows)) ->
  order_inv oid uid (snd (Concurrent.step rt c p db)) /\
  on_track oid uid c (fst (Concurrent.step rt c p db)) /\
  ((saved (fst (Concurrent.step rt c p db)) = saved p /\
    payments (snd (Concurrent.step rt c p db)) = payments db) \/
   (saved p = false /\ saved (fst (Concurrent.step rt c p db)) = true /\
    exists pay,
      payments (snd (Concurrent.step rt c p db)) = (payments db ++ [pay])%list /\
      Payment.id pay = Concurrent.call_payment_id c /\
      Payment.order_id pay = oid /\ Payment.status pay = pay_pending)).
Proof using All.
  intros Hr Ho Ht Hp Hnew. destruct p as [|o|pay ok|pay ok|r].
  - destruct (step_from_lookup c db Hr Ho) as (o & Hg & ->). simpl.
    split; [exact Ho|]. split; [exact Hg|]. left. now split.
  - destruct (step_from_provider c o db Hr Ht) as (pay & ok & Hg & ->). simpl.
    split; [exact Ho|]. split; [exact Hg|]. left. now split.
  - destruct Ht as (Hpi & Hpo & Hpa & Hps).
    destruct Hr as (_ & _ & _ & _ & Rid & Fid).
    simpl. rewrite (Payment_save_succeeds pay (payments db)).
    + simpl. split; [exact Ho|]. split; [exact I|]. right.
      split; [reflexivity|]. split; [reflexivity|]. exists pay. now repeat split.
    + now rewrite Hpi.
    + now rewrite Hpo.
    + exact Hpa.
    + rewrite Hp, existsb_app, Hpi. unfold payment_by_id in *. rewrite Fid. simpl.
      apply (not_in_existsb_false Payment.id). now apply Hnew.
  - simpl. split; [|split; [reflexivity | left; now split]].
    destruct Ho as (o & Ho & Hg). destruct Hr as (Hc & _).
    exists (Order.set_payment_id (Payment.id pay) o). split; [|exact Hg].
    rewrite Hc. apply findOne_after_update; [exact Ho|].
    exact (proj1 (findOne_matches _ _ _ Ho)).
  - simpl. split; [exact Ho|]. split; [exact Ht|]. left. now split.
Qed.

Lemma race_step_A (cA cB : Concurrent.Call) (pA pB : Concurrent.Proc) (db : Store) :
  Concurrent.call_payment_id cA <> Concurrent.call_payment_id cB ->
  ready rt db0 oid uid cA ->
  race_inv db0 oid uid cA cB pA pB db ->
  race_inv db0 oid uid cA cB (fst (Concurrent.step rt cA pA db)) pB
    (snd (Concurrent.step rt cA pA db)).
Proof using oid_required.
  intros Hne Hr (Ho & HtA & HtB & rows & Hp & Hlen & Hrows & HnA & HnB).
  destruct (step_on_track cA pA db rows Hr Ho HtA Hp HnA)
    as (Ho' & HtA' & [[Hs Hp']|(Hs & Hs' & pay & Hp' & Hpi & Hpo & Hps)]).
  - split; [exact Ho'|]. split; [exact HtA'|]. split; [exact HtB|].
    exists rows. rewrite Hp', Hs.
    split; [exact Hp|]. split; [exact Hlen|]. split; [exact Hrows|].
    split; assumption.
  - split; [exact Ho'|]. split; [exact HtA'|]. split; [exact HtB|].
    exists (rows ++ [pay])%list. rewrite Hp', Hp, Hs', <- app_assoc.
    split; [reflexivity|]. split.
    { rewrite length_app, Hlen, Hs. simpl. lia. }
    split.
    { intros x Hx. apply in_app_or in Hx. destruct Hx as [Hx|[<-|[]]];
        [now apply Hrows | now split]. }
    split; [discriminate|].
    intros HB. rewrite map_app, in_app_iff. simpl. rewrite Hpi.
    specialize (HnB HB). tauto.
Qed.

Lemma race_step_B (cA cB : Concurrent.Call) (pA pB : Concurrent.Proc) (db : Store) :
  Concurrent.call_payment_id cA <> Concurrent.call_payment_id cB ->
  ready rt db0 oid uid cB ->
  race_inv db0 oid uid cA cB pA pB db ->
  race_inv db0 oid uid cA cB pA (fst (Concurrent.step rt cB pB db))
    (snd (Concurrent.step rt cB pB db)).
Proof using oid_required.
  intros Hne Hr (Ho & HtA & HtB & rows & Hp & Hlen & Hrows & HnA & HnB).
  destruct (step_on_track cB pB db rows Hr Ho HtB Hp HnB)
    as (Ho' & HtB' & [[Hs Hp']|(Hs & Hs' & pay & Hp' & Hpi & Hpo & Hps)]).
  - split; [exact Ho'|]. split; [exact HtA|]. split; [exact HtB'|].
    exists rows. rewrite Hp', Hs.
    split; [exact Hp|]. split; [exact Hlen|]. split; [exact Hrows|].
    split; assumption.
  - split; [exact Ho'|]. split; [exact HtA|]. split; [exact HtB'|].
    exists (rows ++ [pay])%list. rewrite Hp', Hp, Hs', <- app_assoc.
    split; [reflexivity|]. split.
    { rewrite length_app, Hlen, Hs. simpl. lia. }
    split.
    { intros x Hx. apply in_app_or in Hx. destruct Hx as [Hx|[<-|[]]];
        [now apply Hrows | now split]. }
    split; [|discriminate].
    intros HA. rewrite map_app, in_app_iff. simpl. rewrite Hpi.
    specialize (HnA HA). intros [H|[H|[]]]; [tauto | congruence].
Qed.

(** The invariant holds along every schedule. *)
Lemma race_inv_interleave (cA cB : Concurrent.Call) (sched : list bool) :
  Concurrent.call_payment_id cA <> Concurrent.call_payment_id cB ->
  ready rt db0 oid uid cA -> ready rt db0 oid uid cB ->
  forall pA pB db,
    race_inv db0 oid uid cA cB pA pB db ->
    race_inv db0 oid uid cA cB
      (fst (fst (Concurrent.interleave rt sched cA cB pA pB db)))
      (snd (fst (Concurrent.interleave rt sched cA cB pA pB db)))
      (snd (Concurrent.interleave rt sched cA cB pA pB db)).
Proof using oid_required.
  intros Hne HA HB. induction sched as [|[|] sched IH]; intros pA pB db Hinv; simpl.
  - exact Hinv.
  - pose proof (race_step_A cA cB pA pB db Hne HA Hinv) as Hs.
    destruct (Concurrent.step rt cA pA db) as [pA' db']. now apply IH.
  - pose proof (race_step_B cA cB pA pB db Hne HB Hinv) as Hs.
    destruct (Concurrent.step rt cB pB db) as [pB' db']. now apply IH.
Qed.

End Race.

(** C4 (as the code has it).  Nothing keeps an order to one open payment.
    Take two payment-creation requests for the same order, with different
    generated payment ids, each of which is answered 200 when it is served
    alone on [db0].
    - Served one after the other, both are answered 200: the second finds
      the order still pending, its pending Payment row notwithstanding, and
      [payment.save()] accepts a second row for the order.
    - Run interleaved at their [await]s under any schedule, once both have
      answered both were answered 200.
    Either way the order ends with two Payment rows in a non-terminal
    status.  The unique index on [order_id] that [PaymentSchema] asks for
    would have refused the second row; it is not in force (see
    [Payment_save]), and no handler looks for an open payment. *)
Theorem two_active_payments_for_one_order (rt : Runtime) (env : Env)
    (db0 : Store) (cA cB : Concurrent.Call) :
  Concurrent.call_order_id cA = Concurrent.call_order_id cB ->
  Concurrent.call_payment_id cA <> Concurrent.call_payment_id cB ->
  code (fst (handle rt env (Concurrent.event_of cA) db0)) = 200 ->
  code (fst (handle rt env (Concurrent.event_of cB) db0)) = 200 ->
  code (fst (handle rt env (Concurrent.event_of cB)
               (snd (handle rt env (Concurrent.event_of cA) db0)))) = 200 /\
  (2 <= List.length
          (payments_of (Concurrent.call_order_id cA) non_terminal
             (serve rt env [Concurrent.event_of cA; Concurrent.event_of cB] db0)))%nat /\
  (forall sched pA pB db,
     Concurrent.interleave rt sched cA cB
       Concurrent.at_findOne Concurrent.at_findOne db0 = (pA, pB, db) ->
     Concurrent.is_responded pA && Concurrent.is_responded pB = true ->
     Concurrent.succeeded pA && Concurrent.succeeded pB = true /\
     (2 <= List.length
             (payments_of (Concurrent.call_order_id cA) non_terminal db))%nat).
Proof.
  intros Hsame Hne HA HB.
  assert (HA' : Concurrent.succeeded
                  (fst (Concurrent.steps rt 4 cA Concurrent.at_findOne db0)) = true)
    by (rewrite (steps_alone rt env); simpl; now rewrite HA).
  assert (HB' : Concurrent.succeeded
                  (fst (Concurrent.steps rt 4 cB Concurrent.at_findOne db0)) = true)
    by (rewrite (steps_alone rt env); simpl; now rewrite HB).
  destruct (alone_ready rt cA db0 HA') as (oA & HoA & HgA & HrA & Hreq).
  destruct (alone_ready rt cB db0 HB') as (oB & HoB & _ & HrB & _).
  rewrite <- Hsame in HoB, HrB. rewrite HoB in HoA. injection HoA as ->.
  set (oid := Concurrent.call_order_id cA) in *.
  set (uid := Order.user_id oA) in *.
  assert (Hinit : race_inv db0 oid uid cA cB
                    Concurrent.at_findOne Concurrent.at_findOne db0).
  { split; [now exists oA|]. split; [exact I|]. split; [exact I|].
    exists []. rewrite app_nil_r.
    split; [reflexivity|]. split; [reflexivity|].
    split; [intros pay []|]. split; intros _ []. }
  assert (Hall : forall sched pA pB db,
     Concurrent.interleave rt sched cA cB
       Concurrent.at_findOne Concurrent.at_findOne db0 = (pA, pB, db) ->
     Concurrent.is_responded pA && Concurrent.is_responded pB = true ->
     Concurrent.succeeded pA && Concurrent.succeeded pB = true /\
     (2 <= List.length (payments_of oid non_terminal db))%nat).
  { intros sched pA pB db Hrun Hboth.
    pose proof (race_inv_interleave rt db0 oid uid Hreq cA cB sched
                  Hne HrA HrB _ _ _ Hinit) as Hinv.
    rewrite Hrun in Hinv. simpl in Hinv.
    destruct Hinv as (_ & HtA & HtB & rows & Hp & Hlen & Hrows & _).
    destruct pA as [| | | |rA], pB as [| | | |rB]; try discriminate.
    simpl in HtA, HtB, Hlen |- *. rewrite HtA, HtB. split; [reflexivity|].
    unfold payments_of. rewrite Hp.
    etransitivity; [|apply filter_all_length].
    - rewrite Hlen. simpl. lia.
    - intros d Hd. destruct (Hrows d Hd) as [Hd1 Hd2].
      unfold payment_by_order_id. now rewrite Hd1, Hd2, String.eqb_refl. }
  (* one after the other is one of the schedules *)
  pose proof (Hall (repeat true 4 ++ repeat false 4)%list) as Hseq.
  rewrite interleave_first, interleave_second in Hseq.
  rewrite (steps_alone rt env cA db0) in Hseq. cbn [fst snd] in Hseq.
  rewrite (steps_alone rt env cB) in Hseq. cbn [fst snd] in Hseq.
  destruct (Hseq _ _ _ eq_refl eq_refl) as [Hok Hrows].
  split; [|split; [exact Hrows | exact Hall]].
  simpl in Hok. apply andb_true_iff in Hok. destruct Hok as [_ Hok].
  now apply Z.eqb_eq in Hok.
Qed.

Lemma two_active_payments_for_one_order_witness :
  (* while PAY_1 is pending, a second creation for ORD_1 *)
  payment_status_of "PAY_1" Sample.db_pending = Some pay_pending /\
  code (fst (createPayPalPayment Sample.rt "PAY_2" (Some Sample.paypal_data)
               Sample.paypal_req Sample.db_pending)) = 200 /\
  (* two calls for ORD_1, one after the other and racing *)
  (2 <= List.length
          (payments_of "ORD_1" non_terminal
             (serve Sample.rt Sample.env
                [Concurrent.event_of Sample.call_A;
                 Concurrent.event_of Sample.call_B] Sample.db_fresh)))%nat /\
  Concurrent.succeeded (fst (fst Sample.race)) = true /\
  Concurrent.succeeded (snd (fst Sample.race)) = true /\
  (2 <= List.length (payments_of "ORD_1" non_terminal (snd Sample.race)))%nat.
Proof.
  destruct (two_active_payments_for_one_order Sample.rt Sample.env Sample.db_fresh
              Sample.call_A Sample.call_B)
    as (_ & Hseq & Hrace); [reflexivity | discriminate | reflexivity | reflexivity |].
  destruct (Hrace Sample.schedule
              (fst (fst Sample.race)) (snd (fst Sample.race)) (snd Sample.race))
    as [Hboth Hrows]; [reflexivity | reflexivity |].
  split; [reflexivity|]. split; [reflexivity|]. split; [exact Hseq|].
  apply andb_true_iff in Hboth. destruct Hboth as [H1 H2].
  split; [exact H1|]. split; [exact H2 | exact Hrows].
Defined.

(** ** Duplicate failure notifications *)

(** C2 (as the code has it).  The failure handlers never compare the target
    status with the current one.  A failure notification for a payment that
    is already [failed] is accepted (200) and applied again: the payment's
    [raw_response] is rewritten and its order is set to [cancelled],
    whatever the order had become since the first delivery; unless the
    order was still [cancelled], the duplicate delivery mutates the
    store. *)
Theorem failure_notice_reapplied (rt : Runtime) (env : Env) (w : Webhook)
    (now : Z) (ref : string) (raw : RawResponse) (p : Payment.t) (o : Order.t)
    (db : Store) :
  verifies rt env w now = true ->
  notice w = reports_failed ref raw ->
  Mongo.findOne (payment_by_provider_payment_id ref) (payments db) = Some p ->
  Payment.status p = pay_failed ->
  Mongo.findOne (order_by_id (Payment.order_id p)) (orders db) = Some o ->
  fst (deliver rt env w now db) = res 200 received /\
  order_status_of (Payment.order_id p) db = Some (Order.status o) /\
  order_status_of (Payment.order_id p) (snd (deliver rt env w now db))
  = Some cancelled /\
  (Order.status o <> cancelled -> snd (deliver rt env w now db) <> db).
Proof.
  intros Hv Hn Hf Hs Ho.
  assert (Hafter : order_status_of (Payment.order_id p)
                     (snd (deliver rt env w now db)) = Some cancelled).
  { rewrite (deliver_verified rt env w now db Hv), Hn. simpl. rewrite Hf. simpl.
    unfold order_status_of. simpl.
    match goal with
    | |- context [Mongo.findOne ?q (Mongo.findOneAndUpdate ?q ?u ?c)] =>
        rewrite (findOne_after_update q u c o Ho);
        [reflexivity | exact (proj1 (findOne_matches _ _ _ Ho))]
    end. }
  assert (Hbefore : order_status_of (Payment.order_id p) db = Some (Order.status o))
    by (unfold order_status_of; now rewrite Ho).
  split.
  { rewrite (deliver_verified rt env w now db Hv), Hn. simpl. now rewrite Hf. }
  split; [exact Hbefore|]. split; [exact Hafter|].
  intros Hne Heq. rewrite Heq in Hafter. congruence.
Qed.

Lemma failure_notice_reapplied_witness :
  payment_status_of "PAY_1" Sample.db_reopened = Some pay_failed /\
  order_status_of "ORD_1" Sample.db_reopened = Some pending /\
  fst (post_nequi Sample.rt Sample.env (Sample.t0 + 120000)
         Sample.nequi_failed_hook Sample.db_reopened)
  = res 200 received /\
  order_status_of "ORD_1"
    (snd (post_nequi Sample.rt Sample.env (Sample.t0 + 120000)
            Sample.nequi_failed_hook Sample.db_reopened))
  = Some cancelled /\
  snd (post_nequi Sample.rt Sample.env (Sample.t0 + 120000)
         Sample.nequi_failed_hook Sample.db_reopened)
  <> Sample.db_reopened.
Proof.
  destruct (failure_notice_reapplied Sample.rt Sample.env
              (NequiHook Sample.nequi_failed_hook) (Sample.t0 + 120000) "NQ-9"
              (raw_nequi Sample.nequi_failed_body)
              (Payment.set_raw_response (raw_nequi Sample.nequi_failed_body)
                 (Payment.set_status pay_failed
                    (Sample.nequi_payment_in pay_pending)))
              (Order.set_notes None
                 (Order.set_status pending
                    (Order.set_payment_status pay_failed
                       (Order.set_status cancelled
                          (Order.set_payment_id "PAY_1"
                             (Sample.order_in pending pay_pending None))))))
              Sample.db_reopened)
    as (Hr & Hb & Ha & Hm); try reflexivity.
  split; [reflexivity|]. split; [exact Hb|]. split; [exact Hr|].
  split; [exact Ha|]. apply Hm. discriminate.
Defined.

(** * More of the handlers *)

(** ** Webhooks that have nothing to apply *)

Lemma findOne_absent {A : Type} (q : A -> bool) (c : list A) :
  (forall x, In x c -> q x = false) -> Mongo.findOne q c = None.
Proof.
  induction c as [|x c IH]; simpl; intros H; [reflexivity|].
  rewrite (H x (or_introl eq_refl)). apply IH. intros y Hy. apply H. now right.
Qed.

Lemma no_payment_for_reference (ref : string) (db : Store) :
  (forall p, In p (payments db) -> Payment.provider_payment_id p <> Some ref) ->
  Mongo.findOne (payment_by_provider_payment_id ref) (payments db) = None.
Proof.
  intros H. apply findOne_absent. intros p Hp.
  unfold payment_by_provider_payment_id. specialize (H p Hp).
  destruct (Payment.provider_payment_id p) as [r|]; simpl; [|reflexivity].
  destruct (String.eqb_spec r ref); [congruence | reflexivity].
Qed.

(** X1. An accepted completion or failure webhook whose correlation id no
    Payment row carries is answered 200 and writes nothing: no payment is
    created for it and no order moves. *)
Theorem webhook_for_unknown_reference (rt : Runtime) (env : Env) (w : Webhook)
    (now : Z) (ref : string) (raw : RawResponse) (db : Store) :
  verifies rt env w now = true ->
  notice w = reports_completed ref raw \/ notice w = reports_failed ref raw ->
  (forall p, In p (payments db) -> Payment.provider_payment_id p <> Some ref) ->
  deliver rt env w now db = (res 200 received, db).
Proof.
  intros Hv Hn Hnone.
  rewrite (deliver_verified rt env w now db Hv).
  destruct Hn as [-> | ->]; simpl;
    now rewrite (no_payment_for_reference ref db Hnone).
Qed.

Lemma webhook_for_unknown_reference_witness :
  post_paypal Sample.env Sample.t0 Sample.completed_hook Sample.db_fresh
  = (res 200 received, Sample.db_fresh).
Proof.
  apply (webhook_for_unknown_reference Sample.rt Sample.env
           (PayPalHook Sample.completed_hook) Sample.t0 "PP-ORDER-7"
           (raw_paypal Sample.capture_resource) Sample.db_fresh).
  - reflexivity.
  - left. reflexivity.
  - intros p [].
Defined.

(** X2. An accepted webhook of any other event type than the two each
    route switches on is acknowledged with 200 and ignored: the store is
    returned as it was. *)
Theorem webhook_of_unhandled_type (rt : Runtime) (env : Env) (w : Webhook)
    (now : Z) (db : Store) :
  verifies rt env w now = true ->
  match w with
  | PayPalHook req =>
      event_type (paypal_body req) <> "PAYMENT.CAPTURE.COMPLETED" /\
      event_type (paypal_body req) <> "PAYMENT.CAPTURE.DENIED"
  | NequiHook req =>
      eventType (nequi_body req) <> "PAYMENT_COMPLETED" /\
      eventType (nequi_body req) <> "PAYMENT_FAILED"
  end ->
  deliver rt env w now db = (res 200 received, db).
Proof.
  intros Hv Hty. destruct w as [req|req]; simpl in *.
  - unfold post_paypal. rewrite Hv. simpl. destruct Hty as [H1 H2].
    apply String.eqb_neq in H1, H2. now rewrite H1, H2.
  - unfold post_nequi. rewrite Hv. simpl. destruct Hty as [H1 H2].
    apply String.eqb_neq in H1, H2. now rewrite H1, H2.
Qed.

Lemma webhook_of_unhandled_type_witness :
  post_paypal Sample.env Sample.t0
    (Sample.paypal_hook "PAYMENT.CAPTURE.REFUNDED" Sample.good_sig) Sample.db_paid
  = (res 200 received, Sample.db_paid).
Proof.
  apply (webhook_of_unhandled_type Sample.rt Sample.env
           (PayPalHook (Sample.paypal_hook "PAYMENT.CAPTURE.REFUNDED" Sample.good_sig))
           Sample.t0 Sample.db_paid).
  - reflexivity.
  - split; discriminate.
Defined.

(** X3. An accepted PayPal webhook of a handled event type that carries no
    [resource] makes the handler throw on [resource.id]: the route answers
    500 'Webhook processing failed' and the store is untouched. *)
Theorem paypal_webhook_without_resource (env : Env) (now : Z)
    (req : PayPalWebhookReq) (db : Store) :
  PayPalService.verifyWebhookSignature now (paypal_body req)
    (paypal_transmission_signature req)
    (if production env then PAYPAL_WEBHOOK_ID_LIVE env
     else PAYPAL_WEBHOOK_ID_SANDBOX env) = true ->
  event_type (paypal_body req) = "PAYMENT.CAPTURE.COMPLETED" \/
  event_type (paypal_body req) = "PAYMENT.CAPTURE.DENIED" ->
  resource (paypal_body req) = None ->
  post_paypal env now req db = (res 500 (error "Webhook processing failed"), db).
Proof.
  intros Hv Hty Hres. unfold post_paypal. rewrite Hv, Hres. simpl.
  destruct Hty as [-> | ->]; reflexivity.
Qed.

Lemma paypal_webhook_without_resource_witness :
  post_paypal Sample.env Sample.t0
    {| paypal_transmission_signature := Sample.good_sig;
       paypal_body := {| event_type := "PAYMENT.CAPTURE.DENIED"; resource := None |} |}
    Sample.db_paid
  = (res 500 (error "Webhook processing failed"), Sample.db_paid).
Proof.
  apply paypal_webhook_without_resource.
  - reflexivity.
  - right. reflexivity.
  - reflexivity.
Defined.

(** ** What no request does to stored rows *)

Lemma frozen_order_refl (o : Order.t) : frozen_order o o.
Proof. repeat split. Qed.

Lemma frozen_order_trans (a b c : Order.t) :
  frozen_order a b -> frozen_order b c -> frozen_order a c.
Proof. unfold frozen_order. intuition congruence. Qed.

Lemma frozen_payment_refl (p : Payment.t) : frozen_payment p p.
Proof. repeat split. Qed.

Lemma frozen_payment_trans (a b c : Payment.t) :
  frozen_payment a b -> frozen_payment b c -> frozen_payment a c.
Proof. unfold frozen_payment. intuition congruence. Qed.

Section RowsStep.

Context {A : Type} (R : A -> A -> Prop) (key : A -> string).
Hypothesis R_refl : forall d, R d d.
Hypothesis R_key : forall d d', R d d' -> key d' = key d.

Lemma rows_step_keys (c c' : list A) :
  rows_step R c c' -> exists added, map key c' = (map key c ++ added)%list.
Proof using R_key.
  intros [|d|q u Hu].
  - exists []. now rewrite app_nil_r.
  - exists [key d]. apply map_app.
  - exists []. rewrite app_nil_r. apply map_findOneAndUpdate.
    intros d. now apply R_key.
Qed.

Lemma rows_step_lookup (c c' : list A) (k : string) (d : A) :
  rows_step R c c' ->
  Mongo.findOne (fun x => String.eqb (key x) k) c = Some d ->
  exists d', Mongo.findOne (fun x => String.eqb (key x) k) c' = Some d' /\ R d d'.
Proof using R_refl R_key.
  intros [|x|q u Hu] Hd.
  - exists d. now split.
  - exists d. split; [now apply findOne_app_some | apply R_refl].
  - pose proof (findOne_update_cases q u (fun x => String.eqb (key x) k) c) as Hc.
    rewrite Hd in Hc.
    destruct (Mongo.findOne _ (Mongo.findOneAndUpdate q u c)) as [d'|].
    + exists d'. split; [reflexivity|].
      destruct Hc as [->|[-> _]]; [| apply R_refl | apply Hu].
      intros y. now rewrite (R_key y (u y) (Hu y)).
    + exfalso. apply Hc. intros y. now rewrite (R_key y (u y) (Hu y)).
Qed.

End RowsStep.

Ltac frozen := intros ?; repeat split.

Lemma rows_step_createOrder (rt : Runtime) (i : string)
    (req : CreateOrderReq.t) (db : Store) :
  rows_step frozen_order (orders db) (orders (snd (createOrder rt i req db))) /\
  payments (snd (createOrder rt i req db)) = payments db.
Proof.
  unfold createOrder.
  destruct (validate_createOrder rt req); simpl; [|split; [constructor|reflexivity]].
  destruct (CreateOrderReq.items req) as [|i0 rest]; [split; [constructor|reflexivity]|].
  destruct (validate_items _ _ _ _) as [msg|[subtotal validated]];
    [split; [constructor|reflexivity]|].
  destruct (Provider_of_string _) as [pm|]; [|split; [constructor|reflexivity]].
  destruct (Order_save rt _ (orders db)) as [e|os] eqn:Hs;
    [split; [constructor|reflexivity]|].
  assert (exists o, os = (orders db ++ [o])%list) as [o ->].
  { unfold Order_save in Hs.
    repeat match type of Hs with
           | (if ?b then _ else _) = _ => destruct b; [discriminate|]
           end.
    injection Hs as <-. eauto. }
  destruct (update_inventory _ _) as [[|] ps]; simpl; split;
    (constructor || reflexivity).
Qed.

Lemma rows_step_apply_notice (now : Z) (n : Notice) (db db' : Store) :
  apply_notice now n db = Some db' ->
  rows_step frozen_order (orders db) (orders db') /\
  rows_step frozen_payment (payments db) (payments db') /\
  same_keys db db' /\ products db' = products db.
Proof.
  destruct n as [ref raw|ref raw| |]; simpl; try discriminate.
  - destruct (Mongo.findOne _ _) as [p|].
    + destruct (PaymentStatus_eqb _ _); intros H; injection H as <-.
      * repeat split; try (apply rows_update; frozen);
          try (apply map_findOneAndUpdate; reflexivity).
      * repeat split; constructor.
    + intros H; injection H as <-. repeat split; constructor.
  - destruct (Mongo.findOne _ _) as [p|]; intros H; injection H as <-.
    + repeat split; try (apply rows_update; frozen);
        try (apply map_findOneAndUpdate; reflexivity).
    + repeat split; constructor.
  - intros H; injection H as <-. repeat split; constructor.
Qed.

Lemma rows_step_deliver (rt : Runtime) (env : Env) (w : Webhook) (now : Z)
    (db : Store) :
  rows_step frozen_order (orders db) (orders (snd (deliver rt env w now db))) /\
  rows_step frozen_payment (payments db) (payments (snd (deliver rt env w now db))) /\
  same_keys db (snd (deliver rt env w now db)) /\
  products (snd (deliver rt env w now db)) = products db.
Proof.
  destruct (verifies rt env w now) eqn:Hv.
  - rewrite (deliver_verified rt env w now db Hv).
    destruct (apply_notice now (notice w) db) as [db'|] eqn:Ha; simpl.
    + now apply rows_step_apply_notice with (now := now) (n := notice w).
    + repeat split; constructor.
  - rewrite (deliver_unverified rt env w now db Hv). repeat split; constructor.
Qed.

(** Every route steps both collections within what is frozen. *)
Lemma rows_step_handle (rt : Runtime) (env : Env) (ev : Event) (db : Store) :
  rows_step frozen_order (orders db) (orders (snd (handle rt env ev db))) /\
  rows_step frozen_payment (payments db) (payments (snd (handle rt env ev db))).
Proof.
  destruct ev; simpl.
  - destruct (rows_step_createOrder rt generateOrderId req db) as [H1 H2].
    split; [exact H1|]. rewrite H2. constructor.
  - unfold updateOrderStatus.
    destruct (negb (validate_updateOrderStatus req)); [split; constructor|].
    destruct (negb (is_admin _)); [split; constructor|].
    destruct (OrderStatus_of_string _); [|split; constructor].
    destruct (negb (notes_ok _)); [split; constructor|].
    destruct (Mongo.findOne _ _); [|split; constructor]. simpl.
    split; [apply rows_update; frozen | constructor].
  - unfold createPayPalPayment.
    destruct (negb _); [split; constructor|].
    destruct (Mongo.findOne _ _) as [o|]; [|split; constructor].
    destruct (negb _); [split; constructor|].
    destruct (access_denied _ _); [split; constructor|].
    destruct paypal_createOrder as [d|]; [|split; constructor].
    destruct (Payment_save _ _) as [e|ps] eqn:Hs; [split; constructor|]. simpl.
    apply Payment_save_ok in Hs. destruct Hs as (-> & _).
    split; [apply rows_update; frozen | constructor].
  - unfold createNequiPayment.
    destruct (negb _); [split; constructor|].
    destruct (Mongo.findOne _ _) as [o|]; [|split; constructor].
    destruct (negb _); [split; constructor|].
    destruct (access_denied _ _); [split; constructor|].
    destruct nequi_createPaymentRequest as [d|]; [|split; constructor].
    destruct (Payment_save _ _) as [e|ps] eqn:Hs; [split; constructor|]. simpl.
    apply Payment_save_ok in Hs. destruct Hs as (-> & _).
    split; [apply rows_update; frozen | constructor].
  - unfold capturePayPalPayment.
    destruct (negb _); [split; constructor|].
    destruct paypal_captureOrder as [c|]; [|split; constructor].
    destruct (String.eqb _ _); [|split; constructor].
    destruct (Mongo.findOne _ _) as [p|]; [|split; constructor].
    simpl. split; apply rows_update; frozen.
  - unfold refundPayment.
    destruct (negb _); [split; constructor|].
    destruct (negb _); [split; constructor|].
    destruct (Mongo.findOne _ _) as [p|]; [|split; constructor].
    destruct (Payment.provider p); try (split; constructor);
      (destruct provider_refund; [|split; constructor]);
      simpl; split; apply rows_update; frozen.
  - destruct (rows_step_deliver rt env (PayPalHook req) now db) as (H1 & H2 & _).
    now split.
  - destruct (rows_step_deliver rt env (NequiHook req) now db) as (H1 & H2 & _).
    now split.
Qed.

(** X4. No request deletes, reorders or re-keys a stored row: after any
    sequence of requests, the ids of the orders and of the payments that
    were in the store come first, in their order, among the ids stored. *)
Theorem rows_are_never_removed (rt : Runtime) (env : Env) (evs : list Event)
    (db : Store) :
  (exists added,
     map Order.id (orders (serve rt env evs db))
     = (map Order.id (orders db) ++ added)%list) /\
  (exists added,
     map Payment.id (payments (serve rt env evs db))
     = (map Payment.id (payments db) ++ added)%list).
Proof.
  revert db. induction evs as [|ev evs IH]; intros db; simpl.
  - split; exists []; now rewrite app_nil_r.
  - destruct (IH (snd (handle rt env ev db))) as [[os Ho] [ps Hp]].
    destruct (rows_step_handle rt env ev db) as [So Sp].
    apply (rows_step_keys frozen_order Order.id) in So;
      [|unfold frozen_order; tauto].
    apply (rows_step_keys frozen_payment Payment.id) in Sp;
      [|unfold frozen_payment; tauto].
    destruct So as [os' So], Sp as [ps' Sp].
    split.
    + exists (os' ++ os)%list. now rewrite Ho, So, app_assoc.
    + exists (ps' ++ ps)%list. now rewrite Hp, Sp, app_assoc.
Qed.

(** X5. What is fixed at creation stays fixed.  After any sequence of
    requests, an order that was in the store is still found under its id
    with the same customer, items, subtotal, tax, total, currency and
    payment provider; a payment that was in the store is still found under
    its id with the same order, provider, correlation id, amount and
    currency. *)
Theorem created_amounts_are_immutable (rt : Runtime) (env : Env)
    (evs : list Event) (db : Store) :
  (forall i o,
     Mongo.findOne (order_by_id i) (orders db) = Some o ->
     exists o', Mongo.findOne (order_by_id i) (orders (serve rt env evs db)) = Some o' /\
                frozen_order o o') /\
  (forall i p,
     Mongo.findOne (payment_by_id i) (payments db) = Some p ->
     exists p', Mongo.findOne (payment_by_id i) (payments (serve rt env evs db)) = Some p' /\
                frozen_payment p p').
Proof.
  revert db. induction evs as [|ev evs IH]; intros db; simpl.
  - split; intros i x Hx; exists x; split; try assumption;
      [apply frozen_order_refl | apply frozen_payment_refl].
  - destruct (IH (snd (handle rt env ev db))) as [IHo IHp].
    destruct (rows_step_handle rt env ev db) as [So Sp].
    split.
    + intros i o Ho.
      destruct (rows_step_lookup frozen_order Order.id frozen_order_refl
                  (fun d d' H => proj1 H) _ _ i o So Ho) as (o1 & Ho1 & F1).
      destruct (IHo i o1 Ho1) as (o2 & Ho2 & F2).
      exists o2. split; [exact Ho2 | now apply frozen_order_trans with o1].
    + intros i p Hp.
      destruct (rows_step_lookup frozen_payment Payment.id frozen_payment_refl
                  (fun d d' H => proj1 H) _ _ i p Sp Hp) as (p1 & Hp1 & F1).
      destruct (IHp i p1 Hp1) as (p2 & Hp2 & F2).
      exists p2. split; [exact Hp2 | now apply frozen_payment_trans with p1].
Qed.

Lemma created_amounts_are_immutable_witness :
  exists o',
    Mongo.findOne (order_by_id "ORD_1")
      (orders (serve Sample.rt Sample.env
                 [POST_payments_nequi_create "PAY_1" (Some Sample.nequi_data)
                    Sample.nequi_req;
                  POST_webhooks_nequi Sample.t0 Sample.nequi_failed_hook;
                  PUT_orders_status (Sample.t0 + 60000) (Sample.status_req "pending")]
                 Sample.db_fresh)) = Some o' /\
    Order.total_cop o' = 119000.
Proof.
  destruct (created_amounts_are_immutable Sample.rt Sample.env
              [POST_payments_nequi_create "PAY_1" (Some Sample.nequi_data)
                 Sample.nequi_req;
               POST_webhooks_nequi Sample.t0 Sample.nequi_failed_hook;
               PUT_orders_status (Sample.t0 + 60000) (Sample.status_req "pending")]
              Sample.db_fresh) as [Ho _].
  destruct (Ho "ORD_1" (Sample.order_in pending pay_pending None) eq_refl)
    as (o' & Hf & F).
  exists o'. split; [exact Hf|].
  destruct F as (_ & _ & _ & _ & _ & _ & _ & Ht & _). exact Ht.
Defined.

(** ** Payment creation, all or nothing *)

(** X6. A payment-creation request (PayPal or Nequi) either is answered
    200 and has appended exactly one Payment row -- pending, for the
    requested order, with the order's total and currency, the route's
    provider, no provider payload and no confirmation date -- and set the
    order's [payment_id] to its id; or is not answered 200 and has written
    nothing. *)
Theorem payment_creation_all_or_nothing (rt : Runtime) (env : Env) (ev : Event)
    (oid : string) (db : Store) :
  creation_order_id ev = Some oid ->
  (code (fst (handle rt env ev db)) <> 200 -> snd (handle rt env ev db) = db) /\
  (code (fst (handle rt env ev db)) = 200 ->
   exists order p,
     Mongo.findOne (order_by_id oid) (orders db) = Some order /\
     payments (snd (handle rt env ev db)) = (payments db ++ [p])%list /\
     Payment.order_id p = oid /\
     Payment.status p = pay_pending /\
     Payment.amount_cop p = Order.total_cop order /\
     Payment.currency p = Order.currency order /\
     Payment.provider p =
       match ev with POST_payments_nequi_create _ _ _ => nequi | _ => paypal end /\
     Payment.raw_response p = raw_default /\
     Payment.confirmed_at p = None /\
     orders (snd (handle rt env ev db))
     = Mongo.findOneAndUpdate (order_by_id oid)
         (Order.set_payment_id (Payment.id p)) (orders db) /\
     products (snd (handle rt env ev db)) = products db).
Proof.
  intros Hev.
  destruct ev as [| |i out req|i out req| | | |]; try discriminate; simpl in *;
    injection Hev as <-;
    [unfold createPayPalPayment | unfold createNequiPayment];
    (destruct (negb _); [split; [reflexivity|discriminate]|]);
    (destruct (Mongo.findOne _ (orders db)) as [o|] eqn:Ho;
       [|split; [reflexivity|discriminate]]);
    (destruct (negb (OrderStatus_eqb _ _)); [split; [reflexivity|discriminate]|]);
    (destruct (access_denied _ o); [split; [reflexivity|discriminate]|]);
    (destruct out as [d|]; [|split; [reflexivity|discriminate]]);
    (destruct (Payment_save _ (payments db)) as [e|ps] eqn:Hs;
       [split; [reflexivity|discriminate]|]);
    apply Payment_save_ok in Hs; destruct Hs as (-> & _);
    (split; [intros H; now elim H|]); intros _;
    eexists o, _; simpl;
    repeat (split; [reflexivity|]);
    (split; [exact (order_by_id_eq _ _ (proj1 (findOne_matches _ _ _ Ho)))|]);
    repeat (split; [reflexivity|]); reflexivity.
Qed.

Lemma payment_creation_all_or_nothing_witness :
  code (fst (createNequiPayment Sample.rt "PAY_9" None Sample.nequi_req
               Sample.db_fresh)) = 500 /\
  snd (createNequiPayment Sample.rt "PAY_9" None Sample.nequi_req Sample.db_fresh)
  = Sample.db_fresh.
Proof.
  destruct (payment_creation_all_or_nothing Sample.rt Sample.env
              (POST_payments_nequi_create "PAY_9" None Sample.nequi_req)
              "ORD_1" Sample.db_fresh eq_refl) as [Hfail _].
  split; [reflexivity|]. apply Hfail. discriminate.
Defined.

(** ** Capture, refund and webhooks touch one payment *)

Lemma findOne_other_key {A : Type} (key : A -> string) (u : A -> A)
    (k k' : string) (c : list A) :
  (forall d, key (u d) = key d) -> k <> k' ->
  Mongo.findOne (fun x => String.eqb (key x) k')
    (Mongo.findOneAndUpdate (fun x => String.eqb (key x) k) u c)
  = Mongo.findOne (fun x => String.eqb (key x) k') c.
Proof.
  intros Hu Hk. induction c as [|x c IH]; simpl; [reflexivity|].
  destruct (String.eqb_spec (key x) k) as [E|E]; simpl.
  - rewrite Hu.
    destruct (String.eqb_spec (key x) k'); [congruence | reflexivity].
  - now rewrite IH.
Qed.

(** The rows a store shares with another, all but one payment and one
    order. *)
Lemma framed_mark_completed (now : Z) (raw : RawResponse) (p : Payment.t)
    (db : Store) (i j : string) :
  (i <> Payment.id p ->
   Mongo.findOne (payment_by_id i) (payments (mark_completed now raw p db))
   = Mongo.findOne (payment_by_id i) (payments db)) /\
  (j <> Payment.order_id p ->
   Mongo.findOne (order_by_id j) (orders (mark_completed now raw p db))
   = Mongo.findOne (order_by_id j) (orders db)) /\
  products (mark_completed now raw p db) = products db.
Proof.
  unfold mark_completed; simpl. split; [|split; [|reflexivity]]; intros H.
  - apply (findOne_other_key Payment.id); [reflexivity | congruence].
  - apply (findOne_other_key Order.id); [reflexivity | congruence].
Qed.

Lemma framed_mark_failed (raw : RawResponse) (p : Payment.t)
    (db : Store) (i j : string) :
  (i <> Payment.id p ->
   Mongo.findOne (payment_by_id i) (payments (mark_failed raw p db))
   = Mongo.findOne (payment_by_id i) (payments db)) /\
  (j <> Payment.order_id p ->
   Mongo.findOne (order_by_id j) (orders (mark_failed raw p db))
   = Mongo.findOne (order_by_id j) (orders db)) /\
  products (mark_failed raw p db) = products db.
Proof.
  unfold mark_failed; simpl. split; [|split; [|reflexivity]]; intros H.
  - apply (findOne_other_key Payment.id); [reflexivity | congruence].
  - apply (findOne_other_key Order.id); [reflexivity | congruence].
Qed.

Lemma framed_mark_refunded (raw : RawResponse) (p : Payment.t)
    (db : Store) (i j : string) :
  (i <> Payment.id p ->
   Mongo.findOne (payment_by_id i) (payments (mark_refunded (Payment.id p) raw p db))
   = Mongo.findOne (payment_by_id i) (payments db)) /\
  (j <> Payment.order_id p ->
   Mongo.findOne (order_by_id j) (orders (mark_refunded (Payment.id p) raw p db))
   = Mongo.findOne (order_by_id j) (orders db)) /\
  products (mark_refunded (Payment.id p) raw p db) = products db.
Proof.
  unfold mark_refunded; simpl. split; [|split; [|reflexivity]]; intros H.
  - apply (findOne_other_key Payment.id); [reflexivity | congruence].
  - apply (findOne_other_key Order.id); [reflexivity | congruence].
Qed.

Ltac frame_with L :=
  split;
  [ intros i Hi; exact (proj1 (L i i) Hi)
  | split;
    [ intros j Hj; exact (proj1 (proj2 (L j j)) Hj)
    | exact (proj2 (proj2 (L EmptyString EmptyString))) ] ].

(** X7. A capture, a refund or a webhook either leaves the store as it was
    or touches one stored payment and the order that payment names: every
    payment with another id, every order with another id and every product
    is found as before. *)
Theorem payment_events_touch_one_payment (rt : Runtime) (env : Env)
    (ev : Event) (db : Store) :
  match ev with
  | POST_payments_paypal_capture _ _ _ | POST_payments_refund _ _
  | POST_webhooks_paypal _ _ | POST_webhooks_nequi _ _ => True
  | _ => False
  end ->
  snd (handle rt env ev db) = db \/
  exists p,
    In p (payments db) /\
    (forall i, i <> Payment.id p ->
       Mongo.findOne (payment_by_id i) (payments (snd (handle rt env ev db)))
       = Mongo.findOne (payment_by_id i) (payments db)) /\
    (forall j, j <> Payment.order_id p ->
       Mongo.findOne (order_by_id j) (orders (snd (handle rt env ev db)))
       = Mongo.findOne (order_by_id j) (orders db)) /\
    products (snd (handle rt env ev db)) = products db.
Proof.
  assert (Hdeliver : forall w now,
            snd (deliver rt env w now db) = db \/
            exists p,
              In p (payments db) /\
              (forall i, i <> Payment.id p ->
                 Mongo.findOne (payment_by_id i) (payments (snd (deliver rt env w now db)))
                 = Mongo.findOne (payment_by_id i) (payments db)) /\
              (forall j, j <> Payment.order_id p ->
                 Mongo.findOne (order_by_id j) (orders (snd (deliver rt env w now db)))
                 = Mongo.findOne (order_by_id j) (orders db)) /\
              products (snd (deliver rt env w now db)) = products db).
  { intros w now. destruct (verifies rt env w now) eqn:Hv.
    2:{ left. now rewrite (deliver_unverified rt env w now db Hv). }
    rewrite (deliver_verified rt env w now db Hv).
    destruct (notice w) as [ref raw|ref raw| |]; simpl; try (now left).
    - destruct (Mongo.findOne _ _) as [p|] eqn:Hf; [|now left].
      destruct (PaymentStatus_eqb _ _); [|now left]. simpl.
      right. exists p. split; [exact (proj2 (findOne_matches _ _ _ Hf))|].
      frame_with (framed_mark_completed now raw p db).
    - destruct (Mongo.findOne _ _) as [p|] eqn:Hf; [|now left]. simpl.
      right. exists p. split; [exact (proj2 (findOne_matches _ _ _ Hf))|].
      frame_with (framed_mark_failed raw p db). }
  destruct ev; simpl; try tauto; intros _.
  - unfold capturePayPalPayment.
    destruct (negb _); [now left|].
    destruct paypal_captureOrder as [c|]; [|now left].
    destruct (String.eqb _ _); [|now left].
    destruct (Mongo.findOne _ _) as [p|] eqn:Hf; [|now left]. simpl.
    right. exists p. split; [exact (proj2 (findOne_matches _ _ _ Hf))|].
    frame_with (framed_mark_completed now (raw_capture c) p db).
  - unfold refundPayment.
    destruct (negb _); [now left|].
    destruct (negb _); [now left|].
    destruct (Mongo.findOne _ _) as [p|] eqn:Hf; [|now left].
    pose proof (findOne_matches _ _ _ Hf) as [Hq Hin].
    apply String.eqb_eq in Hq.
    destruct (Payment.provider p); try (now left);
      (destruct provider_refund as [r|]; [|now left]); simpl;
      right; exists p; (split; [exact Hin|]); rewrite <- Hq;
      frame_with (framed_mark_refunded (raw_refund r) p db).
  - apply (Hdeliver (PayPalHook req) now).
  - apply (Hdeliver (NequiHook req) now).
Qed.

Lemma payment_events_touch_one_payment_witness :
  snd (handle Sample.rt Sample.env
         (POST_payments_refund (Some "refund-ok") Sample.refund_req) Sample.db_paid)
  = Sample.db_paid \/
  exists p,
    In p (payments Sample.db_paid) /\
    (forall i, i <> Payment.id p ->
       Mongo.findOne (payment_by_id i)
         (payments (snd (handle Sample.rt Sample.env
                           (POST_payments_refund (Some "refund-ok") Sample.refund_req)
                           Sample.db_paid)))
       = Mongo.findOne (payment_by_id i) (payments Sample.db_paid)) /\
    (forall j, j <> Payment.order_id p ->
       Mongo.findOne (order_by_id j)
         (orders (snd (handle Sample.rt Sample.env
                         (POST_payments_refund (Some "refund-ok") Sample.refund_req)
                         Sample.db_paid)))
       = Mongo.findOne (order_by_id j) (orders Sample.db_paid)) /\
    products (snd (handle Sample.rt Sample.env
                     (POST_payments_refund (Some "refund-ok") Sample.refund_req)
                     Sample.db_paid))
    = products Sample.db_paid.
Proof.
  apply (payment_events_touch_one_payment Sample.rt Sample.env
           (POST_payments_refund (Some "refund-ok") Sample.refund_req) Sample.db_paid).
  exact I.
Defined.

(** ** Synchronous capture *)

(** X8. [capturePayPalPayment] writes only when the provider answered the
    capture with status COMPLETED and a payment carries the PayPal order
    id.  A failed provider call is answered 500; any answer of the provider
    is passed on with 200, whether or not a payment was found. *)
Theorem capture_writes_only_on_completed (now : Z)
    (out : option CaptureData) (orderId : string) (db : Store) :
  validate_capturePayPalPayment orderId = true ->
  (snd (capturePayPalPayment now out orderId db) <> db ->
   exists c p, out = Some c /\ capture_status c = "COMPLETED" /\
               Mongo.findOne (payment_by_provider_payment_id orderId) (payments db)
               = Some p) /\
  (out = None ->
   capturePayPalPayment now out orderId db
   = (res 500 (error "Failed to capture PayPal payment"), db)) /\
  (forall c, out = Some c ->
             fst (capturePayPalPayment now out orderId db) = res 200 (capture_json c)).
Proof.
  intros Hval. unfold capturePayPalPayment. rewrite Hval. simpl.
  split; [|split].
  - destruct out as [c|]; [|intros H; now elim H].
    destruct (String.eqb_spec (capture_status c) "COMPLETED") as [E|E];
      [|intros H; now elim H].
    destruct (Mongo.findOne _ _) as [p|]; [|intros H; now elim H].
    intros _. now exists c, p.
  - now intros ->.
  - intros c ->. destruct (String.eqb _ _); [|reflexivity].
    destruct (Mongo.findOne _ _); reflexivity.
Qed.

Lemma capture_writes_only_on_completed_witness :
  capturePayPalPayment Sample.t0 None "PP-ORDER-7" Sample.db_pending
  = (res 500 (error "Failed to capture PayPal payment"), Sample.db_pending).
Proof.
  destruct (capture_writes_only_on_completed Sample.t0 None "PP-ORDER-7"
              Sample.db_pending eq_refl) as (_ & H & _).
  now apply H.
Defined.

(** X9. A capture answered COMPLETED for a stored payment completes it
    whatever its status was (the capture path has no pending test): the
    payment is [completed] with the capture data as [raw_response], and
    its order, if stored, is [paid] with [payment_status completed].  The
    capture time is stored on neither: the [confirmed_at] and [paid_at] of
    the update are not paths of the schemas, and the two fields stay as
    they were, as does everything fixed at creation. *)
Theorem capture_completes_the_payment (now : Z) (c : CaptureData)
    (orderId : string) (p : Payment.t) (db : Store) :
  indexes_hold db ->
  validate_capturePayPalPayment orderId = true ->
  capture_status c = "COMPLETED" ->
  Mongo.findOne (payment_by_provider_payment_id orderId) (payments db) = Some p ->
  (exists p',
     Mongo.findOne (payment_by_id (Payment.id p))
       (payments (snd (capturePayPalPayment now (Some c) orderId db))) = Some p' /\
     Payment.status p' = pay_completed /\
     Payment.raw_response p' = raw_capture c /\
     Payment.confirmed_at p' = Payment.confirmed_at p /\
     frozen_payment p p') /\
  (forall o,
     Mongo.findOne (order_by_id (Payment.order_id p)) (orders db) = Some o ->
     exists o',
       Mongo.findOne (order_by_id (Payment.order_id p))
         (orders (snd (capturePayPalPayment now (Some c) orderId db))) = Some o' /\
       Order.status o' = paid /\
       Order.payment_status o' = pay_completed /\
       Order.paid_at o' = Order.paid_at o /\
       frozen_order o o').
Proof.
  intros Hi Hval Hc Hf.
  pose proof (payment_found_by_id db orderId p Hi Hf) as Hid.
  unfold capturePayPalPayment. rewrite Hval, Hc, Hf. simpl. split.
  - eexists. split.
    + match goal with
      | |- Mongo.findOne ?q (Mongo.findOneAndUpdate ?q ?u ?l) = _ =>
          apply (findOne_after_update q u l p Hid)
      end.
      exact (proj1 (findOne_matches _ _ _ Hid)).
    + repeat split.
  - intros o Ho. eexists. split.
    + match goal with
      | |- Mongo.findOne ?q (Mongo.findOneAndUpdate ?q ?u ?l) = _ =>
          apply (findOne_after_update q u l o Ho)
      end.
      exact (proj1 (findOne_matches _ _ _ Ho)).
    + repeat split.
Qed.

Lemma capture_completes_the_payment_witness :
  payment_status_of "PAY_1"
    (snd (capturePayPalPayment (Sample.t0 + 5)
            (Some {| capture_status := "COMPLETED"; capture_rest := "{}" |})
            "PP-ORDER-7" Sample.db_pending)) = Some pay_completed /\
  order_status_of "ORD_1"
    (snd (capturePayPalPayment (Sample.t0 + 5)
            (Some {| capture_status := "COMPLETED"; capture_rest := "{}" |})
            "PP-ORDER-7" Sample.db_pending)) = Some paid /\
  option_map Payment.confirmed_at
    (Mongo.findOne (payment_by_id "PAY_1")
       (payments (snd (capturePayPalPayment (Sample.t0 + 5)
                         (Some {| capture_status := "COMPLETED";
                                  capture_rest := "{}" |})
                         "PP-ORDER-7" Sample.db_pending)))) = Some None /\
  option_map Order.paid_at
    (Mongo.findOne (order_by_id "ORD_1")
       (orders (snd (capturePayPalPayment (Sample.t0 + 5)
                       (Some {| capture_status := "COMPLETED";
                                capture_rest := "{}" |})
                       "PP-ORDER-7" Sample.db_pending)))) = Some None.
Proof.
  destruct (capture_completes_the_payment (Sample.t0 + 5)
              {| capture_status := "COMPLETED"; capture_rest := "{}" |}
              "PP-ORDER-7" (Sample.payment_in pay_pending) Sample.db_pending)
    as [(p' & Hp & Hs & _ & Hc & _) Ho];
    [solve_indexes | reflexivity | reflexivity | reflexivity |].
  destruct (Ho _ eq_refl) as (o' & Hof & Hos & _ & Hpa & _).
  pose proof (f_equal (option_map Payment.status) Hp) as Hp1.
  pose proof (f_equal (option_map Order.status) Hof) as Hof1.
  pose proof (f_equal (option_map Payment.confirmed_at) Hp) as Hp2.
  pose proof (f_equal (option_map Order.paid_at) Hof) as Hof2.
  cbn [option_map] in Hp1, Hof1, Hp2, Hof2.
  rewrite Hs in Hp1. rewrite Hos in Hof1. rewrite Hc in Hp2. rewrite Hpa in Hof2.
  split; [exact Hp1|]. split; [exact Hof1|]. split; [exact Hp2 | exact Hof2].
Defined.

(** ** Refund refusals *)

(** X10. A refund that is not answered 200 writes nothing; a caller who is
    not an admin is always refused (400 for an invalid body, else 403),
    even for a payment of their own order; and a 200 means the caller was
    an admin, the payment exists, its provider is PayPal or Nequi, and the
    provider's refund call returned. *)
Theorem refund_refusals (out : option string) (req : RefundReq) (db : Store) :
  (code (fst (refundPayment out req db)) <> 200 ->
   snd (refundPayment out req db) = db) /\
  (is_admin (rf_user req) = false ->
   (code (fst (refundPayment out req db)) = 400 \/
    code (fst (refundPayment out req db)) = 403) /\
   snd (refundPayment out req db) = db) /\
  (code (fst (refundPayment out req db)) = 200 ->
   is_admin (rf_user req) = true /\
   exists payment refundResult,
     Mongo.findOne (payment_by_id (rf_payment_id req)) (payments db) = Some payment /\
     Payment.provider payment <> manual /\
     out = Some refundResult /\
     fst (refundPayment out req db) = res 200 (refund_json refundResult)).
Proof.
  unfold refundPayment.
  destruct (validate_refundPayment req); simpl.
  2:{ split; [reflexivity|]. split; [intros _; split; [now left|reflexivity]|].
      discriminate. }
  destruct (is_admin (rf_user req)); simpl.
  2:{ split; [reflexivity|]. split; [intros _; split; [now right|reflexivity]|].
      discriminate. }
  split; [|split; [discriminate|]].
  - destruct (Mongo.findOne _ _) as [p|]; [|reflexivity].
    destruct (Payment.provider p); try reflexivity;
      (destruct out; [intros H; now elim H | reflexivity]).
  - destruct (Mongo.findOne _ _) as [p|]; [|discriminate].
    destruct (Payment.provider p) eqn:Hp; try discriminate;
      (destruct out as [r|]; [|discriminate]); intros _;
      (split; [reflexivity|]); exists p, r; repeat split; congruence.
Qed.

Lemma refund_refusals_witness :
  code (fst (refundPayment (Some "refund-ok")
               {| rf_user := Some {| userId := "u-1"; role := customer |};
                  rf_payment_id := "PAY_1"; rf_amount := None |}
               Sample.db_paid)) = 403 /\
  snd (refundPayment (Some "refund-ok")
         {| rf_user := Some {| userId := "u-1"; role := customer |};
            rf_payment_id := "PAY_1"; rf_amount := None |}
         Sample.db_paid) = Sample.db_paid.
Proof.
  destruct (refund_refusals (Some "refund-ok")
              {| rf_user := Some {| userId := "u-1"; role := customer |};
                 rf_payment_id := "PAY_1"; rf_amount := None |}
              Sample.db_paid) as (_ & H & _).
  destruct (H eq_refl) as [_ Hs]. split; [reflexivity | exact Hs].
Defined.

(** ** Order creation: refusals *)

(** Each item that passed the loop of [createOrder] names an active
    product whose stock, when it has one, covers the line. *)
Lemma validate_items_all (rt : Runtime) (ps : list Product.t)
    (items : list CreateOrderReq.item) :
  forall subtotal validated r,
    validate_items ps items subtotal validated = inr r ->
    forall item, In item items ->
      exists product,
        Mongo.findOne (active_product_by_id (CreateOrderReq.product_id item)) ps
        = Some product /\
        (forall inv, Product.inventory product = Some inv ->
                     CreateOrderReq.quantity item <= inv).
Proof.
  induction items as [|x rest IH]; intros s v r H item Hin; simpl in *; [tauto|].
  destruct (Mongo.findOne _ ps) as [product|] eqn:Hp; [|discriminate].
  destruct (Product.inventory product) as [inv|] eqn:Hinv.
  - destruct (Z.ltb_spec inv (CreateOrderReq.quantity x)); [discriminate|].
    destruct Hin as [<-|Hin]; [|now apply (IH _ _ _ H)].
    exists product. split; [exact Hp|].
    intros inv' Hinv'. rewrite Hinv in Hinv'. injection Hinv' as <-. lia.
  - destruct Hin as [<-|Hin]; [|now apply (IH _ _ _ H)].
    exists product. split; [exact Hp|]. rewrite Hinv. discriminate.
Qed.

(** X11. [createOrder] refuses with 400, writing nothing, an order with a
    line whose product is unknown or inactive, and an order with a line
    asking for more than the product's stock; and whenever it answers 400
    the store is as it was. *)
Theorem createOrder_refusals (rt : Runtime) (generateOrderId : string)
    (req : CreateOrderReq.t) (db : Store) :
  (code (fst (createOrder rt generateOrderId req db)) = 400 ->
   snd (createOrder rt generateOrderId req db) = db) /\
  (forall item,
     In item (CreateOrderReq.items req) ->
     Mongo.findOne (active_product_by_id (CreateOrderReq.product_id item))
       (products db) = None ->
     code (fst (createOrder rt generateOrderId req db)) = 400) /\
  (forall item product inv,
     In item (CreateOrderReq.items req) ->
     Mongo.findOne (active_product_by_id (CreateOrderReq.product_id item))
       (products db) = Some product ->
     Product.inventory product = Some inv ->
     inv < CreateOrderReq.quantity item ->
     code (fst (createOrder rt generateOrderId req db)) = 400).
Proof.
  unfold createOrder.
  destruct (validate_createOrder rt req); simpl;
    [|split; [reflexivity|split; reflexivity]].
  destruct (CreateOrderReq.items req) as [|i0 rest] eqn:Hitems;
    [split; [reflexivity|split; reflexivity]|].
  rewrite <- Hitems.
  destruct (validate_items (products db) (CreateOrderReq.items req) 0 [])
    as [msg|[subtotal validated]] eqn:Hv;
    [split; [reflexivity|split; reflexivity]|].
  pose proof (validate_items_all rt _ _ _ _ _ Hv) as Hall.
  split; [|split].
  - destruct (Provider_of_string _); [|discriminate].
    destruct (Order_save rt _ _); [discriminate|].
    destruct (update_inventory _ _) as [[|] ps]; discriminate.
  - intros item Hin Hnone. destruct (Hall item Hin) as (product & Hp & _).
    congruence.
  - intros item product inv Hin Hp Hinv Hlt.
    destruct (Hall item Hin) as (product' & Hp' & Hq).
    rewrite Hp in Hp'. injection Hp' as <-.
    specialize (Hq inv Hinv). lia.
Qed.

Lemma createOrder_refusals_witness :
  code (fst (createOrder Sample.rt "ORD_X"
               {| CreateOrderReq.user := None;
                  CreateOrderReq.items :=
                    [ {| CreateOrderReq.product_id := "prod-2";
                         CreateOrderReq.quantity := 4;
                         CreateOrderReq.price_cop := None |} ];
                  CreateOrderReq.user_email := None;
                  CreateOrderReq.user_phone := None;
                  CreateOrderReq.payment_method := "nequi";
                  CreateOrderReq.notes := None |}
               Sample.catalogue)) = 400 /\
  snd (createOrder Sample.rt "ORD_X"
         {| CreateOrderReq.user := None;
            CreateOrderReq.items :=
              [ {| CreateOrderReq.product_id := "prod-2";
                   CreateOrderReq.quantity := 4;
                   CreateOrderReq.price_cop := None |} ];
            CreateOrderReq.user_email := None;
            CreateOrderReq.user_phone := None;
            CreateOrderReq.payment_method := "nequi";
            CreateOrderReq.notes := None |}
         Sample.catalogue) = Sample.catalogue.
Proof.
  destruct (createOrder_refusals Sample.rt "ORD_X"
              {| CreateOrderReq.user := None;
                 CreateOrderReq.items :=
                   [ {| CreateOrderReq.product_id := "prod-2";
                        CreateOrderReq.quantity := 4;
                        CreateOrderReq.price_cop := None |} ];
                 CreateOrderReq.user_email := None;
                 CreateOrderReq.user_phone := None;
                 CreateOrderReq.payment_method := "nequi";
                 CreateOrderReq.notes := None |}
              Sample.catalogue) as (Hsame & _ & Hstock).
  assert (H400 := Hstock _ Sample.guide 3 (or_introl eq_refl) eq_refl eq_refl
                    ltac:(simpl; lia)).
  split; [exact H400 | exact (Hsame H400)].
Defined.

(** ** Order creation: stock *)

Lemma same_product_inc (q : Z) (p : Product.t) : same_product p (inc_inventory q p).
Proof. repeat split. Qed.

(** The inventory loop, when it runs to its end, takes from each product
    the quantity ordered of it and leaves the rest of the document alone;
    it cannot run to its end over a product without stock figure. *)
Lemma update_inventory_effect (validated : list OrderItem.t) :
  forall ps ps',
    update_inventory validated ps = (true, ps') ->
    forall pid p,
      Mongo.findOne (product_by_id pid) ps = Some p ->
      exists p',
        Mongo.findOne (product_by_id pid) ps' = Some p' /\
        same_product p p' /\
        Product.inventory p'
        = option_map (fun inv => inv - ordered_quantity pid validated)
            (Product.inventory p) /\
        (Product.inventory p = None -> ordered_quantity pid validated = 0).
Proof.
  induction validated as [|item rest IH]; intros ps ps' H pid p Hp; simpl in H.
  - injection H as <-. exists p. split; [exact Hp|]. split; [repeat split|].
    split; [|reflexivity]. simpl.
    destruct (Product.inventory p); simpl; [f_equal; lia | reflexivity].
  - unfold ordered_quantity; simpl; fold (ordered_quantity pid rest).
    destruct (0 <? OrderItem.quantity item) eqn:Hq; simpl.
    2:{ now apply IH with (ps := ps). }
    destruct (String.eqb_spec (OrderItem.product_id item) pid) as [E|E].
    + subst pid. unfold product_by_id in Hp |- *. unfold product_by_id in H at 1.
      unfold Mongo.findOne in H. unfold Mongo.findOne in Hp. rewrite Hp in H.
      destruct p as [pi pt pp [inv|] ps0 pa]; [|discriminate].
      match type of H with
      | update_inventory rest ?l = _ =>
          assert (Hf : Mongo.findOne
                         (fun x => String.eqb (Product.id x) (OrderItem.product_id item)) l
                       = Some (inc_inventory (OrderItem.quantity item)
                                 {| Product.id := pi; Product.title := pt;
                                    Product.price_cop := pp;
                                    Product.inventory := Some inv;
                                    Product.sku := ps0; Product.active := pa |}))
      end.
      { apply findOne_after_update; [exact Hp|].
        exact (proj1 (findOne_matches _ _ _ Hp)). }
      destruct (IH _ _ H _ _ Hf) as (p' & Hp' & Hs & Hinv & _).
      exists p'. split; [exact Hp'|]. split; [exact Hs|].
      split; [|discriminate].
      rewrite Hinv. simpl. f_equal. lia.
    + assert (Hrest : exists l,
                 update_inventory rest l = (true, ps') /\
                 Mongo.findOne (product_by_id pid) l = Some p).
      { destruct (Mongo.findOne (product_by_id (OrderItem.product_id item)) ps)
          as [[pi pt pp [inv|] ps0 pa]|] eqn:Hfi; try discriminate;
          (eexists; split; [exact H|]);
          unfold product_by_id;
          rewrite (findOne_other_key Product.id _ (OrderItem.product_id item) pid);
          (exact Hp || reflexivity || exact E). }
      destruct Hrest as (l & Hl & Hfl).
      now apply IH with (ps := l).
Qed.

Lemma ordered_is_requested (pid : string) (items : list CreateOrderReq.item)
    (added : list OrderItem.t) :
  Forall2 (fun r i => OrderItem.product_id i = CreateOrderReq.product_id r /\
                      OrderItem.quantity i = CreateOrderReq.quantity r)
          items added ->
  forallb (fun r => 1 <=? CreateOrderReq.quantity r) items = true ->
  ordered_quantity pid added = requested_quantity pid items.
Proof.
  induction 1 as [|r i items added [Hid Hq] _ IH]; simpl; intros Hall;
    [reflexivity|].
  apply andb_prop in Hall. destruct Hall as [H1 Hall].
  apply Z.leb_le in H1.
  unfold ordered_quantity, requested_quantity in *. simpl.
  rewrite Hid, Hq, (IH Hall).
  destruct (Z.ltb_spec 0 (CreateOrderReq.quantity r)); [reflexivity | lia].
Qed.

Lemma priced_lines (ps : list Product.t) (items : list CreateOrderReq.item)
    (added : list OrderItem.t) :
  Forall2 (priced_from ps) items added ->
  Forall2 (fun r i => OrderItem.product_id i = CreateOrderReq.product_id r /\
                      OrderItem.quantity i = CreateOrderReq.quantity r)
          items added.
Proof.
  induction 1 as [|r i items added (product & Hf & Hid & _ & Hq) _ IH];
    constructor; [|exact IH].
  split; [|exact Hq]. rewrite Hid.
  destruct (findOne_matches _ _ _ Hf) as [Hm _].
  unfold active_product_by_id in Hm. apply andb_prop in Hm.
  now apply String.eqb_eq.
Qed.

(** What a 201 of [createOrder] went through. *)
Lemma createOrder_201_inv (rt : Runtime) (generateOrderId : string)
    (req : CreateOrderReq.t) (db : Store) :
  code (fst (createOrder rt generateOrderId req db)) = 201 ->
  exists o added ps',
    validate_createOrder rt req = true /\
    Forall2 (priced_from (products db)) (CreateOrderReq.items req) added /\
    Order.items o = added /\
    Order.id o = generateOrderId /\
    Order.user_id o = user_userId (CreateOrderReq.user req) /\
    Order.status o = pending /\
    Order.total_cop o = Order.subtotal_cop o + Order.tax_cop o /\
    Order_save rt o (orders db) = inr (orders db ++ [o])%list /\
    update_inventory added (products db) = (true, ps') /\
    snd (createOrder rt generateOrderId req db)
    = with_products ps' (with_orders (orders db ++ [o])%list db).
Proof.
  unfold createOrder.
  destruct (validate_createOrder rt req); simpl; [|discriminate].
  destruct (CreateOrderReq.items req) as [|i0 rest] eqn:Hitems; [discriminate|].
  rewrite <- Hitems.
  destruct (validate_items (products db) (CreateOrderReq.items req) 0 [])
    as [msg|[subtotal validated]] eqn:Hv; [discriminate|].
  destruct (Provider_of_string _) as [pm|]; [|discriminate].
  destruct (Order_save rt _ (orders db)) as [e|os] eqn:Hs; [discriminate|].
  destruct (update_inventory _ _) as [[|] ps] eqn:Hu; simpl; [intros _|discriminate].
  apply (validate_items_spec rt) in Hv. destruct Hv as (added & -> & _ & Hall).
  cbn [app] in *.
  match type of Hs with
  | Order_save rt ?o _ = _ =>
      assert (Hos : os = (orders db ++ [o])%list);
      [ pose proof Hs as Hs'; unfold Order_save in Hs';
        repeat match type of Hs' with
               | (if ?b then _ else _) = _ => destruct b; [discriminate|]
               end;
        injection Hs' as <-; reflexivity
      | subst os; exists o, added, ps ]
  end.
  split; [reflexivity|]. split; [exact Hall|].
  repeat (split; [reflexivity|]).
  split; [exact Hs|]. split; [exact Hu | reflexivity].
Qed.

(** X12. When [createOrder] answers 201, every product that was in the
    catalogue is still found under its id with the same title, price, sku
    and active flag, and its stock is its old stock less the quantity the
    request asks of it over all its lines (unchanged for a product the
    request does not name). *)
Theorem createOrder_takes_stock (rt : Runtime) (generateOrderId : string)
    (req : CreateOrderReq.t) (db : Store) :
  code (fst (createOrder rt generateOrderId req db)) = 201 ->
  forall pid p,
    Mongo.findOne (product_by_id pid) (products db) = Some p ->
    exists p',
      Mongo.findOne (product_by_id pid)
        (products (snd (createOrder rt generateOrderId req db))) = Some p' /\
      same_product p p' /\
      Product.inventory p'
      = option_map
          (fun inv => inv - requested_quantity pid (CreateOrderReq.items req))
          (Product.inventory p).
Proof.
  intros H pid p Hp.
  destruct (createOrder_201_inv rt generateOrderId req db H)
    as (o & added & ps' & Hval & Hall & _ & _ & _ & _ & _ & _ & Hu & ->).
  destruct (update_inventory_effect added _ _ Hu pid p Hp)
    as (p' & Hp' & Hs & Hinv & _).
  exists p'. split; [exact Hp'|]. split; [exact Hs|].
  rewrite Hinv.
  rewrite (ordered_is_requested pid _ _ (priced_lines _ _ _ Hall)); [reflexivity|].
  unfold validate_createOrder in Hval.
  repeat (apply andb_prop in Hval; destruct Hval as [Hval ?]). assumption.
Qed.

Lemma createOrder_takes_stock_witness :
  exists p',
    Mongo.findOne (product_by_id "prod-1")
      (products (snd (createOrder Sample.rt "ORD_X" Sample.order_req Sample.catalogue)))
    = Some p' /\
    Product.inventory p' = Some 8.
Proof.
  destruct (createOrder_takes_stock Sample.rt "ORD_X" Sample.order_req
              Sample.catalogue eq_refl "prod-1" Sample.serum eq_refl)
    as (p' & Hp & _ & Hinv).
  exists p'. split; [exact Hp | exact Hinv].
Defined.

Lemma requested_quantity_ge (pid : string) (items : list CreateOrderReq.item)
    (item : CreateOrderReq.item) :
  forallb (fun r => 1 <=? CreateOrderReq.quantity r) items = true ->
  In item items -> CreateOrderReq.product_id item = pid ->
  CreateOrderReq.quantity item <= requested_quantity pid items /\
  0 <= requested_quantity pid items.
Proof.
  induction items as [|r items IH]; simpl; intros Hall Hin Hid; [tauto|].
  apply andb_prop in Hall. destruct Hall as [H1 Hall]. apply Z.leb_le in H1.
  unfold requested_quantity in *; simpl.
  assert (Hnonneg : 0 <= fold_right
                      (fun r acc => if String.eqb (CreateOrderReq.product_id r) pid
                                    then CreateOrderReq.quantity r + acc else acc)
                      0 items).
  { clear IH Hin. induction items as [|x xs IHx]; simpl; [lia|].
    simpl in Hall. apply andb_prop in Hall. destruct Hall as [Hx Hall].
    apply Z.leb_le in Hx. specialize (IHx Hall).
    destruct (String.eqb _ pid); lia. }
  destruct Hin as [->|Hin].
  - rewrite Hid, String.eqb_refl. lia.
  - destruct (IH Hall Hin Hid) as [Hle _].
    destruct (String.eqb _ pid); lia.
Qed.

(** X13. [createOrder] never answers 201 for an order with a line on a
    product whose stored [inventory] is null: the inventory loop's [$inc]
    on that product is refused, so the handler ends in its [catch]. *)
Theorem createOrder_never_201_without_stock_figure (rt : Runtime)
    (generateOrderId : string) (req : CreateOrderReq.t) (db : Store) :
  code (fst (createOrder rt generateOrderId req db)) = 201 ->
  forall item p,
    In item (CreateOrderReq.items req) ->
    Mongo.findOne (product_by_id (CreateOrderReq.product_id item)) (products db)
    = Some p ->
    Product.inventory p <> None.
Proof.
  intros H item p Hin Hp Hnone.
  destruct (createOrder_201_inv rt generateOrderId req db H)
    as (o & added & ps' & Hval & Hall & _ & _ & _ & _ & _ & _ & Hu & _).
  destruct (update_inventory_effect added _ _ Hu _ p Hp) as (_ & _ & _ & _ & Hzero).
  specialize (Hzero Hnone).
  assert (Hq : forallb (fun r => 1 <=? CreateOrderReq.quantity r)
                 (CreateOrderReq.items req) = true).
  { unfold validate_createOrder in Hval.
    repeat (apply andb_prop in Hval; destruct Hval as [Hval ?]). assumption. }
  rewrite (ordered_is_requested _ _ _ (priced_lines _ _ _ Hall) Hq) in Hzero.
  destruct (requested_quantity_ge _ _ item Hq Hin eq_refl) as [Hle _].
  assert (1 <= CreateOrderReq.quantity item).
  { rewrite forallb_forall in Hq. apply Z.leb_le. now apply Hq. }
  lia.
Qed.

Lemma createOrder_never_201_without_stock_figure_witness :
  Product.inventory Sample.serum <> None.
Proof.
  apply (createOrder_never_201_without_stock_figure Sample.rt "ORD_X"
           Sample.order_req Sample.catalogue eq_refl
           {| CreateOrderReq.product_id := "prod-1"; CreateOrderReq.quantity := 2;
              CreateOrderReq.price_cop := Some 1 |}
           Sample.serum).
  - left. reflexivity.
  - reflexivity.
Defined.

(** The same request on a catalogue whose product has no stock figure:
    the order document is saved, and the answer is 500. *)
Example createOrder_without_stock_figure_example :
  let unlimited :=
    {| Product.id := "prod-1"; Product.title := "Serum";
       Product.price_cop := 50000; Product.inventory := None;
       Product.sku := "SKU-1"; Product.active := true |} in
  let db := {| products := [unlimited; Sample.guide]; orders := []; payments := [] |} in
  code (fst (createOrder Sample.rt "ORD_X" Sample.order_req db)) = 500 /\
  map Order.id (orders (snd (createOrder Sample.rt "ORD_X" Sample.order_req db)))
  = ["ORD_X"].
Proof. vm_compute. split; reflexivity. Qed.

(** X14. The stock test of [createOrder] is per line: a 201 means that
    each line's quantity was within the stock of its product as stored
    before the request.  It does not bound the lines together. *)
Theorem createOrder_checks_stock_per_line (rt : Runtime)
    (generateOrderId : string) (req : CreateOrderReq.t) (db : Store) :
  code (fst (createOrder rt generateOrderId req db)) = 201 ->
  forall item,
    In item (CreateOrderReq.items req) ->
    exists product,
      Mongo.findOne (active_product_by_id (CreateOrderReq.product_id item))
        (products db) = Some product /\
      (forall inv, Product.inventory product = Some inv ->
                   CreateOrderReq.quantity item <= inv).
Proof.
  unfold createOrder.
  destruct (validate_createOrder rt req); simpl; [|discriminate].
  destruct (CreateOrderReq.items req) as [|i0 rest] eqn:Hitems; [discriminate|].
  rewrite <- Hitems.
  destruct (validate_items (products db) (CreateOrderReq.items req) 0 [])
    as [msg|r] eqn:Hv; [discriminate|].
  intros _. exact (validate_items_all rt _ _ _ _ _ Hv).
Qed.

Lemma createOrder_checks_stock_per_line_witness :
  code (fst (createOrder Sample.rt "ORD_X" Fixture.two_lines Sample.catalogue)) = 201 /\
  (exists product,
     Mongo.findOne (active_product_by_id "prod-2") (products Sample.catalogue)
     = Some product /\
     (forall inv, Product.inventory product = Some inv -> 2 <= inv)) /\
  option_map Product.inventory
    (Mongo.findOne (product_by_id "prod-2")
       (products (snd (createOrder Sample.rt "ORD_X" Fixture.two_lines
                         Sample.catalogue))))
  = Some (Some (-1)).
Proof.
  split; [reflexivity|]. split; [|reflexivity].
  apply (createOrder_checks_stock_per_line Sample.rt "ORD_X" Fixture.two_lines
           Sample.catalogue eq_refl
           {| CreateOrderReq.product_id := "prod-2"; CreateOrderReq.quantity := 2;
              CreateOrderReq.price_cop := None |}).
  left. reflexivity.
Defined.

(** ** The admin's status update: refusals and reach *)

(** X15. [updateOrderStatus] writes only when it answers 200.  A caller
    who is not an admin is refused with 403 (400 when the status is not one
    of the seven).  For an admin asking for one of the seven: notes longer
    than 500 characters once trimmed make the update fail its validation,
    and the answer is 500 whether or not the order exists; otherwise an
    unknown order id gives 404 and a known one 200.  A 200 touches the one
    order: its status is the one asked for and its notes are the trimmed
    notes of the request (its old notes when the request carries none);
    what was fixed at its creation and what the payment flow wrote on it
    do not change, and every other order, every payment and every product
    is as before. *)
Theorem updateOrderStatus_reach (now : Z) (req : UpdateOrderStatusReq.t)
    (db : Store) :
  (code (fst (updateOrderStatus now req db)) <> 200 ->
   snd (updateOrderStatus now req db) = db) /\
  (is_admin (UpdateOrderStatusReq.user req) = false ->
   code (fst (updateOrderStatus now req db)) = 400 \/
   code (fst (updateOrderStatus now req db)) = 403) /\
  (is_admin (UpdateOrderStatusReq.user req) = true ->
   validate_updateOrderStatus req = true ->
   (notes_ok (UpdateOrderStatusReq.notes req) = false ->
    fst (updateOrderStatus now req db)
    = res 500 (error "Failed to update order status")) /\
   (notes_ok (UpdateOrderStatusReq.notes req) = true ->
    Mongo.findOne (order_by_id (UpdateOrderStatusReq.id req)) (orders db) = None ->
    fst (updateOrderStatus now req db) = res 404 (error "Order not found")) /\
   (notes_ok (UpdateOrderStatusReq.notes req) = true ->
    Mongo.findOne (order_by_id (UpdateOrderStatusReq.id req)) (orders db) <> None ->
    code (fst (updateOrderStatus now req db)) = 200)) /\
  (code (fst (updateOrderStatus now req db)) = 200 ->
   payments (snd (updateOrderStatus now req db)) = payments db /\
   products (snd (updateOrderStatus now req db)) = products db /\
   (forall j, j <> UpdateOrderStatusReq.id req ->
      Mongo.findOne (order_by_id j) (orders (snd (updateOrderStatus now req db)))
      = Mongo.findOne (order_by_id j) (orders db)) /\
   exists o o',
     Mongo.findOne (order_by_id (UpdateOrderStatusReq.id req)) (orders db) = Some o /\
     Mongo.findOne (order_by_id (UpdateOrderStatusReq.id req))
       (orders (snd (updateOrderStatus now req db))) = Some o' /\
     fst (updateOrderStatus now req db) = res 200 (order_json o') /\
     OrderStatus_of_string (UpdateOrderStatusReq.status req) = Some (Order.status o') /\
     Order.notes o'
     = match UpdateOrderStatusReq.notes req with
       | Some n => Some (JS.trim n)
       | None => Order.notes o
       end /\
     notes_maxlength (option_map JS.trim (UpdateOrderStatusReq.notes req)) = true /\
     frozen_order o o' /\
     Order.payment_id o' = Order.payment_id o /\
     Order.payment_status o' = Order.payment_status o /\
     Order.paid_at o' = Order.paid_at o).
Proof.
  unfold updateOrderStatus, validate_updateOrderStatus.
  destruct (OrderStatus_of_string (UpdateOrderStatusReq.status req)) as [s|]; simpl.
  2:{ repeat split; try reflexivity; try discriminate. now left. }
  destruct (is_admin (UpdateOrderStatusReq.user req)); simpl.
  2:{ repeat split; try reflexivity; try discriminate. now right. }
  destruct (notes_ok (UpdateOrderStatusReq.notes req)) eqn:Hnotes; simpl.
  2:{ repeat split; try reflexivity; try discriminate. }
  destruct (Mongo.findOne _ (orders db)) as [o|] eqn:Ho; simpl.
  2:{ split; [intros _; reflexivity|]. split; [discriminate|].
      split; [|discriminate]. intros _ _. split; [discriminate|].
      split; [reflexivity|]. intros _ H. now elim H. }
  split; [intros H; now elim H|]. split; [discriminate|].
  split; [intros _ _; repeat split; discriminate|]. intros _.
  split; [reflexivity|]. split; [reflexivity|]. split.
  - intros j Hj. apply (findOne_other_key Order.id); [reflexivity | congruence].
  - eexists o, _. split; [reflexivity|]. split.
    + match goal with
      | |- Mongo.findOne ?q (Mongo.findOneAndUpdate ?q ?u ?l) = _ =>
          apply (findOne_after_update q u l o Ho)
      end.
      exact (proj1 (findOne_matches _ _ _ Ho)).
    + split; [reflexivity|]. split; [reflexivity|]. split; [reflexivity|].
      split; [exact Hnotes|]. repeat split.
Qed.

Lemma updateOrderStatus_reach_witness :
  code (fst (updateOrderStatus Sample.t0
               {| UpdateOrderStatusReq.user := Some Fixture.a_customer;
                  UpdateOrderStatusReq.id := "ORD_1";
                  UpdateOrderStatusReq.status := "paid";
                  UpdateOrderStatusReq.notes := None |}
               Sample.db_pending)) = 403 /\
  snd (updateOrderStatus Sample.t0
         {| UpdateOrderStatusReq.user := Some Fixture.a_customer;
            UpdateOrderStatusReq.id := "ORD_1";
            UpdateOrderStatusReq.status := "paid";
            UpdateOrderStatusReq.notes := None |}
         Sample.db_pending) = Sample.db_pending /\
  fst (updateOrderStatus Sample.t0 Fixture.long_notes_req Sample.db_pending)
  = res 500 (error "Failed to update order status") /\
  code (fst (updateOrderStatus Sample.t0 Fixture.padded_notes_req Sample.db_pending))
  = 200.
Proof.
  destruct (updateOrderStatus_reach Sample.t0
              {| UpdateOrderStatusReq.user := Some Fixture.a_customer;
                 UpdateOrderStatusReq.id := "ORD_1";
                 UpdateOrderStatusReq.status := "paid";
                 UpdateOrderStatusReq.notes := None |}
              Sample.db_pending) as (Hsame & _).
  destruct (updateOrderStatus_reach Sample.t0 Fixture.long_notes_req
              Sample.db_pending) as (_ & _ & Hlong & _).
  destruct (updateOrderStatus_reach Sample.t0 Fixture.padded_notes_req
              Sample.db_pending) as (_ & _ & Hpad & _).
  split; [reflexivity|]. split; [apply Hsame; discriminate|]. split.
  - destruct (Hlong eq_refl eq_refl) as (H & _). apply H. reflexivity.
  - destruct (Hpad eq_refl eq_refl) as (_ & _ & H). apply H; [reflexivity|].
    discriminate.
Defined.

(** ** From order creation to payment creation *)

Lemma Order_save_ok (rt : Runtime) (o : Order.t) (c c' : list Order.t) :
  Order_save rt o c = inr c' ->
  Mongo.required (Order.id o) = true /\
  0 <= Order.total_cop o /\
  existsb (order_by_id (Order.id o)) c = false.
Proof.
  unfold Order_save.
  destruct (Mongo.required (Order.id o)); simpl; [|discriminate].
  destruct (negb (optional _ _)); [discriminate|].
  destruct (negb (forallb _ _)); [discriminate|].
  destruct (_ <? 0); [discriminate|].
  destruct (_ <? 0); [discriminate|].
  destruct (Z.ltb_spec (Order.total_cop o) 0); [discriminate|].
  destruct (negb (notes_maxlength _)); [discriminate|].
  destruct (existsb _ c); [discriminate|]. intros _. now repeat split.
Qed.

Lemma strict_eq_refl (a : option string) : JS.strict_eq a a = true.
Proof. destruct a; simpl; [apply String.eqb_refl | reflexivity]. Qed.

(** X16. An order that [createOrder] has just answered 201 for can be paid
    for at once by the caller who placed it: a PayPal creation request for
    the generated order id, with a valid body, a provider answer and a
    payment id not in use, is answered 200; the Payment row is pending for
    the order's total (subtotal plus tax) and the order, still pending,
    carries the payment's id. *)
Theorem order_then_payment (rt : Runtime) (generateOrderId : string)
    (oreq : CreateOrderReq.t) (db : Store)
    (generatePaymentId : string) (data : PayPalOrderData) (preq : PayPalPaymentReq) :
  code (fst (createOrder rt generateOrderId oreq db)) = 201 ->
  validate_createPayPalPayment rt preq = true ->
  pp_order_id preq = generateOrderId ->
  pp_user preq = CreateOrderReq.user oreq ->
  Mongo.required generatePaymentId = true ->
  existsb (payment_by_id generatePaymentId) (payments db) = false ->
  fst (createPayPalPayment rt generatePaymentId (Some data) preq
         (snd (createOrder rt generateOrderId oreq db)))
  = res 200 (paypal_payment_json (orderID data) (approvalUrl data)) /\
  exists o p,
    Mongo.findOne (order_by_id generateOrderId)
      (orders (snd (createPayPalPayment rt generatePaymentId (Some data) preq
                      (snd (createOrder rt generateOrderId oreq db))))) = Some o /\
    Order.status o = pending /\
    Order.payment_id o = Some generatePaymentId /\
    Order.total_cop o = Order.subtotal_cop o + Order.tax_cop o /\
    Mongo.findOne (payment_by_id generatePaymentId)
      (payments (snd (createPayPalPayment rt generatePaymentId (Some data) preq
                        (snd (createOrder rt generateOrderId oreq db))))) = Some p /\
    Payment.order_id p = generateOrderId /\
    Payment.status p = pay_pending /\
    Payment.amount_cop p = Order.total_cop o.
Proof.
  intros H201 Hval Hoid Huser Hreq Hfresh.
  destruct (createOrder_201_inv rt generateOrderId oreq db H201)
    as (o & added & ps' & _ & _ & _ & Hid & Hu & Hst & Htot & Hsave & _ & ->).
  destruct (Order_save_ok rt o _ _ Hsave) as (Rid & Hamt & Hnew).
  rewrite Hid in Rid, Hnew.
  assert (Ho : Mongo.findOne (order_by_id generateOrderId) (orders db ++ [o])%list
               = Some o).
  { apply find_snoc; [now apply existsb_false_all|].
    unfold order_by_id. rewrite Hid. apply String.eqb_refl. }
  unfold createPayPalPayment. rewrite Hval, Hoid. simpl.
  rewrite Ho, Hst. simpl.
  unfold access_denied. rewrite Hu, Huser, strict_eq_refl, andb_false_r.
  rewrite (Payment_save_succeeds (new_Payment generatePaymentId o paypal (orderID data))
             (payments db)); simpl; try assumption; try (now rewrite Hid).
  split; [reflexivity|].
  exists (Order.set_payment_id generatePaymentId o),
         (new_Payment generatePaymentId o paypal (orderID data)).
  split.
  { apply findOne_after_update; [exact Ho|].
    exact (proj1 (findOne_matches _ _ _ Ho)). }
  split; [exact Hst|]. split; [reflexivity|]. split; [exact Htot|].
  split.
  { apply find_snoc; [now apply existsb_false_all|].
    unfold payment_by_id. simpl. apply String.eqb_refl. }
  split; [exact Hid|]. split; reflexivity.
Qed.

Lemma order_then_payment_witness :
  fst (createPayPalPayment Sample.rt "PAY_77" (Some Sample.paypal_data)
         Fixture.customer_payment
         (snd (createOrder Sample.rt "ORD_77" Fixture.customer_order Sample.catalogue)))
  = res 200 (paypal_payment_json "PP-ORDER-7" (Some "https://paypal.test/approve")).
Proof.
  apply (order_then_payment Sample.rt "ORD_77" Fixture.customer_order
           Sample.catalogue "PAY_77" Sample.paypal_data Fixture.customer_payment);
    reflexivity.
Defined.

(** ** The token cache at its edges *)

(** X17. When the token request fails in a call that needed one, the call
    fails with the service's authentication error and the cache is left as
    it was, so the next call asks the provider again. *)
Theorem token_request_failure (now : Z) (this : ServiceState) :
  cached_token_valid now this = false ->
  PayPalService.getAccessToken now None this
  = (inl "Failed to authenticate with PayPal", this) /\
  NequiService.getAccessToken now None this
  = (inl "Failed to authenticate with Nequi", this) /\
  (forall data t,
     fst (PayPalService.getAccessToken now (Some (data, t))
            (snd (PayPalService.getAccessToken now None this)))
     = inr (access_token data)) /\
  (forall data t,
     fst (NequiService.getAccessToken now (Some (data, t))
            (snd (NequiService.getAccessToken now None this)))
     = inr (access_token data)).
Proof.
  intros Hc. unfold PayPalService.getAccessToken, NequiService.getAccessToken.
  rewrite Hc. simpl. rewrite Hc. repeat split.
Qed.

Lemma token_request_failure_witness :
  PayPalService.getAccessToken Sample.t0 None new_Service
  = (inl "Failed to authenticate with PayPal", new_Service).
Proof.
  destruct (token_request_failure Sample.t0 new_Service eq_refl) as [H _].
  exact H.
Defined.

(** X18. The recorded expiry is a deadline: a cache that serves its token
    at some time serves it at every earlier time, and one that does not
    never does later.  A token the provider grants for 1800 seconds or less
    is therefore never served from the cache: every call from its issuance
    on asks the provider again. *)
Theorem token_expiry_is_a_deadline
    (get : Z -> option (TokenResponse * Z) -> ServiceState ->
           (string + string) * ServiceState)
    (this : ServiceState) :
  In get [PayPalService.getAccessToken; NequiService.getAccessToken] ->
  (forall now now', now' <= now ->
     cached_token_valid now this = true -> cached_token_valid now' this = true) /\
  (forall now0 t data now,
     cached_token_valid now0 this = false ->
     expires_in data <= 1800 -> t <= now ->
     cached_token_valid now (snd (get now0 (Some (data, t)) this)) = false /\
     forall data' t',
       fst (get now (Some (data', t')) (snd (get now0 (Some (data, t)) this)))
       = inr (access_token data')).
Proof.
  intros Hget. split.
  - intros now now' Hle. unfold cached_token_valid.
    destruct (JS.truthy (accessToken this)); simpl; [|discriminate].
    destruct (tokenExpiry this) as [e|]; [|discriminate].
    rewrite !Z.ltb_lt. lia.
  - intros now0 t data now Hmiss Hexp Hle.
    rewrite (refresh_records_expiry get now0 t data this Hget Hmiss). simpl.
    assert (Hc : cached_token_valid now
                   {| accessToken := Some (access_token data);
                      tokenExpiry := Some (t + (expires_in data - 1800) * 1000) |}
                 = false).
    { unfold cached_token_valid. simpl.
      destruct (Z.ltb_spec now (t + (expires_in data - 1800) * 1000));
        [lia | apply andb_false_r]. }
    split; [exact Hc|]. intros data' t'.
    now rewrite (refresh_records_expiry get now t' data' _ Hget Hc).
Qed.

Lemma token_expiry_is_a_deadline_witness :
  cached_token_valid 1000000
    (snd (NequiService.getAccessToken 1000000
            (Some ({| access_token := "tok"; expires_in := 1800 |}, 1000000))
            new_Service)) = false.
Proof.
  destruct (token_expiry_is_a_deadline NequiService.getAccessToken new_Service)
    as [_ H]; [right; left; reflexivity|].
  destruct (H 1000000 1000000 {| access_token := "tok"; expires_in := 1800 |} 1000000)
    as [Hc _]; [reflexivity | simpl; lia | lia |].
  exact Hc.
Defined.

(** ** Webhook signatures *)

Lemma number_toString_inj (a b : Z) :
  0 <= a -> 0 <= b -> JS.number_toString a = JS.number_toString b -> a = b.
Proof.
  intros Ha Hb H. unfold JS.number_toString in H.
  assert (Hnn : forall n, N.to_uint n <> Decimal.Nil).
  { intros [|p]; simpl; [discriminate | apply DecimalPos.Unsigned.to_uint_nonnil]. }
  apply (f_equal NilZero.uint_of_string) in H.
  rewrite !NilZero.usu in H by apply Hnn.
  injection H as H. apply DecimalN.Unsigned.to_uint_inj in H.
  apply (f_equal Z.of_N) in H. rewrite !Z2N.id in H by assumption. exact H.
Qed.

(** X19. The PayPal check compares the header with a placeholder made of
    the clock alone.  A given signature header is therefore accepted at one
    millisecond at most, and whether it is accepted depends neither on the
    body nor on the webhook id. *)
Theorem paypal_signature_is_the_clock (now now' : Z) (body body' : PayPalBody)
    (signature : option string) (webhookId webhookId' : option string) :
  0 <= now -> 0 <= now' ->
  PayPalService.verifyWebhookSignature now body signature webhookId = true ->
  (PayPalService.verifyWebhookSignature now' body signature webhookId = true ->
   now' = now) /\
  PayPalService.verifyWebhookSignature now body' signature webhookId' = true /\
  signature = Some ("placeholder-signature-" ++ JS.number_toString now).
Proof.
  intros Hn Hn' Hv. unfold PayPalService.verifyWebhookSignature in *.
  unfold PayPalService.generateWebhookSignature in *.
  destruct signature as [s|]; simpl in *; [|discriminate].
  apply String.eqb_eq in Hv. subst s.
  split; [|split; [apply String.eqb_refl | reflexivity]].
  intros Hv'. apply String.eqb_eq in Hv'.
  injection Hv' as Hv'. symmetry. now apply number_toString_inj.
Qed.

Lemma paypal_signature_is_the_clock_witness :
  PayPalService.verifyWebhookSignature Sample.t0
    {| event_type := "ANYTHING"; resource := None |} Sample.good_sig None = true.
Proof.
  destruct (paypal_signature_is_the_clock Sample.t0 (Sample.t0 + 1)
              (paypal_body Sample.completed_hook)
              {| event_type := "ANYTHING"; resource := None |}
              Sample.good_sig (Some "WH-SANDBOX") None)
    as (_ & H & _); [unfold Sample.t0; lia | unfold Sample.t0; lia | reflexivity |].
  exact H.
Defined.

(** X20. The Nequi check accepts exactly the HMAC of the serialized body
    followed by the timestamp header.  A request without signature header
    is rejected; an unset and an empty NEQUI_WEBHOOK_SECRET both sign with
    'fallback-secret'; and a request without timestamp header is checked
    against the body followed by the text "undefined". *)
Theorem nequi_signature_check (hmac : string -> string -> string)
    (stringify : NequiBody -> string) (secret : option string)
    (payload : NequiBody) (signature timestamp : option string) :
  (NequiService.verifyWebhookSignature hmac stringify secret payload signature timestamp
   = true <->
   signature = Some (NequiService.generateWebhookSignature hmac stringify secret
                       payload timestamp)) /\
  NequiService.verifyWebhookSignature hmac stringify secret payload None timestamp
  = false /\
  NequiService.generateWebhookSignature hmac stringify (Some "") payload timestamp
  = NequiService.generateWebhookSignature hmac stringify None payload timestamp /\
  NequiService.generateWebhookSignature hmac stringify None payload timestamp
  = NequiService.generateWebhookSignature hmac stringify (Some "fallback-secret")
      payload timestamp /\
  NequiService.generateWebhookSignature hmac stringify secret payload None
  = hmac (JS.or_else secret "fallback-secret") (stringify payload ++ "undefined").
Proof.
  split; [|repeat split].
  unfold NequiService.verifyWebhookSignature.
  destruct signature as [s|]; simpl.
  - rewrite String.eqb_eq. split; [now intros -> | now intros [= ->]].
  - split; discriminate.
Qed.

(** ** Tax *)

(** X21. [calculateTax] at the default rate, on subtotals from 0 to below
    2^48: the double product rounds as exact arithmetic does, so the tax is
    19% of the subtotal rounded to the nearest peso, halves going up; it
    grows with the subtotal, is within half a peso of 19% of it, and lies
    between 0 and the subtotal.  The bound is not idle: at
    800000000000071 the double product rounds up to a half, and the tax is
    one peso more than 19% of the subtotal rounds to. *)
Theorem calculateTax_rounding (subtotal subtotal' : Z) :
  0 <= subtotal -> subtotal <= subtotal' -> subtotal' < 2 ^ 48 ->
  calculateTax subtotal default_taxRate = (19 * subtotal + 50) / 100 /\
  calculateTax subtotal default_taxRate <= calculateTax subtotal' default_taxRate /\
  19 * subtotal - 50 < 100 * calculateTax subtotal default_taxRate
                     <= 19 * subtotal + 50 /\
  0 <= calculateTax subtotal default_taxRate <= subtotal /\
  calculateTax 800000000000071 default_taxRate
  = (19 * 800000000000071 + 50) / 100 + 1.
Proof.
  intros H0 Hle Hb.
  rewrite (calculateTax_default subtotal), (calculateTax_default subtotal') by lia.
  pose proof (Z.div_mod (19 * subtotal + 50) 100 ltac:(lia)).
  pose proof (Z.mod_pos_bound (19 * subtotal + 50) 100 ltac:(lia)).
  split; [reflexivity|]. split; [apply Z.div_le_mono; lia|].
  split; [lia|]. split; [lia|]. vm_compute. reflexivity.
Qed.

Lemma calculateTax_rounding_witness :
  calculateTax 112350 default_taxRate = 21347 /\
  calculateTax 112350 default_taxRate <= calculateTax 112351 default_taxRate.
Proof.
  destruct (calculateTax_rounding 112350 112351) as (H1 & H2 & _);
    [lia | lia | reflexivity |].
  split; [exact H1 | exact H2].
Defined.

(** ** Escaping *)

Lemma sanitizeHtml_cons (a : ascii) (text : string) :
  sanitizeHtml (String a text) = escape a ++ sanitizeHtml text.
Proof.
  unfold sanitizeHtml, escape, quot, apos.
  destruct a as [[] [] [] [] [] [] [] []]; reflexivity.
Qed.

Lemma sanitizeHtml_escape_each (text : string) :
  sanitizeHtml text = escape_each text.
Proof.
  induction text as [|a text IH]; [reflexivity|].
  rewrite sanitizeHtml_cons. simpl. now rewrite IH.
Qed.

Lemma occurs_app (c : ascii) (s t : string) :
  occurs c (s ++ t) = occurs c s || occurs c t.
Proof.
  induction s as [|a s IH]; simpl; [reflexivity|].
  rewrite IH. apply orb_assoc.
Qed.

Lemma escape_clean (c a : ascii) :
  In c ["<"%char; ">"%char; quot; apos; "/"%char] -> occurs c (escape a) = false.
Proof.
  intros Hc. unfold escape.
  repeat match goal with
         | |- context [Ascii.eqb a ?x] => destruct (Ascii.eqb_spec a x); [subst a|]
         end.
  1-6: simpl in Hc; unfold quot, apos in *;
       repeat destruct Hc as [<- | Hc]; try reflexivity; contradiction.
  simpl. rewrite orb_false_r. apply Ascii.eqb_neq.
  simpl in Hc. repeat destruct Hc as [<- | Hc]; try assumption; contradiction.
Qed.

(** X22. Replacing the six characters one after the other, the ampersand
    first, escapes every character of the input exactly once: the result is
    the input with each character replaced by its entity.  It holds no
    angle bracket, no double or single quote and no slash. *)
Theorem sanitizeHtml_escapes_each_character (text : string) (c : ascii) :
  In c ["<"%char; ">"%char; quot; apos; "/"%char] ->
  sanitizeHtml text = escape_each text /\
  occurs c (sanitizeHtml text) = false.
Proof.
  intros Hc. split; [apply sanitizeHtml_escape_each|].
  rewrite sanitizeHtml_escape_each.
  induction text as [|a text IH]; [reflexivity|].
  simpl. rewrite occurs_app, IH, orb_false_r. now apply escape_clean.
Qed.

Lemma sanitizeHtml_escapes_each_character_witness :
  sanitizeHtml "<a href='/x?a=1&b=2'>" = escape_each "<a href='/x?a=1&b=2'>" /\
  occurs "<" (sanitizeHtml "<a href='/x?a=1&b=2'>") = false.
Proof.
  apply (sanitizeHtml_escapes_each_character "<a href='/x?a=1&b=2'>" "<"%char).
  left. reflexivity.
Defined.

Lemma escape_cases (a : ascii) :
  (escape a = String a EmptyString /\ plain (String a EmptyString) = true) \/
  (plain (String a EmptyString) = false /\
   exists b rest, escape a = String "&" (String b rest) /\
     (a = "&"%char /\ b = "a"%char /\ rest = "mp;" \/
      a = "<"%char /\ b = "l"%char /\ rest = "t;" \/
      a = ">"%char /\ b = "g"%char /\ rest = "t;" \/
      a = quot /\ b = "q"%char /\ rest = "uot;" \/
      a = apos /\ b = "#"%char /\ rest = "x27;" \/
      a = "/"%char /\ b = "#"%char /\ rest = "x2F;")).
Proof.
  unfold escape, plain, quot, apos.
  destruct a as [[] [] [] [] [] [] [] []]; try (left; split; reflexivity);
    right; (split; [reflexivity|]); do 2 eexists; (split; [reflexivity|]); tauto.
Qed.

Lemma escape_step (a1 a2 : ascii) (t1 t2 : string) :
  escape a1 ++ t1 = escape a2 ++ t2 -> a1 = a2 /\ t1 = t2.
Proof.
  intros H.
  destruct (escape_cases a1) as [[E1 P1] | [P1 (b1 & r1 & E1 & C1)]];
    destruct (escape_cases a2) as [[E2 P2] | [P2 (b2 & r2 & E2 & C2)]];
    rewrite E1, E2 in H; simpl in H.
  - now injection H.
  - injection H as Ha _. subst a1. discriminate P1.
  - injection H as Ha _. subst a2. discriminate P2.
  - injection H as Hb Hr.
    unfold quot, apos in *.
    repeat match goal with
           | H : _ \/ _ |- _ => destruct H
           | H : _ /\ _ |- _ => destruct H
           end; subst; try discriminate;
      try (split; [reflexivity|]); simpl in *; try congruence;
      try (injection Hr; congruence).
Qed.

Lemma escape_each_inj (s t : string) :
  escape_each s = escape_each t -> s = t.
Proof.
  revert t. induction s as [|a s IH]; intros [|b t] H; simpl in H.
  - reflexivity.
  - exfalso. destruct (escape_cases b) as [[E _] | [_ (x & r & E & _)]];
      rewrite E in H; discriminate H.
  - exfalso. destruct (escape_cases a) as [[E _] | [_ (x & r & E & _)]];
      rewrite E in H; discriminate H.
  - apply escape_step in H as [-> H]. f_equal. now apply IH.
Qed.

Lemma length_append (s t : string) :
  String.length (s ++ t) = (String.length s + String.length t)%nat.
Proof. induction s as [|a s IH]; simpl; [reflexivity | now rewrite IH]. Qed.

Lemma escape_each_length (t : string) :
  (String.length t <= String.length (escape_each t))%nat.
Proof.
  induction t as [|a t IH]; simpl; [lia|].
  rewrite length_append.
  destruct (escape_cases a) as [[E _] | [_ (x & r & E & _)]]; rewrite E; simpl; lia.
Qed.

Lemma plain_cons (a : ascii) (t : string) :
  plain (String a t) = plain (String a EmptyString) && plain t.
Proof.
  unfold plain. simpl.
  repeat match goal with
         | |- context [Ascii.eqb a ?x] => destruct (Ascii.eqb a x)
         end; simpl; try reflexivity;
    repeat match goal with
           | |- context [occurs ?c t] => destruct (occurs c t)
           end; reflexivity.
Qed.

Lemma escape_each_fixed (t : string) :
  escape_each t = t <-> plain t = true.
Proof.
  induction t as [|a t IH]; [split; reflexivity|].
  rewrite plain_cons, andb_true_iff. simpl.
  destruct (escape_cases a) as [[E P] | [P (x & r & E & _)]]; rewrite E, P.
  - simpl. rewrite <- IH. split; [intros [= H]; tauto | intros [_ H]; now rewrite H].
  - split; [|intros [H _]; discriminate H].
    intros H. exfalso. apply (f_equal String.length) in H. simpl in H.
    pose proof (escape_each_length t). rewrite length_append in H. lia.
Qed.

(** X23. Escaping loses nothing: two texts that are escaped to the same
    text are the same text. *)
Theorem sanitizeHtml_injective (s t : string) :
  sanitizeHtml s = sanitizeHtml t -> s = t.
Proof.
  rewrite !sanitizeHtml_escape_each. apply escape_each_inj.
Qed.

Lemma sanitizeHtml_injective_witness :
  sanitizeHtml "a&b" = sanitizeHtml "a&b" /\ "a&b" = "a&b".
Proof.
  split; [reflexivity|]. apply (sanitizeHtml_injective "a&b" "a&b"). reflexivity.
Defined.

(** X24. A text comes back unchanged exactly when it holds none of the six
    characters.  Escaping an escaped text again changes it unless the
    original held none of them, so the function is not idempotent: an
    ampersand escaped twice reads as the entity's text, not as an
    ampersand. *)
Theorem sanitizeHtml_fixed_points (s : string) :
  (sanitizeHtml s = s <-> plain s = true) /\
  (sanitizeHtml (sanitizeHtml s) = sanitizeHtml s <-> plain s = true) /\
  sanitizeHtml (sanitizeHtml ("&" ++ s)) = "&amp;amp;" ++ sanitizeHtml (sanitizeHtml s).
Proof.
  rewrite !sanitizeHtml_escape_each. split; [apply escape_each_fixed|]. split.
  - rewrite <- escape_each_fixed.
    split; [apply escape_each_inj | intros E; f_equal; exact E].
  - reflexivity.
Qed.

(** ** Authentication *)

Lemma split_space_field (field rest : string) :
  occurs " " field = false ->
  split_space (field ++ " " ++ rest) = field :: split_space rest.
Proof.
  induction field as [|a field IH]; simpl; [reflexivity|].
  intros H. apply orb_false_iff in H as [Ha Hf].
  specialize (IH Hf). simpl in IH. rewrite Ha, IH. reflexivity.
Qed.

Lemma split_space_one (field : string) :
  occurs " " field = false -> split_space field = [field].
Proof.
  induction field as [|a field IH]; simpl; [reflexivity|].
  intros H. apply orb_false_iff in H as [Ha Hf].
  rewrite Ha, (IH Hf). reflexivity.
Qed.

Lemma append_space_nonempty (s t : string) :
  String.eqb (s ++ " " ++ t) "" = false.
Proof. destruct s; reflexivity. Qed.

Lemma bearer_token_second_field (scheme token : string) :
  occurs " " scheme = false -> occurs " " token = false ->
  bearer_token (Some (scheme ++ " " ++ token)) = Some token /\
  forall junk,
    bearer_token (Some (scheme ++ " " ++ token ++ " " ++ junk)) = Some token.
Proof.
  intros Hs Ht. unfold bearer_token. split; [|intros junk].
  - rewrite append_space_nonempty, (split_space_field _ _ Hs),
      (split_space_one _ Ht). reflexivity.
  - rewrite append_space_nonempty, (split_space_field _ _ Hs),
      (split_space_field _ _ Ht). reflexivity.
Qed.

(** X25. [authenticateToken] reads the second space-separated field of the
    Authorization header and nothing else: the scheme word in front of it
    is not compared with Bearer, and whatever follows a second space is
    dropped.  A header without a space, and one whose second field is
    empty, are answered 401 without the token being verified. *)
Theorem authenticateToken_reads_second_field
    (verifyToken : string -> option AuthUser) (scheme token junk : string) :
  occurs " " scheme = false -> occurs " " token = false ->
  authenticateToken verifyToken (Some (scheme ++ " " ++ token))
  = authenticateToken verifyToken (Some ("Bearer " ++ token)) /\
  authenticateToken verifyToken (Some (scheme ++ " " ++ token ++ " " ++ junk))
  = authenticateToken verifyToken (Some ("Bearer " ++ token)) /\
  authenticateToken verifyToken (Some scheme)
  = inl (res 401 (error "Access token required")) /\
  authenticateToken verifyToken (Some ("Bearer " ++ token))
  = if String.eqb token "" then inl (res 401 (error "Access token required"))
    else match verifyToken token with
         | Some decoded => inr decoded
         | None => inl (res 403 (error "Invalid or expired token"))
         end.
Proof.
  intros Hs Ht.
  destruct (bearer_token_second_field scheme token Hs Ht) as [B1 B2].
  destruct (bearer_token_second_field "Bearer" token eq_refl Ht) as [B3 _].
  unfold authenticateToken.
  change ("Bearer " ++ token) with ("Bearer" ++ " " ++ token).
  rewrite B1, B2, B3. repeat split.
  - unfold bearer_token. destruct (String.eqb_spec scheme "") as [->|Hne];
      [reflexivity|]. now rewrite (split_space_one _ Hs).
  - simpl. now destruct (String.eqb token "").
Qed.

Lemma authenticateToken_reads_second_field_witness :
  authenticateToken Session.verifyToken (Some "Basic admin-jwt trailing words")
  = inr Sample.an_admin.
Proof.
  destruct (authenticateToken_reads_second_field Session.verifyToken
              "Basic" "admin-jwt" "trailing words" eq_refl eq_refl)
    as (_ & H & _).
  exact H.
Defined.

(** X26. On the two admin routes, refund and order status, a request whose
    token does not verify to an admin is answered 401 or 403 by the
    middleware, with the same response on both routes, and the store is
    left as it was whatever the request asks for. *)
Theorem admin_routes_refuse_others
    (verifyToken : string -> option AuthUser) (authorization : option string)
    (provider_refund : option string) (payment_id : string) (amount : option Z)
    (now : Z) (id status : string) (notes : option string) (db : Store) :
  (forall u, authenticateToken verifyToken authorization = inr u ->
             role u = customer) ->
  exists r,
    In r [res 401 (error "Access token required");
          res 403 (error "Invalid or expired token");
          res 403 (error "Insufficient permissions")] /\
    POST_refund verifyToken authorization provider_refund payment_id amount db
    = (r, db) /\
    PUT_status verifyToken authorization now id status notes db = (r, db).
Proof.
  intros H. unfold POST_refund, PUT_status.
  destruct (authenticateToken verifyToken authorization) as [r|u] eqn:E.
  - exists r. split; [|split; reflexivity].
    unfold authenticateToken in E.
    destruct (bearer_token authorization) as [t|]; [|injection E as <-; simpl; tauto].
    destruct (negb (JS.truthy (Some t))); [injection E as <-; simpl; tauto|].
    destruct (verifyToken t); [discriminate E | injection E as <-; simpl; tauto].
  - simpl. rewrite (H u eq_refl). eexists. split; [|split; reflexivity].
    simpl; tauto.
Qed.

Lemma admin_routes_refuse_others_witness :
  exists r,
    In r [res 401 (error "Access token required");
          res 403 (error "Invalid or expired token");
          res 403 (error "Insufficient permissions")] /\
    POST_refund Session.verifyToken (Some "Bearer customer-jwt") (Some "RF-1")
      "PAY_1" None Sample.db_paid = (r, Sample.db_paid) /\
    PUT_status Session.verifyToken (Some "Bearer customer-jwt") Sample.t0
      "ORD_1" "cancelled" None Sample.db_paid = (r, Sample.db_paid).
Proof.
  apply (admin_routes_refuse_others Session.verifyToken
           (Some "Bearer customer-jwt") (Some "RF-1") "PAY_1" None Sample.t0
           "ORD_1" "cancelled" None Sample.db_paid).
  intros u E. vm_compute in E. injection E as <-. reflexivity.
Defined.

(** X27. Behind the middleware the handlers' own admin check never fires:
    neither admin route ever answers Access denied, and with an admin's
    token the route answers as the handler does for that admin. *)
Theorem admin_check_of_handlers_unreachable
    (verifyToken : string -> option AuthUser) (authorization : option string)
    (provider_refund : option string) (payment_id : string) (amount : option Z)
    (now : Z) (id status : string) (notes : option string) (db : Store) :
  body (fst (POST_refund verifyToken authorization provider_refund payment_id
               amount db)) <> error "Access denied" /\
  body (fst (PUT_status verifyToken authorization now id status notes db))
  <> error "Access denied" /\
  forall u, authenticateToken verifyToken authorization = inr u ->
    role u = admin ->
    POST_refund verifyToken authorization provider_refund payment_id amount db
    = refundPayment provider_refund
        {| rf_user := Some u; rf_payment_id := payment_id; rf_amount := amount |}
        db /\
    PUT_status verifyToken authorization now id status notes db
    = updateOrderStatus now
        {| UpdateOrderStatusReq.user := Some u; UpdateOrderStatusReq.id := id;
           UpdateOrderStatusReq.status := status;
           UpdateOrderStatusReq.notes := notes |} db.
Proof.
  unfold POST_refund, PUT_status.
  destruct (authenticateToken verifyToken authorization) as [r|u] eqn:E.
  - assert (Hr : body r <> error "Access denied").
    { unfold authenticateToken in E.
      destruct (bearer_token authorization) as [t|];
        [|injection E as <-; discriminate].
      destruct (negb (JS.truthy (Some t))); [injection E as <-; discriminate|].
      destruct (verifyToken t); [discriminate E | injection E as <-; discriminate]. }
    split; [exact Hr | split; [exact Hr | discriminate]].
  - destruct u as [uid []]; simpl.
    + split; [discriminate | split; [discriminate|]].
      intros v [= <-] Hv; discriminate Hv.
    + split; [|split].
      * unfold refundPayment. simpl.
        destruct (negb (validate_refundPayment _)); [discriminate|].
        destruct (Mongo.findOne _ _) as [p|]; [|discriminate].
        destruct (Payment.provider p); try discriminate;
          destruct provider_refund; discriminate.
      * unfold updateOrderStatus. simpl.
        destruct (negb (validate_updateOrderStatus _)); [discriminate|].
        destruct (OrderStatus_of_string status); [|discriminate].
        destruct (negb (notes_ok notes)); [discriminate|].
        destruct (Mongo.findOne _ _); discriminate.
      * intros v [= <-] _. split; reflexivity.
Qed.

Lemma admin_check_of_handlers_unreachable_witness :
  POST_refund Session.verifyToken (Some "Bearer admin-jwt") (Some "RF-1")
    "PAY_1" None Sample.db_paid
  = refundPayment (Some "RF-1")
      {| rf_user := Some Sample.an_admin; rf_payment_id := "PAY_1";
         rf_amount := None |} Sample.db_paid.
Proof.
  destruct (admin_check_of_handlers_unreachable Session.verifyToken
              (Some "Bearer admin-jwt") (Some "RF-1") "PAY_1" None Sample.t0
              "ORD_1" "cancelled" None Sample.db_paid) as (_ & _ & H).
  destruct (H Sample.an_admin eq_refl eq_refl) as [H1 _]. exact H1.
Defined.

(** X28. Through its route, an order is shown to the bearer of a verified
    token exactly when the bearer is an admin or the order records the
    bearer as its user; every other bearer is answered Access denied.  An
    order that records no user is shown to admins only. *)
Theorem order_shown_to_owner_or_admin
    (verifyToken : string -> option AuthUser) (authorization : option string)
    (u : AuthUser) (id : string) (db : Store) (o : Order.t) :
  authenticateToken verifyToken authorization = inr u ->
  Mongo.findOne (order_by_id id) (orders db) = Some o ->
  (GET_order verifyToken authorization id db = res 200 (order_json o) \/
   GET_order verifyToken authorization id db = res 403 (error "Access denied")) /\
  (GET_order verifyToken authorization id db = res 200 (order_json o) <->
   role u = admin \/ Order.user_id o = Some (userId u)) /\
  (Order.user_id o = None -> role u = customer ->
   GET_order verifyToken authorization id db = res 403 (error "Access denied")).
Proof.
  intros E Hf. unfold GET_order, getOrderById, access_denied.
  rewrite E, Hf. destruct u as [uid r]. simpl.
  destruct r, (Order.user_id o) as [x|]; simpl;
    try destruct (String.eqb_spec x uid) as [->|Hne]; simpl;
    repeat split; try tauto; try discriminate; try congruence;
    try (intros [H|H]; congruence).
Qed.

Lemma order_shown_to_owner_or_admin_witness :
  GET_order Session.verifyToken (Some "Bearer customer-jwt") "ORD_77"
    Session.db_owned <> res 403 (error "Access denied") /\
  GET_order Session.verifyToken (Some "Bearer customer-jwt") "ORD_1"
    Session.db_owned = res 403 (error "Access denied").
Proof.
  split.
  - destruct (order_shown_to_owner_or_admin Session.verifyToken
                (Some "Bearer customer-jwt") Fixture.a_customer "ORD_77"
                Session.db_owned _ eq_refl eq_refl) as (_ & H & _).
    destruct H as [_ H]. rewrite (H (or_intror eq_refl)). discriminate.
  - destruct (order_shown_to_owner_or_admin Session.verifyToken
                (Some "Bearer customer-jwt") Fixture.a_customer "ORD_1"
                Session.db_owned _ eq_refl eq_refl) as (_ & _ & H).
    exact (H eq_refl eq_refl).
Defined.

(** ** Products taken off sale *)

Lemma no_active_without_id (id : string) (ps : list Product.t) :
  ~ In id (map Product.id ps) ->
  Mongo.findOne (active_product_by_id id) ps = None.
Proof.
  induction ps as [|p ps IH]; simpl; [reflexivity|]. intros H.
  unfold active_product_by_id at 1.
  destruct (String.eqb_spec (Product.id p) id); [tauto|]. simpl.
  apply IH. tauto.
Qed.

Lemma no_active_after_deactivate (id : string) (ps : list Product.t) :
  NoDup (map Product.id ps) ->
  Mongo.findOne (active_product_by_id id)
    (Mongo.findOneAndUpdate (product_by_id id) ProductController.deactivate ps)
  = None.
Proof.
  induction ps as [|p ps IH]; simpl; [reflexivity|]. intros H.
  inversion H as [|? ? Hnot Hnd]; subst.
  unfold product_by_id at 1.
  destruct (String.eqb_spec (Product.id p) id) as [E|E]; simpl.
  - unfold active_product_by_id at 1. simpl. rewrite andb_false_r.
    apply no_active_without_id. now rewrite <- E.
  - unfold active_product_by_id at 1.
    destruct (String.eqb_spec (Product.id p) id); [contradiction|]. simpl.
    now apply IH.
Qed.

Lemma deactivate_other (id j : string) (ps : list Product.t) :
  j <> id ->
  Mongo.findOne (active_product_by_id j)
    (Mongo.findOneAndUpdate (product_by_id id) ProductController.deactivate ps)
  = Mongo.findOne (active_product_by_id j) ps.
Proof.
  intros Hj. induction ps as [|p ps IH]; simpl; [reflexivity|].
  unfold product_by_id at 1.
  destruct (String.eqb_spec (Product.id p) id) as [E|E]; simpl.
  - unfold active_product_by_id at 1 3. simpl.
    destruct (String.eqb_spec (Product.id p) j); [congruence | reflexivity].
  - now rewrite IH.
Qed.

Lemma deactivate_twice (id : string) (ps : list Product.t) :
  Mongo.findOneAndUpdate (product_by_id id) ProductController.deactivate
    (Mongo.findOneAndUpdate (product_by_id id) ProductController.deactivate ps)
  = Mongo.findOneAndUpdate (product_by_id id) ProductController.deactivate ps.
Proof.
  induction ps as [|p ps IH]; simpl; [reflexivity|].
  destruct (product_by_id id p) eqn:E; simpl.
  - unfold product_by_id in *. simpl. now rewrite E.
  - now rewrite E, IH.
Qed.

Lemma deactivate_still_found (id : string) (ps : list Product.t) (p : Product.t) :
  Mongo.findOne (product_by_id id) ps = Some p ->
  Mongo.findOne (product_by_id id)
    (Mongo.findOneAndUpdate (product_by_id id) ProductController.deactivate ps)
  = Some (ProductController.deactivate p).
Proof.
  induction ps as [|x ps IH]; simpl; [discriminate|].
  destruct (product_by_id id x) eqn:E; simpl.
  - intros [= ->]. unfold product_by_id in *. simpl. now rewrite E.
  - rewrite E. exact IH.
Qed.

Lemma validate_items_missing (ps : list Product.t)
    (items : list CreateOrderReq.item) (item : CreateOrderReq.item) :
  In item items ->
  Mongo.findOne (active_product_by_id (CreateOrderReq.product_id item)) ps = None ->
  forall subtotal_cop validatedItems,
    exists msg, validate_items ps items subtotal_cop validatedItems = inl msg.
Proof.
  intros Hin Hnone. induction items as [|i items IH]; [contradiction|].
  intros s v. simpl.
  destruct (Mongo.findOne (active_product_by_id (CreateOrderReq.product_id i)) ps)
    as [product|] eqn:E; [|eauto].
  destruct (match Product.inventory product with
            | Some inv => inv <? CreateOrderReq.quantity i
            | None => false
            end); [eauto|].
  destruct Hin as [->|Hin]; [congruence|]. now apply IH.
Qed.

(** X29. Deleting a product takes it off sale and removes nothing.  Under
    the unique index on product ids, after a successful delete the product
    is no longer served by id, every order request naming it is answered
    400 with the store untouched, and the other products are found as
    before; orders, payments, and every product's id and inventory stay as
    they were.  Deleting it again answers 200 again and changes nothing. *)
Theorem deleteProduct_takes_off_sale (rt : Runtime) (id : string)
    (db db' : Store) :
  product_ids_unique db ->
  ProductController.deleteProduct id db
  = (ProductController.message_json 200 "Product deleted successfully", db') ->
  ProductController.status_of (ProductController.getProductById id db') <> 200 /\
  (forall generateOrderId req item,
     In item (CreateOrderReq.items req) ->
     CreateOrderReq.product_id item = id ->
     code (fst (createOrder rt generateOrderId req db')) = 400 /\
     snd (createOrder rt generateOrderId req db') = db') /\
  (forall j, j <> id ->
     ProductController.getProductById j db'
     = ProductController.getProductById j db) /\
  orders db' = orders db /\ payments db' = payments db /\
  map Product.id (products db') = map Product.id (products db) /\
  map Product.inventory (products db') = map Product.inventory (products db) /\
  ProductController.deleteProduct id db'
  = (ProductController.message_json 200 "Product deleted successfully", db').
Proof.
  intros Hu Hd. unfold ProductController.deleteProduct in Hd.
  destruct (Mongo.findOne (product_by_id id) (products db)) as [p|] eqn:Hf;
    [|discriminate Hd].
  injection Hd as <-.
  pose proof (no_active_after_deactivate id (products db) Hu) as Hgone.
  split; [|split; [|split; [|split; [|split; [|split; [|split]]]]]].
  - unfold ProductController.getProductById. simpl.
    destruct (negb (isLength_min1 id)); [discriminate|].
    rewrite Hgone. discriminate.
  - intros g req item Hin <-. unfold createOrder.
    destruct (negb (validate_createOrder rt req)); [split; reflexivity|].
    destruct (CreateOrderReq.items req) as [|i items] eqn:Hi; [contradiction|].
    destruct (validate_items_missing _ _ item Hin Hgone 0 []) as [msg Hm].
    simpl products in *. rewrite Hm. split; reflexivity.
  - intros j Hj. unfold ProductController.getProductById. simpl.
    now rewrite (deactivate_other id j _ Hj).
  - reflexivity.
  - reflexivity.
  - simpl. clear. induction (products db) as [|x ps IH]; simpl; [reflexivity|].
    destruct (product_by_id id x); simpl; [reflexivity | now rewrite IH].
  - simpl. clear. induction (products db) as [|x ps IH]; simpl; [reflexivity|].
    destruct (product_by_id id x); simpl; [reflexivity | now rewrite IH].
  - unfold ProductController.deleteProduct. simpl.
    rewrite (deactivate_still_found id _ p Hf), deactivate_twice.
    reflexivity.
Qed.

Lemma deleteProduct_takes_off_sale_witness :
  code (fst (createOrder Sample.rt "ORD_9" Sample.order_req
               (snd (ProductController.deleteProduct "prod-1" Sample.catalogue))))
  = 400.
Proof.
  destruct (deleteProduct_takes_off_sale Sample.rt "prod-1" Sample.catalogue
              (snd (ProductController.deleteProduct "prod-1" Sample.catalogue)))
    as (_ & H & _).
  - unfold product_ids_unique. simpl.
    repeat constructor; simpl; intuition discriminate.
  - reflexivity.
  - destruct (H "ORD_9" Sample.order_req
                {| CreateOrderReq.product_id := "prod-1";
                   CreateOrderReq.quantity := 2;
                   CreateOrderReq.price_cop := Some 1 |}) as [Hc _].
    + left. reflexivity.
    + reflexivity.
    + exact Hc.
Defined.
